(** * Electricity consumption / spot price reconciliation

    A shallow embedding of the reconciliation and caching core of the
    application: [services/dataProcessor.ts] (combineData), the retrying
    request helper and the month normalisation of
    [services/eleniaService.ts], the price post-processing of the Vattenfall
    price service and of [services/spotPriceService.ts]; and of what is
    built around it: the three requests of a consumption fetch and the
    credential test, the CSV text and the file paths of the caches, the
    margin arithmetic of the price data hook and the margin field of the
    settings screen.

    JavaScript numbers are IEEE-754 binary64 values, so they are modelled by
    Rocq's primitive floats; [Number(x.toFixed(d))] is computed exactly on the
    binary value, as the language specification prescribes.  Time values are
    integers (milliseconds since the epoch); [new Date(s)] is modelled for the
    ECMAScript date-time string format. *)

From Equations Require Import Equations.
From Stdlib Require Import ZArith Bool List String Ascii Lia Floats.
From Stdlib Require Import Sorting.Sorted Sorting.Permutation.
From stdpp Require Import gmap strings.
Import ListNotations.

Local Open Scope Z_scope.

(* ===================================================================== *)
(** ** JavaScript numbers *)
(* ===================================================================== *)

Module JSNumber.

(** The text produced by [Number.prototype.toFixed], kept structured: the
    decimal digits as an integer together with the number of fraction
    digits.  [NumShortest x] stands for the shortest round-tripping rendering
    that [toFixed] falls back to when [|x| >= 1e21]. *)
Inductive numeral :=
| NumNaN
| NumInfinity (neg : bool)
| NumFixed (neg : bool) (n : Z) (digits : nat)
| NumShortest (x : float).

(** [n] such that [n / 10^d - m * 2^e] is as close to zero as possible, the
    larger [n] on a tie (step 10 of Number.prototype.toFixed). *)
Definition roundHalfUp (m : positive) (e : Z) (d : nat) : Z :=
  let num := Zpos m * 10 ^ Z.of_nat d in
  match e with
  | Zneg p => (2 * num + 2 ^ Zpos p) / (2 * 2 ^ Zpos p)
  | _ => num * 2 ^ e
  end.

Definition toFixed (x : float) (d : nat) : numeral :=
  match Prim2SF x with
  | S754_nan => NumNaN
  | S754_infinity s => NumInfinity s
  | S754_zero _ => NumFixed false 0 d
  | S754_finite s m e =>
      if (PrimFloat.abs x <? 1e21)%float
      then NumFixed s (roundHalfUp m e d) d
      else NumShortest x
  end.

(** [Number(text)] for the texts [toFixed] produces: the binary64 value
    nearest to the decimal, ties to even. *)
Definition Number (s : numeral) : float :=
  match s with
  | NumNaN => nan
  | NumInfinity neg => if neg then neg_infinity else infinity
  | NumShortest x => x
  | NumFixed neg n d =>
      match n with
      | Zpos p =>
          SF2Prim (SFdiv prec emax (S754_finite neg p 0)
                     (S754_finite false (Z.to_pos (10 ^ Z.of_nat d)) 0))
      | _ => if neg then neg_zero else zero
      end
  end.

Definition isNaN (x : float) : bool := PrimFloat.is_nan x.

(** [x !== y] on numbers. *)
Definition strictNe (x y : float) : bool := negb (x =? y)%float.

(** Truncation of a finite number to an integer (ToIntegerOrInfinity). *)
Definition truncate (x : float) : option Z :=
  match Prim2SF x with
  | S754_zero _ => Some 0
  | S754_finite s m e =>
      let a := match e with
               | Zneg p => Zpos m / 2 ^ Zpos p
               | _ => Zpos m * 2 ^ e
               end in
      Some (if s then - a else a)
  | _ => None
  end.

End JSNumber.

(** Values a JSON payload may put where the interfaces promise a [string]
    or a [number]. *)
Inductive jsval :=
| JUndefined
| JNull
| JBool (b : bool)
| JNum (x : float)
| JStr (s : string).

(* ===================================================================== *)
(** ** JavaScript dates *)
(* ===================================================================== *)

Module JSDate.

Definition msPerDay : Z := 86400000.
Definition msPerHour : Z := 3600000.
Definition msPerMinute : Z := 60000.
Definition msPerSecond : Z := 1000.
Definition maxTime : Z := 8640000000000000.

Definition Day (t : Z) : Z := t / msPerDay.
Definition TimeWithinDay (t : Z) : Z := t mod msPerDay.

Definition DayFromYear (y : Z) : Z :=
  365 * (y - 1970) + (y - 1969) / 4 - (y - 1901) / 100 + (y - 1601) / 400.

Definition isLeap (y : Z) : bool :=
  ((y mod 4 =? 0) && negb (y mod 100 =? 0)) || (y mod 400 =? 0).

(** The largest [y] with [DayFromYear y <= d]: an estimate from the mean
    year length, corrected by one. *)
Definition YearFromDay (d : Z) : Z :=
  let y0 := 1970 + (400 * d) / 146097 in
  if d <? DayFromYear y0 then y0 - 1
  else if DayFromYear (y0 + 1) <=? d then y0 + 1
  else y0.

(** Day number, within its year, of the first day of month [m] (0..11). *)
Definition monthStart (leap : bool) (m : Z) : Z :=
  let l := if leap then 1 else 0 in
  match m with
  | 0 => 0
  | 1 => 31
  | 2 => 59 + l
  | 3 => 90 + l
  | 4 => 120 + l
  | 5 => 151 + l
  | 6 => 181 + l
  | 7 => 212 + l
  | 8 => 243 + l
  | 9 => 273 + l
  | 10 => 304 + l
  | 11 => 334 + l
  | _ => 365 + l
  end.

Definition MonthFromDayInYear (leap : bool) (diy : Z) : Z :=
  if diy <? monthStart leap 1 then 0
  else if diy <? monthStart leap 2 then 1
  else if diy <? monthStart leap 3 then 2
  else if diy <? monthStart leap 4 then 3
  else if diy <? monthStart leap 5 then 4
  else if diy <? monthStart leap 6 then 5
  else if diy <? monthStart leap 7 then 6
  else if diy <? monthStart leap 8 then 7
  else if diy <? monthStart leap 9 then 8
  else if diy <? monthStart leap 10 then 9
  else if diy <? monthStart leap 11 then 10
  else 11.

Definition YearFromTime (t : Z) : Z := YearFromDay (Day t).
Definition DayWithinYear (t : Z) : Z := Day t - DayFromYear (YearFromTime t).
Definition MonthFromTime (t : Z) : Z :=
  MonthFromDayInYear (isLeap (YearFromTime t)) (DayWithinYear t).
Definition DateFromTime (t : Z) : Z :=
  DayWithinYear t - monthStart (isLeap (YearFromTime t)) (MonthFromTime t) + 1.
Definition HourFromTime (t : Z) : Z := (t / msPerHour) mod 24.
Definition MinFromTime (t : Z) : Z := (t / msPerMinute) mod 60.
Definition SecFromTime (t : Z) : Z := (t / msPerSecond) mod 60.
Definition msFromTime (t : Z) : Z := t mod msPerSecond.

(** [MakeDay] for a month in 0..11 (the only calls made here). *)
Definition MakeDay (y m d : Z) : Z :=
  DayFromYear y + monthStart (isLeap y) m + d - 1.
Definition MakeTime (h mi s ms : Z) : Z :=
  h * msPerHour + mi * msPerMinute + s * msPerSecond + ms.
Definition MakeDate (day time : Z) : Z := day * msPerDay + time.
Definition TimeClip (t : Z) : option Z :=
  if Z.abs t <=? maxTime then Some t else None.

(** *** Decimal fields *)

Definition digitChar (d : Z) : ascii := ascii_of_N (Z.to_N (48 + d)).

Definition digitVal (c : ascii) : option Z :=
  let n := Z.of_N (N_of_ascii c) in
  if (48 <=? n) && (n <=? 57) then Some (n - 48) else None.

(** [k] decimal digits of [n], most significant first. *)
Fixpoint padDigits (k : nat) (n : Z) : string :=
  match k with
  | O => EmptyString
  | S k' => String (digitChar ((n / 10 ^ Z.of_nat k') mod 10)) (padDigits k' n)
  end.

Fixpoint readDigits (k : nat) (acc : Z) (s : string) : option (Z * string) :=
  match k with
  | O => Some (acc, s)
  | S k' =>
      match s with
      | String c r =>
          match digitVal c with
          | Some d => readDigits k' (10 * acc + d) r
          | None => None
          end
      | EmptyString => None
      end
  end.

Definition expect (c : ascii) (s : string) : option string :=
  match s with
  | String c' r => if Ascii.eqb c c' then Some r else None
  | EmptyString => None
  end.

(** *** Date.prototype.toISOString *)

Definition yearText (y : Z) : string :=
  if (0 <=? y) && (y <=? 9999) then padDigits 4 y
  else if y <? 0 then String "-" (padDigits 6 (- y))
  else String "+" (padDigits 6 y).

(** The text up to the seconds. *)
Definition isoHead (t : Z) : string :=
  (yearText (YearFromTime t) ++ "-" ++ padDigits 2 (MonthFromTime t + 1)
   ++ "-" ++ padDigits 2 (DateFromTime t)
   ++ "T" ++ padDigits 2 (HourFromTime t)
   ++ ":" ++ padDigits 2 (MinFromTime t)
   ++ ":" ++ padDigits 2 (SecFromTime t))%string.

Definition toISOString (t : Z) : string :=
  (isoHead t ++ "." ++ padDigits 3 (msFromTime t) ++ "Z")%string.

(** *** Date.parse on the date-time string format

    [YYYY[-MM[-DD]]], optionally [THH:mm[:ss[.sss]]], optionally [Z] or
    [+HH:mm] / [-HH:mm]; years may be written [+YYYYYY] / [-YYYYYY].  Any
    other text is an invalid date (the engine-specific fallback formats are
    not modelled).  The day of the month is checked against 1..31 and
    carried over by [MakeDay], as V8 does. *)

Definition readYear (s : string) : option (Z * string) :=
  match s with
  | String "+" r => readDigits 6 0 r
  | String "-" r =>
      match readDigits 6 0 r with
      | Some (y, r') => if y =? 0 then None else Some (- y, r')
      | None => None
      end
  | _ => readDigits 4 0 s
  end.

(** Optional [-NN] field; [dflt] when the text does not go on with [-]. *)
Definition readDashField (dflt : Z) (s : string) : option (Z * string * bool) :=
  match s with
  | String "-" r =>
      match readDigits 2 0 r with
      | Some (n, r') => Some (n, r', true)
      | None => None
      end
  | _ => Some (dflt, s, false)
  end.

Definition readFraction (s : string) : option (Z * string) :=
  match s with
  | String "." r => readDigits 3 0 r
  | _ => Some (0, s)
  end.

Definition readSeconds (s : string) : option (Z * Z * string) :=
  match s with
  | String ":" r =>
      match readDigits 2 0 r with
      | Some (sec, r') =>
          match readFraction r' with
          | Some (ms, r'') => Some (sec, ms, r'')
          | None => None
          end
      | None => None
      end
  | _ => Some (0, 0, s)
  end.

(** The time of day in milliseconds, when the text has a [T] part. *)
Definition readTime (s : string) : option (option Z * string) :=
  match s with
  | String "T" r =>
      match readDigits 2 0 r with
      | Some (h, r1) =>
          match expect ":" r1 with
          | Some r2 =>
              match readDigits 2 0 r2 with
              | Some (mi, r3) =>
                  match readSeconds r3 with
                  | Some (sec, ms, r4) =>
                      if ((h <=? 23) && (mi <=? 59) && (sec <=? 59))
                         || ((h =? 24) && (mi =? 0) && (sec =? 0) && (ms =? 0))
                      then Some (Some (MakeTime h mi sec ms), r4)
                      else None
                  | None => None
                  end
              | None => None
              end
          | None => None
          end
      | None => None
      end
  | _ => Some (None, s)
  end.

Definition readOffsetBody (s : string) : option Z :=
  match readDigits 2 0 s with
  | Some (h, r1) =>
      match expect ":" r1 with
      | Some r2 =>
          match readDigits 2 0 r2 with
          | Some (mi, EmptyString) =>
              if (h <=? 23) && (mi <=? 59)
              then Some (h * msPerHour + mi * msPerMinute)
              else None
          | _ => None
          end
      | None => None
      end
  | None => None
  end.

(** The zone designator: [Some None] when absent, [Some (Some off)] for an
    offset of [off] milliseconds east of UTC. *)
Definition readZone (s : string) : option (option Z) :=
  match s with
  | EmptyString => Some None
  | String "Z" EmptyString => Some (Some 0)
  | String "+" r => option_map Some (readOffsetBody r)
  | String "-" r => option_map (fun o => Some (- o)) (readOffsetBody r)
  | _ => None
  end.

Section Parse.

(** [LocalTZA t isUTC]: the offset of the device's time zone, in
    milliseconds, at UTC time [t] ([isUTC = true]) or at local time [t]. *)
Variable LocalTZA : Z -> bool -> Z.

Definition parse (s : string) : option Z :=
  match readYear s with
  | Some (y, s1) =>
      match readDashField 1 s1 with
      | Some (mo, s2, hasMonth) =>
          match (if hasMonth then readDashField 1 s2 else Some (1, s2, false)) with
          | Some (d, s3, _) =>
              match readTime s3 with
              | Some (tod, s4) =>
                  match readZone s4 with
                  | Some zone =>
                      if (1 <=? mo) && (mo <=? 12) && (1 <=? d) && (d <=? 31)
                      then
                        let local :=
                          MakeDate (MakeDay y (mo - 1) d)
                            (match tod with Some ms => ms | None => 0 end) in
                        match zone, tod with
                        | Some off, Some _ => TimeClip (local - off)
                        | Some _, None => None
                        | None, Some _ => TimeClip (local - LocalTZA local false)
                        | None, None => TimeClip local
                        end
                      else None
                  | None => None
                  end
              | None => None
              end
          | None => None
          end
      | None => None
      end
  | None => None
  end.

(** [new Date(v)]: the time value, [None] for an invalid date. *)
Definition newDate (v : jsval) : option Z :=
  match v with
  | JStr s => parse s
  | JNum x =>
      match JSNumber.truncate x with
      | Some t => TimeClip t
      | None => None
      end
  | JNull => Some 0
  | JBool b => Some (if b then 1 else 0)
  | JUndefined => None
  end.

Definition LocalTime (t : Z) : Z := t + LocalTZA t true.
Definition getFullYear (t : Z) : Z := YearFromTime (LocalTime t).
Definition getMonth (t : Z) : Z := MonthFromTime (LocalTime t).
Definition getDate (t : Z) : Z := DateFromTime (LocalTime t).
Definition getHours (t : Z) : Z := HourFromTime (LocalTime t).

End Parse.

End JSDate.

(* ===================================================================== *)
(** ** Errors, arrays *)
(* ===================================================================== *)

Inductive JSError :=
| AxiosError (message : string) (status : option Z)
| RangeError (message : string)
| Error (message : string).

Inductive result (A : Type) :=
| Ok (a : A)
| Err (e : JSError).
Arguments Ok {A} a.
Arguments Err {A} e.

(** [await] on a promise that may reject, [throw] as [Err]: the rest of a
    [try] body is skipped by the first error. *)
#[global] Instance result_bind : MBind result :=
  fun A B (k : A -> result B) (r : result A) =>
    match r with
    | Ok a => k a
    | Err e => Err e
    end.

(** [array.map(f)] where [f] may throw: the first exception aborts. *)
Fixpoint mapThrowing {A B} (f : A -> result B) (l : list A) : result (list B) :=
  match l with
  | [] => Ok []
  | a :: l' => b ← f a; bs ← mapThrowing f l'; Ok (b :: bs)
  end.

(** [Array.prototype.sort(cmp)]: the sort is stable, and a comparator
    result that is positive puts the first argument after the second. *)
Fixpoint insertSorted {A} (cmp : A -> A -> Z) (x : A) (l : list A) : list A :=
  match l with
  | [] => [x]
  | y :: l' => if 0 <? cmp x y then y :: insertSorted cmp x l' else x :: l
  end.

Definition arraySort {A} (cmp : A -> A -> Z) (l : list A) : list A :=
  fold_right (insertSorted cmp) [] l.

(** [a.localeCompare(b)], by code units (the collation of the ASCII digit
    and hyphen keys this program sorts). *)
Definition localeCompare (a b : string) : Z :=
  match String.compare a b with
  | Lt => -1
  | Eq => 0
  | Gt => 1
  end.

(** The order [localeCompare] sorts by. *)
Definition strLe (a b : string) : Prop := localeCompare a b <= 0.
Definition strLt (a b : string) : Prop := localeCompare a b < 0.

(** [s.replace(/\.000Z$/, 'Z')] *)
Fixpoint stripMillis (s : string) : string :=
  match s with
  | EmptyString => EmptyString
  | String c r => if String.eqb s ".000Z" then "Z"%string else String c (stripMillis r)
  end.

Fixpoint endsWithZ (s : string) : bool :=
  match s with
  | EmptyString => false
  | String c EmptyString => Ascii.eqb c "Z"
  | String _ r => endsWithZ r
  end.

(** [s.split(sep)] for a separator of one character. *)
Fixpoint splitOn (sep : ascii) (s : string) : list string :=
  match s with
  | EmptyString => [EmptyString]
  | String c r =>
      if Ascii.eqb c sep then EmptyString :: splitOn sep r
      else
        match splitOn sep r with
        | part :: parts => String c part :: parts
        | [] => [String c EmptyString]
        end
  end.

(** [parts.join(sep)] *)
Fixpoint joinWith (sep : string) (parts : list string) : string :=
  match parts with
  | [] => EmptyString
  | [part] => part
  | part :: rest => (part ++ sep ++ joinWith sep rest)%string
  end.

(** The line feed. *)
Definition LF : ascii := "010"%char.

(* ===================================================================== *)
(** ** The price service (Vattenfall) *)
(* ===================================================================== *)

Record PriceData := { timeStamp : string; value : float }.

Module VattenfallService.
Section WithZone.
Variable LocalTZA : Z -> bool -> Z.

Definition VAT_RATE : float := 0.255%float.

(** One row of [data.map(row => ...)]; [toISOString] throws a RangeError on
    an invalid date. *)
Definition processRow (row : PriceData) : result PriceData :=
  match JSDate.parse LocalTZA (timeStamp row) with
  | None => Err (RangeError "Invalid time value")
  | Some t =>
      Ok {| timeStamp := stripMillis (JSDate.toISOString t);
            value := JSNumber.Number
                       (JSNumber.toFixed (value row * (1 + VAT_RATE))%float 2) |}
  end.

(** [fetchPriceData], given the outcome of the request. *)
Definition fetchPriceData (response : result (list PriceData)) : result (list PriceData) :=
  data ← response; mapThrowing processRow data.

End WithZone.

(** [getCacheFilePath], from [FileSystem.documentDirectory]. *)
Definition getCacheFilePath (documentDirectory year : string) : string :=
  (documentDirectory ++ "vattenfall_hinnat_" ++ year ++ ".csv")%string.

Section Csv.
(** The text of a number in a template literal, and [Number(text)]. *)
Variable numberToString : float -> string.
Variable stringToNumber : string -> float.

Definition csvRow (row : PriceData) : string :=
  (timeStamp row ++ ";" ++ numberToString (value row))%string.

Definition convertToCSV (data : list PriceData) : string :=
  match data with
  | [] => EmptyString
  | _ => joinWith (String LF EmptyString) ("timeStamp;value"%string :: map csvRow data)
  end.

(** [const [timeStamp, value] = row.split(';')]; a missing second field is
    [undefined], which [Number] turns into [NaN]. *)
Definition parseRow (row : string) : PriceData :=
  match splitOn ";" row with
  | timeStamp :: value :: _ =>
      {| timeStamp := timeStamp; value := stringToNumber value |}
  | [timeStamp] => {| timeStamp := timeStamp; value := nan |}
  | [] => {| timeStamp := EmptyString; value := nan |}
  end.

Definition parseCSV (csvContent : string) : list PriceData :=
  let rows := splitOn LF csvContent in
  map parseRow (tl rows).

End Csv.
End VattenfallService.

(* ===================================================================== *)
(** ** The current spot price service *)
(* ===================================================================== *)

(** [timestamp_] is the [timestamp] field (the name is taken by the hourly
    records below). *)
Record SpotPrice := { price : float; timestamp_ : string }.

Module SpotPriceService.
Section WithZone.
Variable LocalTZA : Z -> bool -> Z.

Definition VAT_RATE : float := 0.24%float.

Definition isCurrentHour (now : Z) (p : PriceData) : bool :=
  match JSDate.parse LocalTZA (timeStamp p) with
  | Some t => JSDate.getHours LocalTZA t =? JSDate.getHours LocalTZA now
  | None => false
  end.

Definition withVAT (currentHourPrice : PriceData) : SpotPrice :=
  let priceWithVAT := (value currentHourPrice * (1 + VAT_RATE))%float in
  {| price := JSNumber.Number (JSNumber.toFixed priceWithVAT 2);
     timestamp_ := timeStamp currentHourPrice |}.

(** [getCurrentSpotPrice], given the outcome of the request ([None]: the
    payload is not an array) and the current time. *)
Definition getCurrentSpotPrice (response : result (option (list PriceData))) (now : Z)
  : result SpotPrice :=
  data ← response;
  match data with
  | None | Some [] => Err (Error "No price data available")
  | Some l =>
      match List.find (isCurrentHour now) l with
      | Some currentHourPrice => Ok (withVAT currentHourPrice)
      | None => Err (Error "Current hour price not found")
      end
  end.

End WithZone.
End SpotPriceService.

(* ===================================================================== *)
(** ** The consumption service (Elenia) *)
(* ===================================================================== *)

(** The interface promises [t: string] and [v: number]; the processor
    checks both at run time, so they are kept as plain values here. *)
Record Reading := { t : jsval; v : jsval }.

Record Month := {
  month : string;
  hourly_values_netted : option (list Reading);
  hourly_values : option (list Reading)
}.

Record MeterReadingResponse := { months : list Month }.

Record AxiosResponse (T : Type) := { status : Z; data : T }.
Arguments status {T} _.
Arguments data {T} _.

(** What [axios.request] does at one attempt. *)
Inductive Outcome (T : Type) :=
| Resolved (r : AxiosResponse T)
| Rejected (e : JSError).
Arguments Resolved {T} r.
Arguments Rejected {T} e.

(** What the helper does, in order: a request, or a sleep of so many
    seconds. *)
Inductive Event :=
| Request (attempt : nat)
| Sleep (seconds : Z).

Module EleniaService.

Definition defaultMaxRetries : nat := 5.

Section Retry.
Context {T : Type}.
Variable maxRetries : nat.
(** The outcome of the request made at each attempt index. *)
Variable axios_request : nat -> Outcome T.

Equations? makeRequestWithRetry (attempt : nat)
  : list Event * result (AxiosResponse T) by wf (maxRetries - attempt)%nat lt :=
  makeRequestWithRetry attempt
    with axios_request attempt, lt_dec attempt (maxRetries - 1) := {
    | Resolved response, left _ =>
        if status response =? 504 then
          let waitTime := 2 ^ Z.of_nat attempt in
          let '(log, r) := makeRequestWithRetry (S attempt) in
          (Request attempt :: Sleep waitTime :: log, r)
        else ([Request attempt], Ok response)
    | Resolved response, right _ => ([Request attempt], Ok response)
    | Rejected error, left _ =>
        let waitTime := 2 ^ Z.of_nat attempt in
        let '(log, r) := makeRequestWithRetry (S attempt) in
        (Request attempt :: Sleep waitTime :: log, r)
    | Rejected error, right _ => ([Request attempt], Err error) }.
Proof. all: lia. Qed.

End Retry.

Definition requests (log : list Event) : list nat :=
  flat_map (fun e => match e with Request k => [k] | Sleep _ => [] end) log.

Definition sleeps (log : list Event) : list Z :=
  flat_map (fun e => match e with Sleep s => [s] | Request _ => [] end) log.

Section Readings.
(** [format(utcToZonedTime(date, 'Europe/Helsinki'), "yyyy-MM-dd'T'HH:mm:ssXXX")]
    of date-fns-tz; [None] when it throws. *)
Variable formatHelsinki : option Z -> option string.
Variable LocalTZA : Z -> bool -> Z.

Definition convertTimestamp (timestamp : jsval) : jsval :=
  match formatHelsinki (JSDate.newDate LocalTZA timestamp) with
  | Some s => JStr s
  | None => timestamp
  end.

Definition convertReading (reading : Reading) : Reading :=
  {| t := convertTimestamp (t reading); v := v reading |}.

Definition nonEmpty {A} (o : option (list A)) : bool :=
  match o with
  | Some (_ :: _) => true
  | _ => false
  end.

(** The callback of [response.data.months.map]. *)
Definition normalizeMonth (m : Month) : Month :=
  if nonEmpty (hourly_values_netted m) then
    {| month := month m;
       hourly_values_netted := option_map (map convertReading) (hourly_values_netted m);
       hourly_values := None |}
  else if nonEmpty (hourly_values m) then
    {| month := month m;
       hourly_values_netted := None;
       hourly_values := option_map (map convertReading) (hourly_values m) |}
  else m.

(** [getMeterReadings], given what the request helper returned. *)
Definition getMeterReadings (response : result (AxiosResponse MeterReadingResponse))
  : result MeterReadingResponse :=
  r ← response; Ok {| months := map normalizeMonth (months (data r)) |}.

End Readings.
End EleniaService.

(** *** The requests of one fetch

    The three endpoints the service talks to, each through
    [makeRequestWithRetry], and the public [fetchConsumptionData]. *)

Record MeteringPoint := {
  gsrn : string;
  type_ : option string;
  (** [device?.name] *)
  device : option string
}.

(** [customer_datas] in the order [Object.keys] lists its keys. *)
Record CustomerData := {
  token : string;
  customer_datas : list (string * list MeteringPoint)
}.

Record CognitoAuthResponse := { AccessToken : string }.

(** What [getCustomerData] returns. *)
Record CustomerInfo := {
  apiToken : string;
  customerId : string;
  consumptionGsrn : option string;
  productionGsrn : option string
}.

Inductive Endpoint :=
| CognitoIdp
| CustomerDataAndToken
| MeterReadingYh.

(** What a fetch does on the network, in order. *)
Definition Trace : Type := list (Endpoint * Event).

(** A computation that talks to the network and may throw. *)
Definition Logged (A : Type) : Type := (Trace * result A)%type.

#[global] Instance logged_bind : MBind Logged :=
  fun A B (k : A -> Logged B) (m : Logged A) =>
    match m with
    | (log, Ok a) => let '(log', r) := k a in (log ++ log', r)
    | (log, Err e) => (log, Err e)
    end.

(** The server side: the outcome of each attempt of each request. *)
Record Backend := {
  initiateAuth : string -> string -> nat -> Outcome CognitoAuthResponse;
  customer_data_and_token : string -> nat -> Outcome CustomerData;
  meter_reading_yh :
    string -> string -> string -> string -> nat -> Outcome MeterReadingResponse
}.

Module EleniaClient.

Definition ret {A} (a : A) : Logged A := ([], Ok a).
Definition throw {A} (e : JSError) : Logged A := ([], Err e).
Definition await {A} (r : result A) : Logged A := ([], r).

(** Reading a property of [undefined] throws a TypeError, which is an
    [Error] with the engine's message. *)
Definition TypeError (property : string) : JSError :=
  Error ("Cannot read property '" ++ property ++ "' of undefined").

(** A string or [null] used as a condition. *)
Definition truthy (s : option string) : bool :=
  match s with
  | Some s => negb (String.eqb s "")
  | None => false
  end.

(** The body of the loop over [customerData.meteringpoints]. *)
Definition scanMeteringPoint (found : option string * option string)
    (meteringpoint : MeteringPoint) : option string * option string :=
  let consumptionGsrn :=
    match type_ meteringpoint with
    | Some ty => if String.eqb ty "kulutus" then Some (gsrn meteringpoint) else fst found
    | None => fst found
    end in
  let productionGsrn :=
    match device meteringpoint with
    | Some name =>
        if String.eqb name "Tuotannon virtuaalilaite"
        then Some (gsrn meteringpoint) else snd found
    | None => snd found
    end in
  (consumptionGsrn, productionGsrn).

(** What [getCustomerData] makes of the payload. *)
Definition readCustomerData (metadata : CustomerData) : result CustomerInfo :=
  match customer_datas metadata with
  | [] => Err (TypeError "meteringpoints")
  | (customerId, meteringpoints) :: _ =>
      let found := fold_left scanMeteringPoint meteringpoints (None, None) in
      Ok {| apiToken := token metadata;
            customerId := customerId;
            consumptionGsrn := fst found;
            productionGsrn := snd found |}
  end.

Section Client.
(** [this.maxRetries] *)
Variable maxRetries : nat.
Variable formatHelsinki : option Z -> option string.
Variable LocalTZA : Z -> bool -> Z.
Variable backend : Backend.
(** [const { eleniaUsername } = JSON.parse(settings)] *)
Variable eleniaUsernameOf : string -> result (option string).

Definition request {T} (endpoint : Endpoint) (server : nat -> Outcome T)
  : Logged (AxiosResponse T) :=
  let '(log, r) := EleniaService.makeRequestWithRetry maxRetries server 0 in
  (map (pair endpoint) log, r).

Definition getCognitoToken (username password : string) : Logged string :=
  response ← request CognitoIdp (initiateAuth backend username password);
  ret (AccessToken (data response)).

Definition getCustomerData (bearerToken : string) : Logged CustomerInfo :=
  response ← request CustomerDataAndToken (customer_data_and_token backend bearerToken);
  await (readCustomerData (data response)).

Definition getMeterReadings (apiToken gsrn customerId year : string)
  : Logged MeterReadingResponse :=
  let '(log, response) :=
    request MeterReadingYh (meter_reading_yh backend apiToken gsrn customerId year) in
  (log, EleniaService.getMeterReadings formatHelsinki LocalTZA response).

(** [fetchConsumptionData year], given what [AsyncStorage.getItem] and
    [secureStorage.getPassword] give. *)
Definition fetchConsumptionData (settings password : result (option string))
    (year : string) : Logged (list MeterReadingResponse) :=
  settings ← await settings;
  match settings with
  | None | Some EmptyString => throw (Error "No settings found")
  | Some settings =>
      eleniaUsername ← await (eleniaUsernameOf settings);
      match eleniaUsername with
      | None | Some EmptyString => throw (Error "No username found in settings")
      | Some eleniaUsername =>
          password ← await password;
          match password with
          | None | Some EmptyString => throw (Error "No password found")
          | Some password =>
              bearerToken ← getCognitoToken eleniaUsername password;
              info ← getCustomerData bearerToken;
              if truthy (consumptionGsrn info) then
                match consumptionGsrn info with
                | Some consumptionGsrn =>
                    consumptionData ← getMeterReadings (apiToken info) consumptionGsrn
                                        (customerId info) year;
                    ret [consumptionData]
                | None => ret []
                end
              else ret []
          end
      end
  end.

(** [testEleniaCredentials]: any error gives [false]. *)
Definition testEleniaCredentials (username password : string) : Trace * bool :=
  let '(log, r) :=
    (cognitoToken ← getCognitoToken username password;
     getCustomerData cognitoToken) in
  (log,
   match r with
   | Ok customerData =>
       negb (String.eqb (apiToken customerData) "")
       && negb (String.eqb (customerId customerData) "")
   | Err _ => false
   end).

End Client.
End EleniaClient.

(* ===================================================================== *)
(** ** The data processor *)
(* ===================================================================== *)

Record CombinedData := {
  timestamp : string;
  consumption_kWh : float;
  price_cents_per_kWh : float;
  cost_euros : float
}.

(** [mmonth] is the [month] field (the name is taken by the month groups of
    the consumption service). *)
Record MonthlyData := {
  mmonth : string;
  totalConsumption : float;
  averagePrice : float;
  totalCost : float
}.

Record YearData := {
  lastUpdated : string;
  hourly : list CombinedData;
  monthly : list MonthlyData
}.

Module DataProcessor.
Section WithHost.
Variable LocalTZA : Z -> bool -> Z.
(** [date.toLocaleDateString('en-CA', {year: 'numeric', month: '2-digit',
    timeZone: 'UTC'})] of the host's Intl, on a time value ([None]: an
    invalid date). *)
Variable toLocaleMonthUTC : option Z -> string.

Definition shouldUpdateData (lastUpdated : string) (now : Z) : bool :=
  if String.eqb lastUpdated "" then true
  else
    match JSDate.parse LocalTZA lastUpdated with
    | None => false
    | Some lastUpdate =>
        let isCurrentYear :=
          JSDate.getFullYear LocalTZA lastUpdate =? JSDate.getFullYear LocalTZA now in
        if isCurrentYear then
          negb (JSDate.getDate LocalTZA lastUpdate =? JSDate.getDate LocalTZA now)
          || negb (JSDate.getMonth LocalTZA lastUpdate =? JSDate.getMonth LocalTZA now)
          || negb (JSDate.getFullYear LocalTZA lastUpdate =? JSDate.getFullYear LocalTZA now)
        else false
    end.

(** *** The price map *)

(** [p.timeStamp.endsWith('Z') ? p.timeStamp : p.timeStamp + 'Z'] *)
Definition priceTimestamp (p : PriceData) : string :=
  if endsWithZ (timeStamp p) then timeStamp p else (timeStamp p ++ "Z")%string.

(** The key of one price entry; [None] when the entry is skipped. *)
Definition priceKey (p : PriceData) : option string :=
  option_map JSDate.toISOString (JSDate.parse LocalTZA (priceTimestamp p)).

(** [new Map(pairs)]: a later pair replaces an earlier one with its key. *)
Definition buildPriceMap (pricesArray : list PriceData) : gmap string float :=
  fold_left
    (fun m p => match priceKey p with
                | Some k => <[k := value p]> m
                | None => m
                end)
    pricesArray ∅.

(** *** Readings *)

(** The key under which a reading is looked up; [None] when [new Date]
    gives an invalid date. *)
Definition readingKey (timestamp : string) : option string :=
  option_map JSDate.toISOString (JSDate.parse LocalTZA timestamp).

Definition selectReadings (m : Month) : option (list Reading) :=
  let hasNettedValues := EleniaService.nonEmpty (hourly_values_netted m) in
  if hasNettedValues then hourly_values_netted m else hourly_values m.

(** The other copy of the processor kept in the repository reads the gross
    values first and falls back to the netted ones. *)
Definition selectReadingsGrossFirst (m : Month) : option (list Reading) :=
  if EleniaService.nonEmpty (hourly_values m) then hourly_values m
  else hourly_values_netted m.

(** [monthlyDataMap]: a [Map] keeps its keys in insertion order. *)
Fixpoint mapGet (k : string) (m : list (string * MonthlyData)) : option MonthlyData :=
  match m with
  | [] => None
  | (k', d) :: m' => if String.eqb k k' then Some d else mapGet k m'
  end.

(** The object stored under [k] is updated in place. *)
Fixpoint mapUpdate (k : string) (f : MonthlyData -> MonthlyData)
    (m : list (string * MonthlyData)) : list (string * MonthlyData) :=
  match m with
  | [] => []
  | (k', d) :: m' =>
      if String.eqb k k' then (k', f d) :: m' else (k', d) :: mapUpdate k f m'
  end.

Definition mapSet (k : string) (d : MonthlyData) (m : list (string * MonthlyData))
  : list (string * MonthlyData) :=
  match mapGet k m with
  | Some _ => mapUpdate k (fun _ => d) m
  | None => m ++ [(k, d)]
  end.

Record Acc := {
  combinedData : list CombinedData;
  monthlyDataMap : list (string * MonthlyData)
}.

Definition emptyAcc : Acc := {| combinedData := []; monthlyDataMap := [] |}.

Definition makeEntry (key : string) (consumption price : float) : CombinedData :=
  {| timestamp := key;
     consumption_kWh := JSNumber.Number (JSNumber.toFixed consumption 3);
     price_cents_per_kWh := JSNumber.Number (JSNumber.toFixed price 2);
     cost_euros :=
       JSNumber.Number (JSNumber.toFixed (consumption * price / 100)%float 6) |}.

Definition monthKeyOf (entry : CombinedData) : string :=
  toLocaleMonthUTC (JSDate.parse LocalTZA (timestamp entry)).

Definition addToMonth (entry : CombinedData) (d : MonthlyData) : MonthlyData :=
  {| mmonth := mmonth d;
     totalConsumption := (totalConsumption d + consumption_kWh entry)%float;
     averagePrice := averagePrice d;
     totalCost := (totalCost d + cost_euros entry)%float |}.

Definition newMonth (monthKey : string) : MonthlyData :=
  {| mmonth := monthKey; totalConsumption := 0; averagePrice := 0; totalCost := 0 |}.

Definition recordEntry (entry : CombinedData) (acc : Acc) : Acc :=
  let monthKey := monthKeyOf entry in
  let map1 := match mapGet monthKey (monthlyDataMap acc) with
              | Some _ => monthlyDataMap acc
              | None => mapSet monthKey (newMonth monthKey) (monthlyDataMap acc)
              end in
  {| combinedData := combinedData acc ++ [entry];
     monthlyDataMap := mapUpdate monthKey (addToMonth entry) map1 |}.

(** The record a reading is joined into; [None] for each [continue]. *)
Definition joinReading (prices : gmap string float) (reading : Reading)
  : option CombinedData :=
  match v reading with
  | JNum x =>
      if JSNumber.isNaN x then None
      else
        match t reading with
        | JStr timestamp =>
            if String.eqb timestamp "" then None
            else
              let consumption := (x / 1000)%float in
              match readingKey timestamp with
              | None => None
              | Some normalizedTimestampForLookup =>
                  match prices !! normalizedTimestampForLookup with
                  | None => None
                  | Some price =>
                      if JSNumber.isNaN consumption then None
                      else if JSNumber.isNaN price then None
                      else Some (makeEntry normalizedTimestampForLookup consumption price)
                  end
              end
        | _ => None
        end
  | _ => None
  end.

Definition processReading (prices : gmap string float) (acc : Acc) (reading : Reading) : Acc :=
  match joinReading prices reading with
  | Some entry => recordEntry entry acc
  | None => acc
  end.

Definition processMonth (prices : gmap string float) (acc : Acc) (m : Month) : Acc :=
  match selectReadings m with
  | Some readings => fold_left (processReading prices) readings acc
  | None => acc
  end.

(** The guards against a missing response, [months] array or month object
    have nothing to skip here: the interfaces exclude them. *)
Definition processResponse (prices : gmap string float) (acc : Acc)
    (response : MeterReadingResponse) : Acc :=
  fold_left (processMonth prices) (months response) acc.

Definition finalizeMonth (d : MonthlyData) : MonthlyData :=
  let avgPrice :=
    if JSNumber.strictNe (totalConsumption d) 0
    then (totalCost d / totalConsumption d * 100)%float
    else 0%float in
  {| mmonth := mmonth d;
     totalConsumption := JSNumber.Number (JSNumber.toFixed (totalConsumption d) 3);
     averagePrice := JSNumber.Number (JSNumber.toFixed avgPrice 2);
     totalCost := JSNumber.Number (JSNumber.toFixed (totalCost d) 2) |}.

(** The other copy of the processor finalises a month without the guard on
    a zero consumption, and rounds the consumption to 2 decimals. *)
Definition finalizeMonthUnguarded (d : MonthlyData) : MonthlyData :=
  {| mmonth := mmonth d;
     totalConsumption := JSNumber.Number (JSNumber.toFixed (totalConsumption d) 2);
     averagePrice :=
       JSNumber.Number
         (JSNumber.toFixed (totalCost d / totalConsumption d * 100)%float 2);
     totalCost := JSNumber.Number (JSNumber.toFixed (totalCost d) 2) |}.

(** The comparator of the hourly sort; a [NaN] result counts as [+0]. *)
Definition compareTimestamps (a b : CombinedData) : Z :=
  match JSDate.parse LocalTZA (timestamp a), JSDate.parse LocalTZA (timestamp b) with
  | Some ta, Some tb => ta - tb
  | _, _ => 0
  end.

Definition compareMonths (a b : MonthlyData) : Z :=
  localeCompare (mmonth a) (mmonth b).

(** The loops of [combineData] over the fetched data. *)
Definition accumulate (responses : list MeterReadingResponse)
    (pricesArray : list PriceData) : Acc :=
  fold_left (processResponse (buildPriceMap pricesArray)) responses emptyAcc.

Definition reconcile (now : Z) (responses : list MeterReadingResponse)
    (pricesArray : list PriceData) : YearData :=
  let acc := accumulate responses pricesArray in
  {| lastUpdated := JSDate.toISOString now;
     hourly := arraySort compareTimestamps (combinedData acc);
     monthly := arraySort compareMonths (map (fun kd => finalizeMonth (snd kd))
                                            (monthlyDataMap acc)) |}.

(** *** The cache and the public entry point *)

(** The body of the [try] block, given what the two fetches gave. *)
Definition fetchAndReconcile (now : Z)
    (consumption : result (list MeterReadingResponse))
    (prices : result (list PriceData)) : result YearData :=
  responses ← consumption;
  pricesArray ← prices;
  Ok (reconcile now responses pricesArray).

(** [combineData year].  [cache] holds the datasets [getCachedData] accepts
    (a file that is missing or fails validation reads as absent);
    [saved] tells whether the background write succeeds.  The second
    component holds, for the year, the dataset handed to [saveToCache]; what
    a later call reads of it is [jsonYearData] below. *)
Definition combineData (cache : gmap string YearData) (year : string) (now : Z)
    (consumption : result (list MeterReadingResponse))
    (prices : result (list PriceData)) (saved : bool)
  : result YearData * gmap string YearData :=
  let cachedData := cache !! year in
  let refetch :=
    match fetchAndReconcile now consumption prices with
    | Ok yearData => (Ok yearData, if saved then <[year := yearData]> cache else cache)
    | Err error =>
        match cachedData with
        | Some c => (Ok c, cache)
        | None => (Err error, cache)
        end
    end in
  match cachedData with
  | Some c => if negb (shouldUpdateData (lastUpdated c) now) then (Ok c, cache) else refetch
  | None => refetch
  end.

(** [shouldUpdateData] of the other copy of the processor kept in the
    repository. *)
Definition shouldUpdateDataLegacy (lastUpdated : string) (now : Z) : bool :=
  if String.eqb lastUpdated "" then true
  else
    match JSDate.parse LocalTZA lastUpdated with
    | None => false
    | Some lastUpdate =>
        let isCurrentYear :=
          JSDate.getFullYear LocalTZA lastUpdate =? JSDate.getFullYear LocalTZA now in
        if isCurrentYear then
          negb (JSDate.getDate LocalTZA lastUpdate =? JSDate.getDate LocalTZA now)
          || negb (JSDate.getMonth LocalTZA lastUpdate =? JSDate.getMonth LocalTZA now)
        else false
    end.

End WithHost.

(** [getCacheFilePath]: [cacheDir] is [FileSystem.cacheDirectory] followed by
    [data/]. *)
Definition getCacheFilePath (cacheDir year : string) : string :=
  (cacheDir ++ "combined_data_" ++ year ++ ".json")%string.

(** *** What is read back from a cache file

    [saveToCache] writes [JSON.stringify(data)] and [getCachedData] returns
    [JSON.parse(content)].  A finite number other than [-0] and a string come
    back as they were; [-0] is written as [0]; [NaN] and the infinities are
    written as [null] ([None] here). *)
Definition jsonNumber (x : float) : option float :=
  match Prim2SF x with
  | S754_nan => None
  | S754_infinity _ => None
  | S754_zero _ => Some 0%float
  | S754_finite _ _ _ => Some x
  end.

Definition jsonCombinedData (e : CombinedData) : option CombinedData :=
  consumption ← jsonNumber (consumption_kWh e);
  price ← jsonNumber (price_cents_per_kWh e);
  cost ← jsonNumber (cost_euros e);
  Some {| timestamp := timestamp e;
          consumption_kWh := consumption;
          price_cents_per_kWh := price;
          cost_euros := cost |}.

Definition jsonMonthlyData (d : MonthlyData) : option MonthlyData :=
  consumption ← jsonNumber (totalConsumption d);
  average ← jsonNumber (averagePrice d);
  cost ← jsonNumber (totalCost d);
  Some {| mmonth := mmonth d;
          totalConsumption := consumption;
          averagePrice := average;
          totalCost := cost |}.

(** What [getCachedData] returns for the file [saveToCache] wrote for
    [data]; [None] when a number of it comes back as [null], which is no
    dataset of numbers any more. *)
Definition jsonYearData (data : YearData) : option YearData :=
  hourlyData ← mapM jsonCombinedData (hourly data);
  monthlyData ← mapM jsonMonthlyData (monthly data);
  Some {| lastUpdated := lastUpdated data;
          hourly := hourlyData;
          monthly := monthlyData |}.

End DataProcessor.

(* ===================================================================== *)
(** ** The price data hook and the settings screen *)
(* ===================================================================== *)

(** [err.message] *)
Definition message (e : JSError) : string :=
  match e with
  | AxiosError m _ => m
  | RangeError m => m
  | Error m => m
  end.

Module UsePriceData.

(** The state of the hook (its [PriceData] interface). *)
Record PriceData := {
  currentPrice : option float;
  currentPriceWithMargin : option float;
  hourlyData : list CombinedData;
  monthlyData : list MonthlyData;
  isLoading : bool;
  error : option string
}.

Section WithHost.
Variable LocalTZA : Z -> bool -> Z.
(** [date.toLocaleDateString('en-US', {year: 'numeric', month: 'long'})] of
    the host's Intl, in the device's time zone. *)
Variable toLocaleMonthLong : option Z -> string.

(** A number used as a condition: [0], [-0] and [NaN] are falsy. *)
Definition truthyNumber (x : float) : bool :=
  negb (x =? 0)%float && negb (JSNumber.isNaN x).

(** The callback of [rawData.hourlyData.map]. *)
Definition withMargin (spotMargin : float) (hour : CombinedData) : CombinedData :=
  {| timestamp := timestamp hour;
     consumption_kWh := consumption_kWh hour;
     price_cents_per_kWh :=
       JSNumber.Number (JSNumber.toFixed (price_cents_per_kWh hour + spotMargin)%float 2);
     cost_euros :=
       JSNumber.Number
         (JSNumber.toFixed
            (consumption_kWh hour * (price_cents_per_kWh hour + spotMargin) / 100)%float
            6) |}.

Definition monthKeyOf (hour : CombinedData) : string :=
  toLocaleMonthLong (JSDate.parse LocalTZA (timestamp hour)).

(** The body of the loop over [hourlyData]. *)
Definition addHour (monthlyDataMap : list (string * MonthlyData)) (hour : CombinedData)
  : list (string * MonthlyData) :=
  let monthKey := monthKeyOf hour in
  let monthData :=
    match DataProcessor.mapGet monthKey monthlyDataMap with
    | Some d => d
    | None => DataProcessor.newMonth monthKey
    end in
  DataProcessor.mapSet monthKey (DataProcessor.addToMonth hour monthData) monthlyDataMap.

Definition applySpotMargin (rawData : PriceData) (spotMargin : float) : PriceData :=
  let hourlyData := map (withMargin spotMargin) (hourlyData rawData) in
  let monthlyDataMap := fold_left addHour hourlyData [] in
  let monthlyData :=
    map (fun kd => DataProcessor.finalizeMonthUnguarded (snd kd)) monthlyDataMap in
  {| currentPrice := currentPrice rawData;
     currentPriceWithMargin :=
       match currentPrice rawData with
       | Some p =>
           if truthyNumber p
           then Some (JSNumber.Number (JSNumber.toFixed (p + spotMargin)%float 2))
           else None
       | None => None
       end;
     hourlyData := hourlyData;
     monthlyData := monthlyData;
     isLoading := isLoading rawData;
     error := error rawData |}.

(** The state [fetchData] leaves, from the state before it, given what
    [getCurrentSpotPrice] and [combineData] give; the second is awaited only
    when the first succeeded. *)
Definition fetchData (prev : PriceData) (currentSpotPrice : result SpotPrice)
    (yearData : result YearData) (spotMargin : float) : PriceData :=
  match (p ← currentSpotPrice; y ← yearData; Ok (p, y)) with
  | Ok (currentSpotPrice, yearData) =>
      applySpotMargin
        {| currentPrice := Some (price currentSpotPrice);
           currentPriceWithMargin := None;
           hourlyData := hourly yearData;
           monthlyData := monthly yearData;
           isLoading := false;
           error := None |}
        spotMargin
  | Err err =>
      {| currentPrice := currentPrice prev;
         currentPriceWithMargin := currentPriceWithMargin prev;
         hourlyData := hourlyData prev;
         monthlyData := monthlyData prev;
         isLoading := false;
         error := Some (message err) |}
  end.

(** The effect that runs when [settings.spotMargin] changes: the margin is
    applied to the state the hook holds. *)
Definition reapplySpotMargin (data : PriceData) (spotMargin : float) : PriceData :=
  let hasError := match error data with
                  | Some text => negb (String.eqb text "")
                  | None => false
                  end in
  if negb (isLoading data) && negb hasError
  then applySpotMargin data spotMargin
  else data.

End WithHost.
End UsePriceData.

Module SettingsScreen.

Definition isDigit (c : ascii) : bool :=
  let n := N_of_ascii c in ((48 <=? n) && (n <=? 57))%N.

(** [value.replace(/[^\d.]/g, '')] *)
Fixpoint keepDigitsAndDots (value : string) : string :=
  match value with
  | EmptyString => EmptyString
  | String c r =>
      if isDigit c || Ascii.eqb c "."
      then String c (keepDigitsAndDots r)
      else keepDigitsAndDots r
  end.

(** [handleSpotMarginChange]: the text of the margin field after the user
    typed [value], from the text [spotMargin] it held. *)
Definition handleSpotMarginChange (spotMargin value : string) : string :=
  let filtered := keepDigitsAndDots value in
  let parts := splitOn "." filtered in
  if (2 <? length parts)%nat then spotMargin else filtered.

(** What writes the margin field: the user's typing, through
    [handleSpotMarginChange], and the screen itself, which puts
    [settings.spotMargin.toString()] there when the settings change and when
    an update is abandoned. *)
Inductive FieldWrite :=
| Typed (value : string)
| Loaded (spotMargin : string).

Definition writeField (spotMargin : string) (w : FieldWrite) : string :=
  match w with
  | Typed value => handleSpotMarginChange spotMargin value
  | Loaded stored => stored
  end.

End SettingsScreen.

(* ===================================================================== *)
(** ** Vocabulary of the statements *)
(* ===================================================================== *)

Module Ledger.
Section WithHost.
Variable LocalTZA : Z -> bool -> Z.
Variable toLocaleMonthUTC : option Z -> string.

(** The running sum [0 + x1 + x2 + ...] the loop keeps, in processing order. *)
Definition sumOf (f : CombinedData -> float) (l : list CombinedData) : float :=
  fold_left (fun s e => (s + f e)%float) l 0%float.

(** The hourly records that belong to month [k]. *)
Definition membersOf (k : string) (l : list CombinedData) : list CombinedData :=
  List.filter
    (fun e => String.eqb (DataProcessor.monthKeyOf LocalTZA toLocaleMonthUTC e) k) l.

(** The instant a record's timestamp denotes. *)
Definition instantOf (e : CombinedData) : option Z :=
  JSDate.parse LocalTZA (timestamp e).

Definition notAfter (a b : CombinedData) : Prop :=
  exists ta tb, instantOf a = Some ta /\ instantOf b = Some tb /\ ta <= tb.

Definition strictlyBefore (a b : CombinedData) : Prop :=
  exists ta tb, instantOf a = Some ta /\ instantOf b = Some tb /\ ta < tb.

(** The readings the loop visits, in order. *)
Definition readingsOf (m : Month) : list Reading :=
  match DataProcessor.selectReadings m with
  | Some readings => readings
  | None => []
  end.

(** The readings the other copy of the processor visits in a month. *)
Definition readingsOfGrossFirst (m : Month) : list Reading :=
  match DataProcessor.selectReadingsGrossFirst m with
  | Some readings => readings
  | None => []
  end.

Definition selectedReadings (responses : list MeterReadingResponse) : list Reading :=
  flat_map (fun r => flat_map readingsOf (months r)) responses.

(** The rule of the specification: the netted readings of a month when
    there are any, otherwise the gross ones. *)
Definition nettedElseGross (m : Month) : list Reading :=
  match hourly_values_netted m with
  | Some (r :: l) => r :: l
  | _ =>
      match hourly_values m with
      | Some l => l
      | None => []
      end
  end.

(** The readings a reconciliation that follows the rule consumes, in
    order. *)
Definition consumed (responses : list MeterReadingResponse) : list Reading :=
  flat_map (fun r => flat_map nettedElseGross (months r)) responses.

(** A month whose gross variant is replaced by [g m] wherever the netted
    variant is non-empty. *)
Definition withGross (g : Month -> option (list Reading)) (m : Month) : Month :=
  if EleniaService.nonEmpty (hourly_values_netted m)
  then {| month := month m;
          hourly_values_netted := hourly_values_netted m;
          hourly_values := g m |}
  else m.

Definition withGrossAll (g : Month -> option (list Reading))
    (responses : list MeterReadingResponse) : list MeterReadingResponse :=
  map (fun r => {| months := map (withGross g) (months r) |}) responses.

(** A record whose timestamp is the rendering of the instant it parses to. *)
Definition canonical (e : CombinedData) : Prop :=
  exists tv, timestamp e = JSDate.toISOString tv /\ instantOf e = Some tv.

Definition canonicalNotAfter (a b : CombinedData) : Prop :=
  canonical a /\ canonical b /\ notAfter a b.

(** The summaries before sorting. *)
Definition summaries (acc : DataProcessor.Acc) : list MonthlyData :=
  map (fun kd => DataProcessor.finalizeMonth (snd kd)) (DataProcessor.monthlyDataMap acc).

(** What the loop keeps true of its accumulator: one entry per month key,
    every record's month is present, and each entry holds the running sums
    of its members. *)
Record AccInv (acc : DataProcessor.Acc) : Prop := {
  inv_nodup : List.NoDup (map fst (DataProcessor.monthlyDataMap acc));
  inv_keys :
    forall e, In e (DataProcessor.combinedData acc) ->
    In (DataProcessor.monthKeyOf LocalTZA toLocaleMonthUTC e)
       (map fst (DataProcessor.monthlyDataMap acc));
  inv_sums :
    forall k d, DataProcessor.mapGet k (DataProcessor.monthlyDataMap acc) = Some d ->
    mmonth d = k
    /\ totalConsumption d
       = sumOf consumption_kWh (membersOf k (DataProcessor.combinedData acc))
    /\ totalCost d = sumOf cost_euros (membersOf k (DataProcessor.combinedData acc))
}.

(** The records the loops emit, in processing order: one for each selected
    reading that passes every check and has a price. *)
Definition joinedRecords (responses : list MeterReadingResponse)
    (pricesArray : list PriceData) : list CombinedData :=
  omap (DataProcessor.joinReading LocalTZA (DataProcessor.buildPriceMap LocalTZA pricesArray))
    (selectedReadings responses).

Definition hasKey (k : string) (p : PriceData) : bool :=
  match DataProcessor.priceKey LocalTZA p with
  | Some k' => String.eqb k' k
  | None => false
  end.

(** The value of the last entry of the list whose key is [k]. *)
Definition lastPriceAt (k : string) (pricesArray : list PriceData) : option float :=
  option_map value (List.find (hasKey k) (rev pricesArray)).

(** Two instants of the same calendar day on the device. *)
Definition sameLocalDay (a b : Z) : bool :=
  (JSDate.getFullYear LocalTZA a =? JSDate.getFullYear LocalTZA b)
  && (JSDate.getMonth LocalTZA a =? JSDate.getMonth LocalTZA b)
  && (JSDate.getDate LocalTZA a =? JSDate.getDate LocalTZA b).

(** A reading with a text timestamp that [format] renders, if at all, as a
    text of the same instant. *)
Definition instantPreserved (formatHelsinki : option Z -> option string)
    (reading : Reading) : Prop :=
  exists ts,
    t reading = JStr ts
    /\ forall s,
         formatHelsinki (JSDate.parse LocalTZA ts) = Some s ->
         JSDate.parse LocalTZA s = JSDate.parse LocalTZA ts.

(** Records with the same timestamp and numerically equal numbers (a
    zero of either sign equals the other). *)
Definition sameNumbers (e e' : CombinedData) : Prop :=
  timestamp e' = timestamp e
  /\ (consumption_kWh e' =? consumption_kWh e)%float = true
  /\ (price_cents_per_kWh e' =? price_cents_per_kWh e)%float = true
  /\ (cost_euros e' =? cost_euros e)%float = true.

Definition sameSummary (d d' : MonthlyData) : Prop :=
  mmonth d' = mmonth d
  /\ (totalConsumption d' =? totalConsumption d)%float = true
  /\ (averagePrice d' =? averagePrice d)%float = true
  /\ (totalCost d' =? totalCost d)%float = true.

Definition validPriceRow (row : PriceData) : Prop :=
  exists tv, JSDate.parse LocalTZA (timeStamp row) = Some tv.

(** A row as the price service returns it. *)
Definition processedFrom (row processed : PriceData) : Prop :=
  exists tv,
    JSDate.parse LocalTZA (timeStamp row) = Some tv
    /\ timeStamp processed = stripMillis (JSDate.toISOString tv)
    /\ value processed
       = JSNumber.Number
           (JSNumber.toFixed (value row * (1 + VattenfallService.VAT_RATE))%float 2).

End WithHost.
End Ledger.

Module Backoff.

(** The requests and sleeps of [count] failed attempts from [from] on. *)
Definition retryLog (from count : nat) : list Event :=
  flat_map (fun k => [Request k; Sleep (2 ^ Z.of_nat k)]) (seq from count).

Definition total (l : list Z) : Z := fold_right Z.add 0 l.

(** Two servers that reject at the same attempts, whatever the errors, and
    resolve with the same responses. *)
Definition sameUpToErrors {T} (f g : nat -> Outcome T) : Prop :=
  forall k,
    match f k, g k with
    | Rejected _, Rejected _ => True
    | Resolved r, Resolved r' => r = r'
    | _, _ => False
    end.

(** An outcome after which the helper tries again, attempts permitting: a
    rejection, or a response with status 504. *)
Definition retryable {T} (o : Outcome T) : bool :=
  match o with
  | Rejected _ => true
  | Resolved r => status r =? 504
  end.

(** An outcome handed to the caller as it is. *)
Definition settle {T} (o : Outcome T) : result (AxiosResponse T) :=
  match o with
  | Resolved r => Ok r
  | Rejected e => Err e
  end.

(** A run of the request helper against [endpoint]: [n] attempts that are
    retried, then a last one. *)
Definition retryRun (maxRetries : nat) (endpoint : Endpoint) (trace : Trace) : Prop :=
  exists n : nat,
    (n <= maxRetries - 1)%nat
    /\ trace = map (pair endpoint) (retryLog 0 n ++ [Request n]).

(** A phase of a fetch: a run of the helper, or nothing at all. *)
Definition phase (maxRetries : nat) (endpoint : Endpoint) (trace : Trace) : Prop :=
  trace = [] \/ retryRun maxRetries endpoint trace.

Definition requestCount (trace : Trace) : nat :=
  length (EleniaService.requests (map snd trace)).

Definition sleepTotal (trace : Trace) : Z :=
  total (EleniaService.sleeps (map snd trace)).

End Backoff.

Module Session.

(** The stored settings and password make a complete set of credentials. *)
Definition haveCredentials (eleniaUsernameOf : string -> result (option string))
    (settings password : result (option string)) : Prop :=
  exists text username secret,
    settings = Ok (Some text) /\ text <> EmptyString
    /\ eleniaUsernameOf text = Ok (Some username) /\ username <> EmptyString
    /\ password = Ok (Some secret) /\ secret <> EmptyString.

Definition isConsumption (meteringpoint : MeteringPoint) : bool :=
  match type_ meteringpoint with
  | Some ty => String.eqb ty "kulutus"
  | None => false
  end.

Definition isProduction (meteringpoint : MeteringPoint) : bool :=
  match device meteringpoint with
  | Some name => String.eqb name "Tuotannon virtuaalilaite"
  | None => false
  end.

(** The GSRN of the last metering point of the list that satisfies [p]. *)
Definition lastGsrn (p : MeteringPoint -> bool) (meteringpoints : list MeteringPoint)
  : option string :=
  option_map gsrn (List.find p (rev meteringpoints)).

End Session.

(** The text [s] does not contain the character [c]. *)
Fixpoint without (c : ascii) (s : string) : bool :=
  match s with
  | EmptyString => true
  | String c' r => negb (Ascii.eqb c' c) && without c r
  end.

Module Csv.

(** A row whose fields survive the CSV text: no field separator and no line
    feed in either field, and a number that its text gives back. *)
Definition safeRow (numberToString : float -> string) (stringToNumber : string -> float)
    (row : PriceData) : Prop :=
  without ";" (timeStamp row) = true /\ without LF (timeStamp row) = true
  /\ without ";" (numberToString (value row)) = true
  /\ without LF (numberToString (value row)) = true
  /\ stringToNumber (numberToString (value row)) = value row.

(** The same, for the number alone. *)
Definition safeNumber (numberToString : float -> string) (stringToNumber : string -> float)
    (row : PriceData) : Prop :=
  without ";" (numberToString (value row)) = true
  /\ without LF (numberToString (value row)) = true
  /\ stringToNumber (numberToString (value row)) = value row.

End Csv.

Module MarginField.

Fixpoint dots (s : string) : nat :=
  match s with
  | EmptyString => 0
  | String c r => if Ascii.eqb c "." then S (dots r) else dots r
  end.

Fixpoint digitsAndDots (s : string) : bool :=
  match s with
  | EmptyString => true
  | String c r => (SettingsScreen.isDigit c || Ascii.eqb c ".") && digitsAndDots r
  end.

(** A text of digits with at most one decimal point. *)
Definition wellFormed (s : string) : Prop :=
  digitsAndDots s = true /\ (dots s <= 1)%nat.

End MarginField.

(* ===================================================================== *)
(** ** Example data *)
(* ===================================================================== *)

Module Examples.

(** A device whose zone is UTC, and the [YYYY-MM] month key of en-CA. *)
Definition utcZone : Z -> bool -> Z := fun _ _ => 0.

Definition isoMonthKey (date : option Z) : string :=
  match date with
  | Some tv =>
      (JSDate.yearText (JSDate.YearFromTime tv) ++ "-"
       ++ JSDate.padDigits 2 (JSDate.MonthFromTime tv + 1))%string
  | None => "Invalid Date"%string
  end.

(** The hour before Finland's clocks went forward in 2024. *)
Definition dstReading : Reading :=
  {| t := JStr "2024-03-31T02:30:00+02:00"; v := JNum 1500 |}.

Definition dstRawPrice : PriceData :=
  {| timeStamp := "2024-03-31T00:30:00Z"; value := 5 |}.

(** The same entry as [fetchPriceData] returns it. *)
Definition dstPrice : PriceData :=
  {| timeStamp := "2024-03-31T00:30:00Z"; value := 6.27 |}.

Definition monthOf (netted gross : option (list Reading)) : Month :=
  {| month := "2024-03"; hourly_values_netted := netted; hourly_values := gross |}.

Definition dstResponses : list MeterReadingResponse :=
  [ {| months := [ monthOf (Some [dstReading]) None ] |} ].

(** The same reading reported twice. *)
Definition repeatedResponses : list MeterReadingResponse :=
  [ {| months := [ monthOf (Some [dstReading; dstReading]) None ] |} ].

(** Less than half a watt-hour in the hour, at ten cents. *)
Definition smallResponses : list MeterReadingResponse :=
  [ {| months := [ monthOf (Some [ {| t := JStr "2024-03-31T02:30:00+02:00";
                                      v := JNum 0.4 |} ]) None ] |} ].

Definition tenCents : PriceData :=
  {| timeStamp := "2024-03-31T00:30:00Z"; value := 10 |}.

Definition numbers (e : CombinedData) : float * float * float :=
  (consumption_kWh e, price_cents_per_kWh e, cost_euros e).

(** A server that answers every attempt with the same error status. *)
Definition alwaysStatus (code : Z) : nat -> Outcome unit :=
  fun _ => Rejected (AxiosError "Request failed" (Some code)).

Definition staleDataset : YearData :=
  {| lastUpdated := "2024-06-01T08:00:00.000Z"; hourly := []; monthly := [] |}.

Definition fetchExhausted : JSError := AxiosError "timeout of 0ms exceeded" None.


Definition smallReading : Reading :=
  {| t := JStr "2024-03-31T02:30:00+02:00"; v := JNum 0.4 |}.

(** A month that arrives with both variants populated. *)
Definition bothMonth : Month := monthOf (Some [dstReading]) (Some [smallReading]).

Definition bothResponses : list MeterReadingResponse := [ {| months := [bothMonth] |} ].

(** The reading of [dstResponses] among readings the processor skips: a
    value that is not a number, a timestamp that is no date, an hour without
    a price. *)
Definition noisyResponses : list MeterReadingResponse :=
  [ {| months :=
         [ monthOf (Some [ {| t := JStr "2024-03-31T01:30:00+02:00"; v := JStr "1500" |};
                           {| t := JStr "31.3.2024 2.30"; v := JNum 1500 |};
                           dstReading;
                           {| t := JStr "2024-03-31T04:30:00+03:00"; v := JNum 900 |} ])
             None ] |} ].

(** A reading with its timestamp in UTC, and a formatter that renders that
    instant in Helsinki time. *)
Definition utcReading : Reading :=
  {| t := JStr "2024-03-31T00:30:00.000Z"; v := JNum 1500 |}.

Definition helsinkiWinter (date : option Z) : option string :=
  match date with
  | Some tv =>
      Some (JSDate.isoHead (tv + 2 * JSDate.msPerHour) ++ "+02:00")%string
  | None => None
  end.

Definition utcResponse : AxiosResponse MeterReadingResponse :=
  {| status := 200; data := {| months := [ monthOf (Some [utcReading]) None ] |} |}.

(** Two hours of one day, and the same readings delivered in the opposite
    order and split over two responses. *)
Definition laterReading : Reading :=
  {| t := JStr "2024-03-31T04:30:00+03:00"; v := JNum 900 |}.

Definition laterPrice : PriceData :=
  {| timeStamp := "2024-03-31T01:30:00Z"; value := 7.5 |}.

Definition twoHours : list MeterReadingResponse :=
  [ {| months := [ monthOf (Some [dstReading; laterReading]) None ] |} ].

Definition twoHoursShuffled : list MeterReadingResponse :=
  [ {| months := [ monthOf (Some [laterReading]) None ] |};
    {| months := [ monthOf None (Some [dstReading]) ] |} ].

(** Less than half a watt-hour in an hour with a negative price: the cost
    rounds to [-0]. *)
Definition negativePrice : PriceData :=
  {| timeStamp := "2024-03-31T00:30:00Z"; value := (-0.01)%float |}.

(** The morning after [staleDataset] was written. *)
Definition nextMorning : Z := 1717311600000.

Definition emptyDataset (now : Z) : YearData :=
  {| lastUpdated := JSDate.toISOString now; hourly := []; monthly := [] |}.

(** A customer with a consumption point and a production point. *)
Definition consumptionPoint : MeteringPoint :=
  {| gsrn := "643007574000000011"; type_ := Some "kulutus"%string; device := None |}.

Definition productionPoint : MeteringPoint :=
  {| gsrn := "643007574000000028"; type_ := Some "tuotanto"%string;
     device := Some "Tuotannon virtuaalilaite"%string |}.

Definition household : CustomerData :=
  {| token := "api-token";
     customer_datas := [ ("1048576"%string, [consumptionPoint; productionPoint]) ] |}.

(** A customer who only feeds electricity in. *)
Definition producerOnly : CustomerData :=
  {| token := "api-token";
     customer_datas := [ ("1048576"%string, [productionPoint]) ] |}.

Definition answering (customer : CustomerData) : Backend :=
  {| initiateAuth := fun _ _ _ =>
       Resolved {| status := 200; data := {| AccessToken := "bearer" |} |};
     customer_data_and_token := fun _ _ =>
       Resolved {| status := 200; data := customer |};
     meter_reading_yh := fun _ _ _ _ _ =>
       Resolved {| status := 200;
                   data := {| months := [ monthOf (Some [dstReading]) None ] |} |} |}.

(** The identity provider rejects the password at every attempt. *)
Definition refusing : Backend :=
  {| initiateAuth := fun _ _ _ =>
       Rejected (AxiosError "Request failed with status code 400" (Some 400));
     customer_data_and_token := fun _ _ =>
       Resolved {| status := 200; data := household |};
     meter_reading_yh := fun _ _ _ _ _ =>
       Resolved {| status := 200; data := {| months := [] |} |} |}.

(** A year of one hour at 5 c/kWh, a current price of 5 c/kWh, and the state
    of the hook before its first fetch. *)
Definition oneHourYear : YearData :=
  {| lastUpdated := "2024-03-31T08:00:00.000Z";
     hourly := [ {| timestamp := "2024-03-31T00:30:00.000Z";
                    consumption_kWh := 1.5;
                    price_cents_per_kWh := 5;
                    cost_euros := 0.075 |} ];
     monthly := [ {| mmonth := "2024-03"; totalConsumption := 1.5;
                     averagePrice := 5; totalCost := 0.08 |} ] |}.

Definition fiveCents : SpotPrice :=
  {| price := 5; timestamp_ := "2024-03-31T08:00:00Z" |}.

Definition initialState : UsePriceData.PriceData :=
  {| UsePriceData.currentPrice := None;
     UsePriceData.currentPriceWithMargin := None;
     UsePriceData.hourlyData := [];
     UsePriceData.monthlyData := [];
     UsePriceData.isLoading := true;
     UsePriceData.error := None |}.

(** The settings text is the user name itself here. *)
Definition plainUsername (settings : string) : result (option string) :=
  Ok (Some settings).

End Examples.

(** Two numbers differ when their binary64 decompositions do. *)
Ltac float_neq H :=
  apply (f_equal Prim2SF) in H; vm_compute in H; discriminate H.

Ltac differ_by f H :=
  apply (f_equal f) in H; vm_compute in H; discriminate H.

(* ===================================================================== *)
(** ** Dates: [Date.parse] inverts [toISOString] *)
(* ===================================================================== *)

Module JSDateFacts.
Import JSDate.

#[local] Arguments String.append !_ _ / : simpl nomatch.

Lemma digitVal_digitChar d : 0 <= d <= 9 -> digitVal (digitChar d) = Some d.
Proof.
  intros Hd.
  assert (Hc : d = 0 \/ d = 1 \/ d = 2 \/ d = 3 \/ d = 4 \/ d = 5 \/ d = 6
               \/ d = 7 \/ d = 8 \/ d = 9) by lia.
  repeat (destruct Hc as [-> | Hc]; [reflexivity |]).
  subst d. reflexivity.
Qed.

Lemma readDigits_padDigits k : forall acc n rest,
  readDigits k acc (padDigits k n ++ rest)
  = Some (acc * 10 ^ Z.of_nat k + n mod 10 ^ Z.of_nat k, rest).
Proof.
  induction k as [| k IH]; intros acc n rest.
  - simpl. rewrite Z.mod_1_r. f_equal. f_equal. lia.
  - cbn [padDigits readDigits String.append].
    rewrite digitVal_digitChar
      by (pose proof (Z.mod_pos_bound (n / 10 ^ Z.of_nat k) 10); lia).
    rewrite IH. f_equal. f_equal.
    rewrite Nat2Z.inj_succ, Z.pow_succ_r by lia.
    set (p := 10 ^ Z.of_nat k).
    assert (Hp : 0 < p) by (apply Z.pow_pos_nonneg; lia).
    rewrite (Z.mul_comm 10 p), Z.rem_mul_r by lia. lia.
Qed.

Lemma readDigits_pad_small k acc n rest :
  0 <= n < 10 ^ Z.of_nat k ->
  readDigits k acc (padDigits k n ++ rest) = Some (acc * 10 ^ Z.of_nat k + n, rest).
Proof.
  intros Hn. rewrite readDigits_padDigits, Z.mod_small by lia. reflexivity.
Qed.

Lemma YearFromDay_spec d :
  DayFromYear (YearFromDay d) <= d < DayFromYear (YearFromDay d + 1).
Proof.
  unfold YearFromDay, DayFromYear. cbv zeta.
  repeat match goal with
         | |- context [Z.ltb ?a ?b] => destruct (Z.ltb_spec a b)
         | |- context [Z.leb ?a ?b] => destruct (Z.leb_spec a b)
         end.
  all: Z.div_mod_to_equations; lia.
Qed.

Lemma DayFromYear_succ y :
  DayFromYear (y + 1) = DayFromYear y + (if isLeap y then 366 else 365).
Proof.
  unfold DayFromYear, isLeap.
  repeat match goal with
         | |- context [Z.eqb ?a ?b] => destruct (Z.eqb_spec a b)
         end; cbn [andb orb negb].
  all: Z.div_mod_to_equations; lia.
Qed.

Lemma DayWithinYear_bounds t :
  0 <= DayWithinYear t < (if isLeap (YearFromTime t) then 366 else 365).
Proof.
  unfold DayWithinYear, YearFromTime.
  pose proof (YearFromDay_spec (Day t)) as H.
  rewrite DayFromYear_succ in H. destruct (isLeap _); lia.
Qed.

Lemma month_date_bounds (leap : bool) (diy : Z) :
  0 <= diy < (if leap then 366 else 365) ->
  let m := MonthFromDayInYear leap diy in
  0 <= m <= 11 /\ 1 <= diy - monthStart leap m + 1 <= 31.
Proof.
  intros H. unfold MonthFromDayInYear.
  destruct leap; cbn [monthStart] in *;
    repeat match goal with
           | |- context [Z.ltb ?a ?b] => destruct (Z.ltb_spec a b)
           end; cbn [monthStart]; lia.
Qed.

Lemma MakeDay_inverse t :
  MakeDay (YearFromTime t) (MonthFromTime t) (DateFromTime t) = Day t.
Proof.
  unfold MakeDay, DateFromTime, MonthFromTime, DayWithinYear. lia.
Qed.

Lemma MakeTime_inverse t :
  MakeTime (HourFromTime t) (MinFromTime t) (SecFromTime t) (msFromTime t)
  = TimeWithinDay t.
Proof.
  unfold MakeTime, HourFromTime, MinFromTime, SecFromTime, msFromTime,
    TimeWithinDay, msPerHour, msPerMinute, msPerSecond, msPerDay.
  Z.div_mod_to_equations. lia.
Qed.

Lemma time_fields_bounds t :
  0 <= HourFromTime t <= 23 /\ 0 <= MinFromTime t <= 59
  /\ 0 <= SecFromTime t <= 59 /\ 0 <= msFromTime t <= 999.
Proof.
  unfold HourFromTime, MinFromTime, SecFromTime, msFromTime, msPerSecond.
  repeat split; Z.div_mod_to_equations; lia.
Qed.

Lemma YearFromTime_bounds t :
  Z.abs t <= maxTime -> -999999 <= YearFromTime t <= 999999.
Proof.
  intros Ht. pose proof (YearFromDay_spec (Day t)) as H.
  unfold YearFromTime. revert H. generalize (YearFromDay (Day t)) as y.
  intros y. unfold DayFromYear, Day, msPerDay, maxTime in *.
  Z.div_mod_to_equations. lia.
Qed.

Lemma readYear_yearText y rest :
  -999999 <= y <= 999999 ->
  readYear (yearText y ++ rest) = Some (y, rest).
Proof.
  intros Hy. unfold yearText.
  destruct (Z.leb_spec 0 y) as [H0 | H0];
    [destruct (Z.leb_spec y 9999) as [H1 | H1] |]; cbn [andb].
  - pose proof (readDigits_pad_small 4 0 y rest) as R.
    change (10 ^ Z.of_nat 4) with 10000 in R.
    cbn [padDigits String.append] in *.
    assert (Hd : 0 <= (y / 10 ^ Z.of_nat 3) mod 10 <= 9)
      by (pose proof (Z.mod_pos_bound (y / 10 ^ Z.of_nat 3) 10); lia).
    set (d := (y / 10 ^ Z.of_nat 3) mod 10) in *.
    assert (Hc : d = 0 \/ d = 1 \/ d = 2 \/ d = 3 \/ d = 4 \/ d = 5 \/ d = 6
                 \/ d = 7 \/ d = 8 \/ d = 9) by lia.
    unfold readYear.
    repeat (destruct Hc as [Hc | Hc];
            [rewrite Hc in *; cbn [digitChar ascii_of_N ascii_of_pos Z.to_N Z.add Pos.add];
             rewrite R by lia; reflexivity |]).
    rewrite Hc in *. rewrite R by lia. reflexivity.
  - destruct (Z.ltb_spec y 0); [lia |].
    cbn [String.append readYear].
    rewrite readDigits_pad_small by (change (10 ^ Z.of_nat 6) with 1000000; lia).
    reflexivity.
  - destruct (Z.ltb_spec y 0); [| lia].
    cbn [String.append readYear].
    rewrite readDigits_pad_small by (change (10 ^ Z.of_nat 6) with 1000000; lia).
    destruct (Z.eqb_spec (0 * 10 ^ Z.of_nat 6 + - y) 0); [lia |].
    f_equal. f_equal. lia.
Qed.

(** *** Text *)

Lemma append_assoc (a b c : string) : ((a ++ b) ++ c = a ++ (b ++ c))%string.
Proof.
  induction a as [| x a IH]; cbn [String.append]; [reflexivity |].
  rewrite IH. reflexivity.
Qed.

Lemma length_append (a b : string) :
  String.length (a ++ b) = (String.length a + String.length b)%nat.
Proof.
  induction a as [| x a IH]; cbn [String.append String.length]; [reflexivity |].
  rewrite IH. reflexivity.
Qed.

Lemma eqb_length (a b : string) :
  String.length a <> String.length b -> String.eqb a b = false.
Proof.
  intros H. destruct (String.eqb_spec a b) as [-> | _]; [contradiction | reflexivity].
Qed.

Lemma stripMillis_short (s : string) :
  (String.length s < 5)%nat -> stripMillis s = s.
Proof.
  induction s as [| c s IH]; intros H; cbn [stripMillis]; [reflexivity |].
  rewrite eqb_length by (cbn [String.length] in *; lia).
  rewrite IH by (cbn [String.length] in H; lia). reflexivity.
Qed.

Lemma stripMillis_app (a b : string) :
  (5 <= String.length b)%nat -> stripMillis (a ++ b) = (a ++ stripMillis b)%string.
Proof.
  intros H. induction a as [| c a IH]; cbn [String.append stripMillis]; [reflexivity |].
  rewrite eqb_length by (cbn [String.length]; rewrite length_append; lia).
  rewrite IH. reflexivity.
Qed.

Lemma digitChar_zero d : 0 <= d <= 9 -> Ascii.eqb (digitChar d) "0" = (d =? 0).
Proof.
  intros Hd.
  assert (Hc : d = 0 \/ d = 1 \/ d = 2 \/ d = 3 \/ d = 4 \/ d = 5 \/ d = 6
               \/ d = 7 \/ d = 8 \/ d = 9) by lia.
  repeat (destruct Hc as [-> | Hc]; [reflexivity |]).
  subst d. reflexivity.
Qed.

Lemma fraction_is_zero ms :
  0 <= ms <= 999 ->
  String.eqb (String "." (padDigits 3 ms ++ "Z")) ".000Z" = (ms =? 0).
Proof.
  intros Hms. cbn [padDigits String.append String.eqb].
  rewrite !digitChar_zero
    by (match goal with |- 0 <= ?x mod 10 <= 9 =>
          pose proof (Z.mod_pos_bound x 10); lia end).
  change (10 ^ Z.of_nat 2) with 100. change (10 ^ Z.of_nat 1) with 10.
  change (10 ^ Z.of_nat 0) with 1.
  change (Ascii.eqb "." ".") with true. change (Ascii.eqb "Z" "Z") with true.
  cbv iota.
  destruct (Z.eqb_spec ((ms / 100) mod 10) 0) as [E1 | E1];
    destruct (Z.eqb_spec ((ms / 10) mod 10) 0) as [E2 | E2];
    destruct (Z.eqb_spec ((ms / 1) mod 10) 0) as [E3 | E3];
    destruct (Z.eqb_spec ms 0) as [E | E];
    try reflexivity;
    exfalso; revert E1 E2 E3 E; Z.div_mod_to_equations; lia.
Qed.

Lemma stripMillis_fraction ms :
  0 <= ms <= 999 ->
  stripMillis ("." ++ padDigits 3 ms ++ "Z")
  = if ms =? 0 then "Z"%string else ("." ++ padDigits 3 ms ++ "Z")%string.
Proof.
  intros Hms.
  change ("." ++ padDigits 3 ms ++ "Z")%string with (String "." (padDigits 3 ms ++ "Z")).
  cbn [stripMillis]. rewrite fraction_is_zero by exact Hms.
  rewrite stripMillis_short by (cbn [padDigits String.append String.length]; lia).
  reflexivity.
Qed.

Lemma endsWithZ_app (a b : string) :
  b <> EmptyString -> endsWithZ (a ++ b) = endsWithZ b.
Proof.
  intros Hb. induction a as [| c a IH]; cbn [String.append]; [reflexivity |].
  cbn [endsWithZ]. destruct (a ++ b)%string eqn:E.
  - destruct a; [cbn in E; contradiction | discriminate].
  - exact IH.
Qed.

Section Roundtrip.
Variable LocalTZA : Z -> bool -> Z.

(** Parsing the text up to the seconds, followed by a fraction and [Z],
    gives the time value back. *)
Lemma parse_isoHead t tail :
  Z.abs t <= maxTime ->
  readFraction tail = Some (msFromTime t, "Z"%string) ->
  parse LocalTZA (isoHead t ++ tail) = Some t.
Proof.
  intros Ht Htail. unfold parse, isoHead.
  repeat (rewrite append_assoc || cbn [String.append]).
  rewrite readYear_yearText by (apply YearFromTime_bounds; exact Ht).
  pose proof (DayWithinYear_bounds t) as Hdiy.
  pose proof (month_date_bounds _ _ Hdiy) as [Hm Hd].
  fold (MonthFromTime t) in Hm, Hd. fold (DateFromTime t) in Hd.
  pose proof (time_fields_bounds t) as (Hh & Hmi & Hs & Hms).
  cbn [readDashField].
  rewrite readDigits_pad_small by (change (10 ^ Z.of_nat 2) with 100; lia).
  cbn [readDashField].
  rewrite readDigits_pad_small by (change (10 ^ Z.of_nat 2) with 100; lia).
  cbn [readTime].
  rewrite readDigits_pad_small by (change (10 ^ Z.of_nat 2) with 100; lia).
  cbn [expect Ascii.eqb Bool.eqb].
  rewrite readDigits_pad_small by (change (10 ^ Z.of_nat 2) with 100; lia).
  cbn [readSeconds].
  rewrite readDigits_pad_small by (change (10 ^ Z.of_nat 2) with 100; lia).
  rewrite Htail.
  replace (0 * 10 ^ Z.of_nat 2 + (MonthFromTime t + 1) - 1) with (MonthFromTime t) by lia.
  replace (0 * 10 ^ Z.of_nat 2 + (MonthFromTime t + 1)) with (MonthFromTime t + 1) by lia.
  replace (0 * 10 ^ Z.of_nat 2 + DateFromTime t) with (DateFromTime t) by lia.
  replace (0 * 10 ^ Z.of_nat 2 + HourFromTime t) with (HourFromTime t) by lia.
  replace (0 * 10 ^ Z.of_nat 2 + MinFromTime t) with (MinFromTime t) by lia.
  replace (0 * 10 ^ Z.of_nat 2 + SecFromTime t) with (SecFromTime t) by lia.
  replace ((HourFromTime t <=? 23) && (MinFromTime t <=? 59) && (SecFromTime t <=? 59))
    with true by (symmetry; rewrite !andb_true_iff, !Z.leb_le; lia).
  cbn [orb].
  replace ((1 <=? MonthFromTime t + 1) && (MonthFromTime t + 1 <=? 12)
           && (1 <=? DateFromTime t) && (DateFromTime t <=? 31))
    with true by (symmetry; rewrite !andb_true_iff, !Z.leb_le; lia).
  rewrite MakeDay_inverse, MakeTime_inverse.
  change (readZone "Z") with (Some (Some 0)). cbv iota beta.
  unfold MakeDate, Day, TimeWithinDay, TimeClip.
  replace (t / msPerDay * msPerDay + t mod msPerDay - 0) with t
    by (unfold msPerDay; Z.div_mod_to_equations; lia).
  destruct (Z.leb_spec (Z.abs t) maxTime); [reflexivity | lia].
Qed.

Lemma readFraction_millis t :
  readFraction ("." ++ padDigits 3 (msFromTime t) ++ "Z") = Some (msFromTime t, "Z"%string).
Proof.
  pose proof (time_fields_bounds t) as (_ & _ & _ & Hms).
  cbn [String.append readFraction].
  rewrite readDigits_pad_small by (change (10 ^ Z.of_nat 3) with 1000; lia).
  reflexivity.
Qed.

(** Parsing the text [toISOString] renders gives the time value back. *)
Lemma parse_toISOString t :
  Z.abs t <= maxTime -> parse LocalTZA (toISOString t) = Some t.
Proof.
  intros Ht. unfold toISOString. apply parse_isoHead; [exact Ht |].
  apply readFraction_millis.
Qed.

(** [replace(/\.000Z$/, 'Z')] drops the fraction of a whole second and
    nothing else. *)
Lemma stripMillis_toISOString t :
  stripMillis (toISOString t)
  = (isoHead t ++ (if (msFromTime t =? 0)%Z then "Z"
                   else "." ++ padDigits 3 (msFromTime t) ++ "Z"))%string.
Proof.
  unfold toISOString.
  rewrite stripMillis_app by (cbn [String.append String.length padDigits]; lia).
  f_equal. apply stripMillis_fraction. apply time_fields_bounds.
Qed.

(** So the text the price service returns parses to the same instant. *)
Lemma parse_stripMillis t :
  Z.abs t <= maxTime -> parse LocalTZA (stripMillis (toISOString t)) = Some t.
Proof.
  intros Ht. rewrite stripMillis_toISOString. apply parse_isoHead; [exact Ht |].
  destruct (Z.eqb_spec (msFromTime t) 0) as [E | _].
  - rewrite E. reflexivity.
  - apply readFraction_millis.
Qed.

Lemma endsWithZ_stripMillis t : endsWithZ (stripMillis (toISOString t)) = true.
Proof.
  rewrite stripMillis_toISOString, endsWithZ_app.
  - destruct (msFromTime t =? 0); reflexivity.
  - destruct (msFromTime t =? 0); discriminate.
Qed.

Lemma parse_range s t : parse LocalTZA s = Some t -> Z.abs t <= maxTime.
Proof.
  unfold parse. intros H.
  repeat match type of H with
         | match ?x with _ => _ end = _ => destruct x; try discriminate
         | (let (_, _) := ?x in _) = _ => destruct x
         | (if ?b then _ else _) = _ => destruct b; try discriminate
         end.
  all: unfold TimeClip in H;
    match type of H with
    | (if ?b then _ else _) = _ => destruct b eqn:E; [| discriminate]
    end; injection H as <-; apply Z.leb_le; exact E.
Qed.

End Roundtrip.
End JSDateFacts.

(* ===================================================================== *)
(** ** Sorting *)
(* ===================================================================== *)

Module SortFacts.

Section Sort.
Context {A : Type}.
Variable cmp : A -> A -> Z.
Variable R : A -> A -> Prop.
Variable P : A -> Prop.
Hypothesis R_trans : forall x y z, P x -> P y -> P z -> R x y -> R y z -> R x z.
Hypothesis cmp_R : forall x y, P x -> P y -> if 0 <? cmp x y then R y x else R x y.

Lemma insertSorted_perm x l : Permutation (x :: l) (insertSorted cmp x l).
Proof.
  induction l as [| y l IH]; cbn [insertSorted]; [reflexivity |].
  destruct (0 <? cmp x y); [| reflexivity].
  rewrite perm_swap. apply perm_skip, IH.
Qed.

Lemma arraySort_perm l : Permutation l (arraySort cmp l).
Proof.
  induction l as [| x l IH]; cbn; [reflexivity |].
  rewrite <- insertSorted_perm. apply perm_skip, IH.
Qed.

Lemma insertSorted_sorted x l :
  P x -> Forall P l -> StronglySorted R l -> StronglySorted R (insertSorted cmp x l).
Proof.
  intros Px. induction l as [| y l IH]; intros HP HS; cbn [insertSorted].
  - constructor; constructor.
  - apply Forall_cons_iff in HP as [Py HP].
    apply StronglySorted_inv in HS as [HS Hy].
    pose proof (cmp_R x y Px Py) as Hxy.
    destruct (0 <? cmp x y).
    + constructor; [apply IH; assumption |].
      eapply Permutation_Forall; [apply insertSorted_perm |].
      constructor; assumption.
    + constructor; [constructor; assumption |].
      constructor; [assumption |].
      rewrite Forall_forall in *. intros z Hz.
      apply (R_trans x y z); auto.
Qed.

Lemma arraySort_sorted l : Forall P l -> StronglySorted R (arraySort cmp l).
Proof.
  induction l as [| x l IH]; intros HP; cbn.
  - constructor.
  - apply Forall_cons_iff in HP as [Px HP].
    apply insertSorted_sorted; [assumption | | apply IH; assumption].
    eapply Permutation_Forall; [apply arraySort_perm | assumption].
Qed.

End Sort.

(** Distinct keys turn a weak order into a strict one. *)
Lemma StronglySorted_strict {A K} (key : A -> K) (le lt : A -> A -> Prop) (l : list A) :
  (forall a b, le a b -> key a <> key b -> lt a b) ->
  List.NoDup (map key l) -> StronglySorted le l -> StronglySorted lt l.
Proof.
  intros Hlt. induction l as [| a l IH]; intros Hnd HS; [constructor |].
  cbn in Hnd. apply List.NoDup_cons_iff in Hnd as [Hnotin Hnd].
  apply StronglySorted_inv in HS as [HS Ha].
  constructor; [apply IH; assumption |].
  rewrite List.Forall_forall in *. intros b Hb. apply Hlt; [apply Ha, Hb |].
  intros E. apply Hnotin. rewrite E. apply in_map, Hb.
Qed.

(** *** The order of [localeCompare] *)

Lemma ascii_compare_trans a b c :
  Ascii.compare a b = Lt -> Ascii.compare b c = Lt -> Ascii.compare a c = Lt.
Proof.
  unfold Ascii.compare. rewrite !N.compare_lt_iff. lia.
Qed.

Lemma string_compare_trans a : forall b c,
  String.compare a b = Lt -> String.compare b c = Lt -> String.compare a c = Lt.
Proof.
  induction a as [| x a IH]; intros [| y b] [| z c]; cbn; try discriminate; auto.
  destruct (Ascii.compare x y) eqn:Exy; try discriminate;
    destruct (Ascii.compare y z) eqn:Eyz; try discriminate; intros H1 H2.
  - apply Ascii.compare_eq_iff in Exy, Eyz. subst.
    replace (Ascii.compare z z) with Eq
      by (symmetry; unfold Ascii.compare; apply N.compare_refl).
    eapply IH; eassumption.
  - apply Ascii.compare_eq_iff in Exy. subst. rewrite Eyz. reflexivity.
  - apply Ascii.compare_eq_iff in Eyz. subst. rewrite Exy. reflexivity.
  - rewrite (ascii_compare_trans _ _ _ Exy Eyz). reflexivity.
Qed.

Lemma string_compare_refl a : String.compare a a = Eq.
Proof.
  pose proof (String.compare_antisym a a) as H.
  destruct (String.compare a a); [reflexivity | discriminate | discriminate].
Qed.

Lemma strLe_cases a b : strLe a b <-> a = b \/ String.compare a b = Lt.
Proof.
  unfold strLe, localeCompare. destruct (String.compare a b) eqn:E.
  - apply String.compare_eq_iff in E. split; [auto | lia].
  - split; [auto | lia].
  - split; [lia |]. intros [-> | H]; [| discriminate].
    pose proof (string_compare_refl b). congruence.
Qed.

Lemma strLe_trans a b c : strLe a b -> strLe b c -> strLe a c.
Proof.
  rewrite !strLe_cases. intros [-> | H1] [-> | H2]; auto.
  right. eapply string_compare_trans; eassumption.
Qed.

Lemma strLe_total a b : if 0 <? localeCompare a b then strLe b a else strLe a b.
Proof.
  unfold strLe, localeCompare. rewrite (String.compare_antisym b a).
  destruct (String.compare a b); cbn; lia.
Qed.

Lemma strLe_neq_strLt a b : strLe a b -> a <> b -> strLt a b.
Proof.
  rewrite strLe_cases. unfold strLt, localeCompare.
  intros [-> | ->] Hne; [contradiction | lia].
Qed.

End SortFacts.


Module ProcessorFacts.
Import DataProcessor Ledger.

Section WithHost.
Variable LocalTZA : Z -> bool -> Z.
Variable toLocaleMonthUTC : option Z -> string.

Abbreviation monthKeyOf := (DataProcessor.monthKeyOf LocalTZA toLocaleMonthUTC).
Abbreviation membersOf := (Ledger.membersOf LocalTZA toLocaleMonthUTC).
Abbreviation recordEntry := (DataProcessor.recordEntry LocalTZA toLocaleMonthUTC).
Abbreviation joinReading := (DataProcessor.joinReading LocalTZA).

(** *** The insertion-ordered map *)

Lemma mapGet_mapUpdate k k0 f m :
  mapGet k (mapUpdate k0 f m)
  = if String.eqb k k0 then option_map f (mapGet k m) else mapGet k m.
Proof.
  induction m as [| [k' d] m IH]; cbn [mapGet mapUpdate].
  - destruct (String.eqb k k0); reflexivity.
  - destruct (String.eqb_spec k0 k') as [-> | Hk0]; cbn [mapGet].
    + destruct (String.eqb_spec k k'); reflexivity.
    + destruct (String.eqb_spec k k') as [-> | Hk].
      * destruct (String.eqb_spec k' k0); [congruence | reflexivity].
      * exact IH.
Qed.

Lemma mapGet_snoc k m k0 d0 :
  mapGet k (m ++ [(k0, d0)])
  = match mapGet k m with
    | Some d => Some d
    | None => if String.eqb k k0 then Some d0 else None
    end.
Proof.
  induction m as [| [k' d] m IH]; cbn [mapGet app]; [reflexivity |].
  destruct (String.eqb k k'); [reflexivity | exact IH].
Qed.

Lemma keys_mapUpdate k f m : map fst (mapUpdate k f m) = map fst m.
Proof.
  induction m as [| [k' d] m IH]; cbn [mapUpdate map]; [reflexivity |].
  destruct (String.eqb k k'); cbn [map fst]; [reflexivity | f_equal; exact IH].
Qed.

Lemma mapGet_Some_In k d m : mapGet k m = Some d -> In (k, d) m.
Proof.
  induction m as [| [k' d'] m IH]; cbn [mapGet]; [discriminate |].
  destruct (String.eqb_spec k k') as [-> | Hk]; intros H.
  - injection H as ->. left. reflexivity.
  - right. apply IH, H.
Qed.

Lemma mapGet_None_keys k m : mapGet k m = None -> ~ In k (map fst m).
Proof.
  induction m as [| [k' d'] m IH]; cbn [mapGet map fst]; [intros _ [] |].
  destruct (String.eqb_spec k k') as [-> | Hk]; [discriminate |].
  intros H [E | Hin]; [congruence | exact (IH H Hin)].
Qed.

Lemma In_mapGet k d m :
  List.NoDup (map fst m) -> In (k, d) m -> mapGet k m = Some d.
Proof.
  induction m as [| [k' d'] m IH]; cbn [mapGet map fst]; [intros _ [] |].
  intros Hnd [E | Hin]; apply List.NoDup_cons_iff in Hnd as [Hnotin Hnd].
  - injection E as -> ->. rewrite String.eqb_refl. reflexivity.
  - destruct (String.eqb_spec k k') as [-> | Hk]; [| apply IH; assumption].
    exfalso. apply Hnotin. change k' with (fst (k', d)). apply in_map, Hin.
Qed.

(** *** Sums and members *)

Lemma sumOf_snoc f l e : sumOf f (l ++ [e]) = (sumOf f l + f e)%float.
Proof. unfold sumOf. rewrite fold_left_app. reflexivity. Qed.

Lemma membersOf_snoc k l e :
  membersOf k (l ++ [e])
  = membersOf k l ++ (if String.eqb (monthKeyOf e) k then [e] else []).
Proof.
  unfold Ledger.membersOf. rewrite List.filter_app. cbn [List.filter].
  destruct (String.eqb (monthKeyOf e) k); reflexivity.
Qed.

Lemma membersOf_none k l :
  (forall e, In e l -> monthKeyOf e <> k) -> membersOf k l = [].
Proof.
  induction l as [| e l IH]; intros H; cbn; [reflexivity |].
  destruct (String.eqb_spec (monthKeyOf e) k) as [E | _].
  - exfalso. apply (H e); [left; reflexivity | exact E].
  - apply IH. intros e' He'. apply H. right. exact He'.
Qed.

(** *** The invariant of the loop *)

Abbreviation AccInv := (Ledger.AccInv LocalTZA toLocaleMonthUTC).

Lemma AccInv_empty : AccInv emptyAcc.
Proof.
  split; cbn.
  - constructor.
  - intros e [].
  - discriminate.
Qed.

Lemma recordEntry_inv e acc : AccInv acc -> AccInv (recordEntry e acc).
Proof.
  intros [Hnd Hkeys Hsums]. unfold DataProcessor.recordEntry.
  set (k0 := monthKeyOf e).
  destruct (mapGet k0 (monthlyDataMap acc)) as [d0 |] eqn:G.
  - split; cbn [combinedData monthlyDataMap].
    + rewrite keys_mapUpdate. exact Hnd.
    + rewrite keys_mapUpdate. intros e' He'.
      apply in_app_or in He' as [He' | [<- | []]]; [apply Hkeys, He' |].
      apply mapGet_Some_In in G. change (monthKeyOf e) with (fst (k0, d0)).
      apply in_map, G.
    + intros k d. rewrite mapGet_mapUpdate, membersOf_snoc. fold k0.
      destruct (String.eqb_spec k k0) as [-> | Hk].
      * rewrite G, String.eqb_refl. cbn [option_map]. intros H. injection H as <-.
        destruct (Hsums k0 d0 G) as (E1 & E2 & E3).
        rewrite !sumOf_snoc, <- E2, <- E3. cbn. auto.
      * destruct (String.eqb_spec k0 k) as [E | _]; [congruence |].
        rewrite app_nil_r. apply Hsums.
  - assert (Hfresh : forall e', In e' (combinedData acc) -> monthKeyOf e' <> k0).
    { intros e' He' E. apply (mapGet_None_keys _ _ G). rewrite <- E. apply Hkeys, He'. }
    unfold mapSet. rewrite G.
    split; cbn [combinedData monthlyDataMap].
    + rewrite keys_mapUpdate, map_app. cbn [map fst].
      eapply Permutation_NoDup; [apply Permutation_cons_append |].
      constructor; [apply (mapGet_None_keys _ _ G) | exact Hnd].
    + rewrite keys_mapUpdate, map_app. cbn [map fst]. intros e' He'.
      apply in_or_app. apply in_app_or in He' as [He' | [<- | []]].
      * left. apply Hkeys, He'.
      * right. left. reflexivity.
    + intros k d. rewrite mapGet_mapUpdate, mapGet_snoc, membersOf_snoc. fold k0.
      destruct (String.eqb_spec k k0) as [-> | Hk].
      * rewrite G, !String.eqb_refl. cbn [option_map]. intros H. injection H as <-.
        rewrite (membersOf_none k0 _ Hfresh). cbn. auto.
      * destruct (String.eqb_spec k0 k) as [E | _]; [congruence |].
        rewrite app_nil_r. destruct (mapGet k (monthlyDataMap acc)) eqn:G'; [| discriminate].
        intros H. injection H as <-. apply Hsums, G'.
Qed.

(** *** Induction over the three nested loops *)

Section Loops.
Variable prices : gmap string float.
Variable Q : Acc -> Prop.
Hypothesis Q_record : forall acc reading entry,
  Q acc -> joinReading prices reading = Some entry -> Q (recordEntry entry acc).

Lemma readings_ind readings : forall acc,
  Q acc ->
  Q (fold_left (processReading LocalTZA toLocaleMonthUTC prices) readings acc).
Proof.
  induction readings as [| r l IH]; intros acc HQ; cbn [fold_left]; [exact HQ |].
  apply IH. unfold processReading.
  destruct (joinReading prices r) eqn:J; [eapply Q_record; eassumption | exact HQ].
Qed.

Lemma months_ind ms : forall acc,
  Q acc ->
  Q (fold_left (processMonth LocalTZA toLocaleMonthUTC prices) ms acc).
Proof.
  induction ms as [| m l IH]; intros acc HQ; cbn [fold_left]; [exact HQ |].
  apply IH. unfold processMonth.
  destruct (selectReadings m); [apply readings_ind, HQ | exact HQ].
Qed.

Lemma responses_ind responses : forall acc,
  Q acc ->
  Q (fold_left (processResponse LocalTZA toLocaleMonthUTC prices) responses acc).
Proof.
  induction responses as [| r l IH]; intros acc HQ; cbn [fold_left]; [exact HQ |].
  apply IH. unfold processResponse. apply months_ind, HQ.
Qed.

End Loops.

Lemma accumulate_inv responses pricesArray :
  AccInv (accumulate LocalTZA toLocaleMonthUTC responses pricesArray).
Proof.
  unfold accumulate. apply responses_ind; [| apply AccInv_empty].
  intros acc r e H _. apply recordEntry_inv, H.
Qed.

(** *** What a joined record is made of *)

Lemma joinReading_Some prices reading entry :
  joinReading prices reading = Some entry ->
  exists x ts tv price,
    v reading = JNum x /\ t reading = JStr ts
    /\ JSDate.parse LocalTZA ts = Some tv
    /\ prices !! JSDate.toISOString tv = Some price
    /\ entry = makeEntry (JSDate.toISOString tv) (x / 1000)%float price.
Proof.
  unfold DataProcessor.joinReading, readingKey. intros H.
  destruct (v reading) as [| | | x |]; try discriminate.
  destruct (JSNumber.isNaN x); [discriminate |].
  destruct (t reading) as [| | | | ts]; try discriminate.
  destruct (String.eqb ts ""); [discriminate |].
  destruct (JSDate.parse LocalTZA ts) as [tv |] eqn:Ep; [| discriminate].
  cbn [option_map] in H.
  destruct (prices !! JSDate.toISOString tv) as [price |] eqn:El; [| discriminate].
  destruct (JSNumber.isNaN (x / 1000)); [discriminate |].
  destruct (JSNumber.isNaN price); [discriminate |].
  injection H as <-. exists x, ts, tv, price. auto.
Qed.

(** *** The loops visit the selected readings, and nothing else *)

Lemma months_flat prices ms : forall acc,
  fold_left (processMonth LocalTZA toLocaleMonthUTC prices) ms acc
  = fold_left (processReading LocalTZA toLocaleMonthUTC prices)
      (flat_map readingsOf ms) acc.
Proof.
  induction ms as [| m l IH]; intros acc; cbn [fold_left flat_map]; [reflexivity |].
  rewrite fold_left_app, IH. f_equal.
  unfold processMonth, readingsOf. destruct (selectReadings m); reflexivity.
Qed.

Lemma accumulate_flat prices responses : forall acc,
  fold_left (processResponse LocalTZA toLocaleMonthUTC prices) responses acc
  = fold_left (processReading LocalTZA toLocaleMonthUTC prices)
      (selectedReadings responses) acc.
Proof.
  unfold selectedReadings.
  induction responses as [| r l IH]; intros acc; cbn [fold_left flat_map]; [reflexivity |].
  rewrite fold_left_app, IH. f_equal. apply months_flat.
Qed.

Lemma combinedData_fold prices readings : forall acc,
  combinedData (fold_left (processReading LocalTZA toLocaleMonthUTC prices) readings acc)
  = combinedData acc ++ omap (joinReading prices) readings.
Proof.
  induction readings as [| r l IH]; intros acc; cbn [fold_left omap].
  - cbn. rewrite app_nil_r. reflexivity.
  - rewrite IH. unfold processReading. cbn [omap list_omap].
    destruct (joinReading prices r); cbn [combinedData DataProcessor.recordEntry].
    + rewrite <- app_assoc. reflexivity.
    + reflexivity.
Qed.

(** The hourly records before sorting: the joined readings, in order. *)
Lemma combinedData_accumulate responses pricesArray :
  combinedData (accumulate LocalTZA toLocaleMonthUTC responses pricesArray)
  = omap (joinReading (buildPriceMap LocalTZA pricesArray)) (selectedReadings responses).
Proof.
  unfold accumulate. rewrite accumulate_flat, combinedData_fold. reflexivity.
Qed.

Lemma readingsOf_withGross g m : readingsOf (withGross g m) = readingsOf m.
Proof.
  unfold withGross, readingsOf, selectReadings.
  destruct (EleniaService.nonEmpty (hourly_values_netted m)) eqn:E; [| rewrite E; reflexivity].
  cbn [hourly_values_netted hourly_values]. rewrite E. reflexivity.
Qed.

Lemma selectedReadings_withGross g responses :
  selectedReadings (withGrossAll g responses) = selectedReadings responses.
Proof.
  unfold selectedReadings, withGrossAll.
  induction responses as [| r l IH]; cbn [map flat_map months]; [reflexivity |].
  rewrite IH. f_equal.
  induction (months r) as [| m ms IHm]; cbn [map flat_map]; [reflexivity |].
  rewrite IHm, readingsOf_withGross. reflexivity.
Qed.

(** On months as the consumption service returns them, the copy of the
    processor that reads the gross variant first visits the same readings. *)
(** The selection of the loop is the rule of the specification. *)
Lemma readingsOf_rule m : readingsOf m = nettedElseGross m.
Proof.
  unfold readingsOf, selectReadings, nettedElseGross.
  destruct (hourly_values_netted m) as [[| r l] |]; reflexivity.
Qed.

Lemma selectedReadings_rule responses : selectedReadings responses = consumed responses.
Proof.
  unfold selectedReadings, consumed.
  induction responses as [| r rs IH]; [reflexivity |].
  cbn [flat_map]. rewrite IH. f_equal.
  induction (months r) as [| m ms IHm]; [reflexivity |].
  cbn [flat_map]. rewrite IHm, readingsOf_rule. reflexivity.
Qed.

(** After the normalisation of the consumption service both copies visit
    the readings of the rule, with their timestamps converted. *)
Lemma normalised_rule formatHelsinki m :
  let m' := EleniaService.normalizeMonth formatHelsinki LocalTZA m in
  readingsOf m' = map (EleniaService.convertReading formatHelsinki LocalTZA) (nettedElseGross m)
  /\ readingsOfGrossFirst m'
     = map (EleniaService.convertReading formatHelsinki LocalTZA) (nettedElseGross m).
Proof.
  cbv zeta. unfold EleniaService.normalizeMonth, readingsOfGrossFirst, readingsOf,
    selectReadingsGrossFirst, selectReadings, nettedElseGross.
  destruct (hourly_values_netted m) as [[| r l] |] eqn:En;
    destruct (hourly_values m) as [[| r' l'] |] eqn:Eg;
    cbn; rewrite ?En, ?Eg; split; reflexivity.
Qed.

Lemma legacy_selection_after_normalisation formatHelsinki m :
  let m' := EleniaService.normalizeMonth formatHelsinki LocalTZA m in
  readingsOfGrossFirst m' = readingsOf m'.
Proof.
  cbv zeta. unfold EleniaService.normalizeMonth, readingsOfGrossFirst, readingsOf,
    selectReadingsGrossFirst, selectReadings.
  destruct (hourly_values_netted m) as [[| r l] |] eqn:En;
    destruct (hourly_values m) as [[| r' l'] |] eqn:Eg;
    cbn; rewrite ?En, ?Eg; reflexivity.
Qed.

(** Every emitted timestamp parses back to the instant it was rendered from. *)
Lemma joinReading_instant prices reading entry :
  joinReading prices reading = Some entry ->
  exists tv, instantOf LocalTZA entry = Some tv.
Proof.
  intros H. apply joinReading_Some in H as (x & ts & tv & price & _ & _ & Ep & _ & ->).
  exists tv. unfold instantOf. cbn [timestamp makeEntry].
  apply JSDateFacts.parse_toISOString. eapply JSDateFacts.parse_range, Ep.
Qed.

End WithHost.
End ProcessorFacts.

(* ===================================================================== *)
(** ** The request helper *)
(* ===================================================================== *)

Module RetryFacts.
Import EleniaService Backoff.


Section Retry.
Context {T : Type}.
Variable maxRetries : nat.
Variable axios_request : nat -> Outcome T.

Abbreviation run := (makeRequestWithRetry maxRetries axios_request).

(** The helper, as its source reads. *)
Lemma makeRequestWithRetry_unfold attempt :
  run attempt =
  match axios_request attempt with
  | Resolved response =>
      if (status response =? 504) && (attempt <? maxRetries - 1)%nat
      then (Request attempt :: Sleep (2 ^ Z.of_nat attempt) :: fst (run (S attempt)),
            snd (run (S attempt)))
      else ([Request attempt], Ok response)
  | Rejected error =>
      if (attempt <? maxRetries - 1)%nat
      then (Request attempt :: Sleep (2 ^ Z.of_nat attempt) :: fst (run (S attempt)),
            snd (run (S attempt)))
      else ([Request attempt], Err error)
  end.
Proof.
  assert (Hb : (attempt <? maxRetries - 1)%nat
               = if lt_dec attempt (maxRetries - 1) then true else false).
  { destruct (lt_dec attempt (maxRetries - 1));
      [apply Nat.ltb_lt | apply Nat.ltb_ge]; lia. }
  rewrite Hb. clear Hb.
  destruct (axios_request attempt) as [response | error] eqn:Eo;
    destruct (lt_dec attempt (maxRetries - 1)) as [Hlt | Hge] eqn:El;
    simp makeRequestWithRetry; rewrite Eo, El; simp makeRequestWithRetry;
    rewrite ?andb_true_r, ?andb_false_r;
    try destruct (status response =? 504); try reflexivity;
    cbv zeta;
    match goal with
    | |- context [let '(_, _) := ?x in _] => destruct x
    end; reflexivity.
Qed.

(** When every attempt is rejected, the helper makes every attempt it is
    allowed and gives up with the error of the last one. *)
Lemma all_rejected (err : nat -> JSError) :
  (forall k, axios_request k = Rejected (err k)) ->
  forall n attempt, (attempt + n + 1 = maxRetries)%nat ->
  run attempt
  = (retryLog attempt n ++ [Request (attempt + n)], Err (err (attempt + n)%nat)).
Proof.
  intros Hall. induction n as [| n IH]; intros attempt Hn.
  - rewrite makeRequestWithRetry_unfold, Hall.
    destruct (Nat.ltb_spec attempt (maxRetries - 1)); [lia |].
    rewrite Nat.add_0_r. reflexivity.
  - rewrite makeRequestWithRetry_unfold, Hall.
    destruct (Nat.ltb_spec attempt (maxRetries - 1)); [| lia].
    rewrite (IH (S attempt)) by lia. cbn [fst snd].
    replace (S attempt + n)%nat with (attempt + S n)%nat by lia. reflexivity.
Qed.

(** Attempts that resolve with status 504 follow the same schedule; the
    last response is handed to the caller. *)
Lemma gateway_timeout_schedule (resp : nat -> AxiosResponse T) :
  (forall k, axios_request k = Resolved (resp k) /\ status (resp k) = 504) ->
  forall n attempt, (attempt + n + 1 = maxRetries)%nat ->
  run attempt
  = (retryLog attempt n ++ [Request (attempt + n)], Ok (resp (attempt + n)%nat)).
Proof.
  intros Hall. induction n as [| n IH]; intros attempt Hn.
  - rewrite makeRequestWithRetry_unfold. destruct (Hall attempt) as [-> ->].
    destruct (Nat.ltb_spec attempt (maxRetries - 1)); [lia |].
    rewrite Nat.add_0_r. reflexivity.
  - rewrite makeRequestWithRetry_unfold. destruct (Hall attempt) as [-> ->].
    destruct (Nat.ltb_spec attempt (maxRetries - 1)); [| lia].
    rewrite (IH (S attempt)) by lia. cbn [fst snd andb Z.eqb Pos.eqb].
    replace (S attempt + n)%nat with (attempt + S n)%nat by lia. reflexivity.
Qed.

End Retry.

(** The requests and sleeps do not depend on which errors came back. *)
Lemma log_independent_of_errors {T} maxRetries (f g : nat -> Outcome T) :
  sameUpToErrors f g ->
  forall n attempt, (maxRetries - 1 - attempt = n)%nat ->
  fst (makeRequestWithRetry maxRetries f attempt)
  = fst (makeRequestWithRetry maxRetries g attempt).
Proof.
  intros Hsame. induction n as [| n IH]; intros attempt Hn;
    rewrite (makeRequestWithRetry_unfold maxRetries f attempt),
      (makeRequestWithRetry_unfold maxRetries g attempt);
    pose proof (Hsame attempt) as Hk;
    destruct (f attempt) as [r | e], (g attempt) as [r' | e']; try contradiction;
    try subst r';
    destruct (Nat.ltb_spec attempt (maxRetries - 1)); try lia;
    rewrite ?andb_false_r, ?andb_true_r;
    try destruct (status r =? 504); cbn [fst]; try reflexivity;
    rewrite (IH (S attempt)) by lia; reflexivity.
Qed.

Lemma requests_app l1 l2 : requests (l1 ++ l2) = requests l1 ++ requests l2.
Proof. unfold requests. apply flat_map_app. Qed.

Lemma sleeps_app l1 l2 : sleeps (l1 ++ l2) = sleeps l1 ++ sleeps l2.
Proof. unfold sleeps. apply flat_map_app. Qed.

Lemma requests_retryLog n : forall from, requests (retryLog from n) = seq from n.
Proof.
  induction n as [| n IH]; intros from; [reflexivity |].
  cbn. f_equal. apply IH.
Qed.

Lemma sleeps_retryLog n : forall from,
  sleeps (retryLog from n) = map (fun k => 2 ^ Z.of_nat k) (seq from n).
Proof.
  induction n as [| n IH]; intros from; [reflexivity |].
  cbn -[Z.pow]. f_equal. apply IH.
Qed.

Lemma total_powers n : forall from,
  total (map (fun k => 2 ^ Z.of_nat k) (seq from n))
  = 2 ^ Z.of_nat (from + n) - 2 ^ Z.of_nat from.
Proof.
  induction n as [| n IH]; intros from.
  - cbn. rewrite Nat.add_0_r. lia.
  - cbn [seq map total fold_right]. fold (total (map (fun k => 2 ^ Z.of_nat k) (seq (S from) n))).
    rewrite IH. replace (from + S n)%nat with (S from + n)%nat by lia.
    rewrite (Nat2Z.inj_succ from), Z.pow_succ_r by lia. lia.
Qed.

End RetryFacts.

(* ===================================================================== *)
(** ** The sorted output *)
(* ===================================================================== *)

Module OutputFacts.
Import DataProcessor Ledger ProcessorFacts SortFacts.

Lemma StronglySorted_weaken {A} (R1 R2 : A -> A -> Prop) (l : list A) :
  (forall a b, R1 a b -> R2 a b) -> StronglySorted R1 l -> StronglySorted R2 l.
Proof.
  intros H. induction 1 as [| a l HS IH Ha]; constructor; [exact IH |].
  rewrite List.Forall_forall in *. intros b Hb. apply H, Ha, Hb.
Qed.

Section WithHost.
Variable LocalTZA : Z -> bool -> Z.
Variable toLocaleMonthUTC : option Z -> string.

Abbreviation canonical := (Ledger.canonical LocalTZA).
Abbreviation canonicalNotAfter := (Ledger.canonicalNotAfter LocalTZA).

Lemma joined_members responses pricesArray e :
  In e (combinedData (accumulate LocalTZA toLocaleMonthUTC responses pricesArray)) ->
  exists reading,
    In reading (selectedReadings responses)
    /\ joinReading LocalTZA (buildPriceMap LocalTZA pricesArray) reading = Some e.
Proof.
  rewrite combinedData_accumulate, <- list_elem_of_In, list_elem_of_omap.
  intros (reading & Hin & Hj). exists reading. rewrite <- list_elem_of_In. auto.
Qed.

Lemma joined_canonical responses pricesArray :
  Forall canonical
    (combinedData (accumulate LocalTZA toLocaleMonthUTC responses pricesArray)).
Proof.
  rewrite List.Forall_forall. intros e He.
  apply joined_members in He as (reading & _ & Hj).
  apply joinReading_Some in Hj as (x & ts & tv & price & _ & _ & Ep & _ & ->).
  exists tv. split; [reflexivity |]. unfold instantOf. cbn [timestamp makeEntry].
  apply JSDateFacts.parse_toISOString. eapply JSDateFacts.parse_range, Ep.
Qed.

Lemma canonicalNotAfter_trans x y z :
  canonical x -> canonical y -> canonical z ->
  canonicalNotAfter x y -> canonicalNotAfter y z -> canonicalNotAfter x z.
Proof.
  intros Hx Hy Hz (_ & _ & ta & tb & Ea & Eb & Hab) (_ & _ & tb' & tc & Eb' & Ec & Hbc).
  repeat split; try assumption.
  exists ta, tc. repeat split; try assumption.
  rewrite Eb in Eb'. injection Eb' as <-. lia.
Qed.

Lemma compareTimestamps_order x y :
  canonical x -> canonical y ->
  if 0 <? compareTimestamps LocalTZA x y
  then canonicalNotAfter y x else canonicalNotAfter x y.
Proof.
  intros Hx Hy. pose proof Hx as (tx & _ & Ex). pose proof Hy as (ty & _ & Ey).
  unfold compareTimestamps. unfold instantOf in Ex, Ey. rewrite Ex, Ey.
  destruct (Z.ltb_spec 0 (tx - ty)); repeat split; try assumption.
  - exists ty, tx. repeat split; try assumption. lia.
  - exists tx, ty. repeat split; try assumption. lia.
Qed.

Lemma canonical_strict a b :
  canonicalNotAfter a b -> timestamp a <> timestamp b -> strictlyBefore LocalTZA a b.
Proof.
  intros ((ta & Ta & Ea) & (tb & Tb & Eb) & ta' & tb' & Ea' & Eb' & Hle) Hne.
  rewrite Ea in Ea'. rewrite Eb in Eb'. injection Ea' as <-. injection Eb' as <-.
  exists ta, tb. repeat split; try assumption.
  assert (ta <> tb) by (intros ->; apply Hne; congruence). lia.
Qed.

Lemma hourly_sorted responses pricesArray :
  StronglySorted canonicalNotAfter
    (arraySort (compareTimestamps LocalTZA)
       (combinedData (accumulate LocalTZA toLocaleMonthUTC responses pricesArray))).
Proof.
  apply (arraySort_sorted _ canonicalNotAfter canonical).
  - apply canonicalNotAfter_trans.
  - apply compareTimestamps_order.
  - apply joined_canonical.
Qed.

(** *** The monthly summaries *)


Lemma summaries_keys acc :
  AccInv LocalTZA toLocaleMonthUTC acc ->
  map mmonth (summaries acc) = map fst (monthlyDataMap acc).
Proof.
  intros [Hnd _ Hsums]. unfold summaries. rewrite map_map.
  apply map_ext_in. intros [k d] Hin. cbn [snd fst finalizeMonth mmonth].
  apply (Hsums k d). apply In_mapGet; assumption.
Qed.

(** Without the guard, a month of zero consumption and zero cost gets an
    average price that is not a number. *)
Lemma unguarded_average_of_zero_month d :
  totalConsumption d = 0%float -> totalCost d = 0%float ->
  JSNumber.isNaN (averagePrice (finalizeMonthUnguarded d)) = true.
Proof.
  intros Hc Ht. cbn [finalizeMonthUnguarded averagePrice]. rewrite Hc, Ht.
  vm_compute. reflexivity.
Qed.

Lemma monthly_sorted (l : list MonthlyData) :
  StronglySorted (fun a b => strLe (mmonth a) (mmonth b)) (arraySort compareMonths l).
Proof.
  apply (arraySort_sorted _ _ (fun _ => True)).
  - intros x y z _ _ _. apply strLe_trans.
  - intros x y _ _. apply strLe_total.
  - rewrite List.Forall_forall. auto.
Qed.

End WithHost.
End OutputFacts.


(* ===================================================================== *)
(** ** The properties of the specification *)
(* ===================================================================== *)

Import Examples.

(** C1 (as the code has it).  A consumption timestamp and a price timestamp
    that denote the same instant normalise to the same key, the ISO
    rendering of that instant with milliseconds, and two keys are equal only
    for one instant; this also holds for a raw price entry taken through the
    price service, which renders its timestamp without ".000" first.  For
    the reading of 2024-03-31T02:30:00+02:00 and the
    price entry of 2024-03-31T00:30:00Z both keys are
    "2024-03-31T00:30:00.000Z"; the price 5.0 with the 25.5 % markup is the
    binary64 product 6.27499999999999946..., which [toFixed(2)] renders as
    6.27, and the joined record is 1.5 kWh at 6.27 c/kWh, 0.09405 euros. *)
Theorem C1_same_instant_same_key (LocalTZA : Z -> bool -> Z)
    (toLocaleMonthUTC : option Z -> string) :
  (forall ts p i,
      JSDate.parse LocalTZA ts = Some i ->
      JSDate.parse LocalTZA (DataProcessor.priceTimestamp p) = Some i ->
      DataProcessor.readingKey LocalTZA ts = Some (JSDate.toISOString i)
      /\ DataProcessor.priceKey LocalTZA p = Some (JSDate.toISOString i))
  /\ (forall ts p i j,
        JSDate.parse LocalTZA ts = Some i ->
        JSDate.parse LocalTZA (DataProcessor.priceTimestamp p) = Some j ->
        DataProcessor.readingKey LocalTZA ts = DataProcessor.priceKey LocalTZA p ->
        i = j)
  /\ (forall ts row i,
        JSDate.parse LocalTZA ts = Some i ->
        JSDate.parse LocalTZA (timeStamp row) = Some i ->
        exists processed,
          VattenfallService.processRow LocalTZA row = Ok processed
          /\ DataProcessor.priceKey LocalTZA processed = Some (JSDate.toISOString i)
          /\ DataProcessor.readingKey LocalTZA ts = Some (JSDate.toISOString i))
  /\ VattenfallService.fetchPriceData LocalTZA (Ok [dstRawPrice]) = Ok [dstPrice]
  /\ DataProcessor.readingKey LocalTZA "2024-03-31T02:30:00+02:00"
     = Some "2024-03-31T00:30:00.000Z"%string
  /\ DataProcessor.priceKey LocalTZA dstPrice = Some "2024-03-31T00:30:00.000Z"%string
  /\ forall now,
       hourly (DataProcessor.reconcile LocalTZA toLocaleMonthUTC now dstResponses [dstPrice])
       = [ {| timestamp := "2024-03-31T00:30:00.000Z";
              consumption_kWh := 1.5;
              price_cents_per_kWh := 6.27;
              cost_euros := 0.09405 |} ].
Proof.
  split; [| split; [| split; [| split; [| split; [| split]]]]].
  - intros ts p i Hr Hp. unfold DataProcessor.readingKey, DataProcessor.priceKey.
    rewrite Hr, Hp. split; reflexivity.
  - intros ts p i j Hr Hp. unfold DataProcessor.readingKey, DataProcessor.priceKey.
    rewrite Hr, Hp. cbn [option_map]. intros E. injection E as E.
    pose proof (JSDateFacts.parse_toISOString LocalTZA i
                  (JSDateFacts.parse_range LocalTZA _ _ Hr)) as Hi.
    pose proof (JSDateFacts.parse_toISOString LocalTZA j
                  (JSDateFacts.parse_range LocalTZA _ _ Hp)) as Hj.
    rewrite E in Hi. congruence.
  - intros ts row i Hr Hp. unfold VattenfallService.processRow. rewrite Hp.
    eexists. split; [reflexivity |].
    unfold DataProcessor.priceKey, DataProcessor.priceTimestamp,
      DataProcessor.readingKey.
    cbn [timeStamp].
    rewrite JSDateFacts.endsWithZ_stripMillis, JSDateFacts.parse_stripMillis
      by (eapply JSDateFacts.parse_range, Hp).
    rewrite Hr. split; reflexivity.
  - vm_compute. reflexivity.
  - vm_compute. reflexivity.
  - vm_compute. reflexivity.
  - intros now. unfold DataProcessor.reconcile. cbn [hourly].
    rewrite ProcessorFacts.combinedData_accumulate. vm_compute. reflexivity.
Qed.

Lemma C1_witness :
  DataProcessor.readingKey utcZone "2024-03-31T02:30:00+02:00"
    = Some (JSDate.toISOString 1711845000000)
  /\ DataProcessor.priceKey utcZone dstPrice = Some (JSDate.toISOString 1711845000000).
Proof.
  apply (proj1 (C1_same_instant_same_key utcZone isoMonthKey)
           "2024-03-31T02:30:00+02:00"%string dstPrice 1711845000000);
    vm_compute; reflexivity.
Defined.

(** C1 as the specification states it fails at its own scenario: the key is not
    "2024-03-31T00:30:00Z", the marked-up price is not 6.28 and the joined
    record is not (1.5, 6.28, 0.0942). *)
Lemma C1_counterexample :
  DataProcessor.readingKey utcZone "2024-03-31T02:30:00+02:00"
    <> Some "2024-03-31T00:30:00Z"%string
  /\ DataProcessor.priceKey utcZone dstPrice <> Some "2024-03-31T00:30:00Z"%string
  /\ VattenfallService.fetchPriceData utcZone (Ok [dstRawPrice])
     <> Ok [ {| timeStamp := "2024-03-31T00:30:00Z"; value := 6.28 |} ]
  /\ map numbers
       (hourly (DataProcessor.reconcile utcZone isoMonthKey 0 dstResponses [dstPrice]))
     <> [ (1.5, 6.28, 0.0942)%float ].
Proof.
  repeat split.
  - vm_compute. discriminate.
  - vm_compute. discriminate.
  - intros H.
    differ_by (fun r : result (list PriceData) =>
                 match r with
                 | Ok [p] => Prim2SF (value p)
                 | _ => S754_nan
                 end) H.
  - intros H.
    differ_by (fun l : list (float * float * float) =>
                 match l with
                 | [(_, p, _)] => Prim2SF p
                 | _ => S754_nan
                 end) H.
Qed.

(** C2 (as the code has it).  The current copy of the reconciliation
    consumes the readings of the rule and nothing else: its whole result is
    made, reading by reading, from the netted readings of every month that
    has any and from the gross readings of the other months, so that the
    hourly output is a permutation of the records those readings are joined
    into, and whatever the gross variant of a month with netted readings
    holds, the output is the same.  The older copy kept in the same file
    looks at the gross variant first: on a month with gross readings it
    takes them, whether or not there are netted ones.  On the months the
    consumption service returns, normalised, both copies visit the same
    readings: those of the rule for the month as it arrived, with their
    timestamps converted. *)
Theorem C2_netted_supersedes_gross (LocalTZA : Z -> bool -> Z)
    (toLocaleMonthUTC : option Z -> string) :
  (forall now responses pricesArray,
      let prices := DataProcessor.buildPriceMap LocalTZA pricesArray in
      let acc := fold_left (DataProcessor.processReading LocalTZA toLocaleMonthUTC prices)
                   (Ledger.consumed responses) DataProcessor.emptyAcc in
      let y := DataProcessor.reconcile LocalTZA toLocaleMonthUTC now responses pricesArray in
      y = {| lastUpdated := JSDate.toISOString now;
             hourly := arraySort (DataProcessor.compareTimestamps LocalTZA)
                         (DataProcessor.combinedData acc);
             monthly := arraySort DataProcessor.compareMonths
                          (map (fun kd => DataProcessor.finalizeMonth (snd kd))
                             (DataProcessor.monthlyDataMap acc)) |}
      /\ Permutation
           (omap (DataProcessor.joinReading LocalTZA prices) (Ledger.consumed responses))
           (hourly y))
  /\ (forall g now responses pricesArray,
        DataProcessor.reconcile LocalTZA toLocaleMonthUTC now
          (Ledger.withGrossAll g responses) pricesArray
        = DataProcessor.reconcile LocalTZA toLocaleMonthUTC now responses pricesArray)
  /\ (forall m,
        EleniaService.nonEmpty (hourly_values m) = true ->
        DataProcessor.selectReadingsGrossFirst m = hourly_values m)
  /\ (forall formatHelsinki m,
        let m' := EleniaService.normalizeMonth formatHelsinki LocalTZA m in
        Ledger.readingsOf m'
        = map (EleniaService.convertReading formatHelsinki LocalTZA)
            (Ledger.nettedElseGross m)
        /\ Ledger.readingsOfGrossFirst m'
           = map (EleniaService.convertReading formatHelsinki LocalTZA)
               (Ledger.nettedElseGross m)).
Proof.
  split; [| split; [| split]].
  - intros now responses pricesArray. cbv zeta.
    assert (Hacc : DataProcessor.accumulate LocalTZA toLocaleMonthUTC responses pricesArray
                   = fold_left
                       (DataProcessor.processReading LocalTZA toLocaleMonthUTC
                          (DataProcessor.buildPriceMap LocalTZA pricesArray))
                       (Ledger.consumed responses) DataProcessor.emptyAcc).
    { unfold DataProcessor.accumulate.
      rewrite ProcessorFacts.accumulate_flat, ProcessorFacts.selectedReadings_rule.
      reflexivity. }
    unfold DataProcessor.reconcile. rewrite Hacc. split; [reflexivity |].
    cbn [hourly]. rewrite ProcessorFacts.combinedData_fold. cbn [DataProcessor.combinedData app].
    apply SortFacts.arraySort_perm.
  - intros g now responses pricesArray.
    unfold DataProcessor.reconcile, DataProcessor.accumulate.
    rewrite !ProcessorFacts.accumulate_flat,
      ProcessorFacts.selectedReadings_withGross.
    reflexivity.
  - intros m Hgross. unfold DataProcessor.selectReadingsGrossFirst. rewrite Hgross.
    reflexivity.
  - intros formatHelsinki m. apply ProcessorFacts.normalised_rule.
Qed.

(** A month with both variants, the two readings of the same hour: the
    record comes from the netted one. *)
Lemma C2_witness :
  Permutation
    (omap (DataProcessor.joinReading utcZone (DataProcessor.buildPriceMap utcZone [dstPrice]))
       [dstReading])
    (hourly (DataProcessor.reconcile utcZone isoMonthKey 0 bothResponses [dstPrice]))
  /\ DataProcessor.selectReadingsGrossFirst
       (monthOf None (Some [smallReading])) = Some [smallReading].
Proof.
  destruct (C2_netted_supersedes_gross utcZone isoMonthKey) as (Hrule & _ & Hlegacy & _).
  split.
  - exact (proj2 (Hrule 0 bothResponses [dstPrice])).
  - exact (Hlegacy (monthOf None (Some [smallReading])) eq_refl).
Defined.

(** C2 as the specification states it fails for the older copy of the
    reconciliation: on a month that holds both variants it visits the gross
    reading, not the netted one the rule asks for and the current copy
    consumes. *)
Lemma C2_counterexample :
  Ledger.readingsOfGrossFirst bothMonth = [smallReading]
  /\ Ledger.nettedElseGross bothMonth = [dstReading]
  /\ map numbers
       (hourly (DataProcessor.reconcile utcZone isoMonthKey 0 bothResponses [dstPrice]))
     = [ (1.5, 6.27, 0.09405)%float ].
Proof.
  split; [reflexivity |]. split; [reflexivity |].
  vm_compute. reflexivity.
Qed.

(** C3 (as the code has it).  Every hourly record comes from one selected
    reading and the price stored under its key; its cost is
    consumption * price / 100 rounded to 6 decimals, computed from the
    unrounded consumption (watt-hours / 1000) and the unrounded price, and
    its consumption and price fields are those two values rounded to 3 and 2
    decimals. *)
Theorem C3_cost_from_unrounded_values (LocalTZA : Z -> bool -> Z)
    (toLocaleMonthUTC : option Z -> string) (now : Z)
    (responses : list MeterReadingResponse) (pricesArray : list PriceData)
    (entry : CombinedData) :
  In entry (hourly (DataProcessor.reconcile LocalTZA toLocaleMonthUTC now
                      responses pricesArray)) ->
  exists reading wattHours ts instant price,
    In reading (Ledger.selectedReadings responses)
    /\ v reading = JNum wattHours /\ t reading = JStr ts
    /\ JSDate.parse LocalTZA ts = Some instant
    /\ timestamp entry = JSDate.toISOString instant
    /\ DataProcessor.buildPriceMap LocalTZA pricesArray !! timestamp entry = Some price
    /\ let consumption := (wattHours / 1000)%float in
       consumption_kWh entry = JSNumber.Number (JSNumber.toFixed consumption 3)
       /\ price_cents_per_kWh entry = JSNumber.Number (JSNumber.toFixed price 2)
       /\ cost_euros entry
          = JSNumber.Number (JSNumber.toFixed (consumption * price / 100)%float 6).
Proof.
  unfold DataProcessor.reconcile. cbn [hourly]. intros Hin.
  eapply Permutation_in in Hin; [| symmetry; apply SortFacts.arraySort_perm].
  apply OutputFacts.joined_members in Hin as (reading & Hsel & Hj).
  apply ProcessorFacts.joinReading_Some in Hj
    as (x & ts & tv & price & Hv & Ht & Hp & Hl & ->).
  exists reading, x, ts, tv, price. cbn. auto 10.
Qed.

Lemma C3_witness :
  exists reading wattHours ts instant price,
    In reading (Ledger.selectedReadings dstResponses)
    /\ v reading = JNum wattHours /\ t reading = JStr ts
    /\ JSDate.parse utcZone ts = Some instant
    /\ "2024-03-31T00:30:00.000Z"%string = JSDate.toISOString instant
    /\ DataProcessor.buildPriceMap utcZone [dstPrice] !! "2024-03-31T00:30:00.000Z"%string
       = Some price
    /\ let consumption := (wattHours / 1000)%float in
       1.5%float = JSNumber.Number (JSNumber.toFixed consumption 3)
       /\ 6.27%float = JSNumber.Number (JSNumber.toFixed price 2)
       /\ 0.09405%float
          = JSNumber.Number (JSNumber.toFixed (consumption * price / 100)%float 6).
Proof.
  apply (C3_cost_from_unrounded_values utcZone isoMonthKey 0 dstResponses [dstPrice]
           {| timestamp := "2024-03-31T00:30:00.000Z";
              consumption_kWh := 1.5;
              price_cents_per_kWh := 6.27;
              cost_euros := 0.09405 |}).
  vm_compute. left. reflexivity.
Defined.

(** C3 as the specification states it fails: 0.4 Wh at 10 c/kWh is stored as 0 kWh
    and costs 0.00004 euros, not the 0 euros the stored fields give. *)
Lemma C3_counterexample :
  exists entry,
    In entry (hourly (DataProcessor.reconcile utcZone isoMonthKey 0 smallResponses [tenCents]))
    /\ numbers entry = (0, 10, 0.00004)%float
    /\ cost_euros entry
       <> JSNumber.Number
            (JSNumber.toFixed
               (consumption_kWh entry * price_cents_per_kWh entry / 100)%float 6).
Proof.
  eexists. split; [vm_compute; left; reflexivity |].
  split; [vm_compute; reflexivity |].
  intros H. vm_compute in H. float_neq H.
Qed.




(** C5.  When the fetch-and-reconcile step fails, a request for a year that
    has a cached dataset returns that dataset and no error; without a
    cached dataset the same error reaches the caller. *)
Theorem C5_stale_fallback (LocalTZA : Z -> bool -> Z)
    (toLocaleMonthUTC : option Z -> string)
    (cache : gmap string YearData) (year : string) (now : Z)
    (consumption : result (list MeterReadingResponse))
    (prices : result (list PriceData)) (saved : bool) (error : JSError) :
  DataProcessor.fetchAndReconcile LocalTZA toLocaleMonthUTC now consumption prices
    = Err error ->
  match cache !! year with
  | Some cached =>
      DataProcessor.combineData LocalTZA toLocaleMonthUTC cache year now
        consumption prices saved = (Ok cached, cache)
  | None =>
      DataProcessor.combineData LocalTZA toLocaleMonthUTC cache year now
        consumption prices saved = (Err error, cache)
  end.
Proof.
  intros Hfail. unfold DataProcessor.combineData. rewrite Hfail.
  destruct (cache !! year) as [cached |]; [| reflexivity].
  destruct (negb _); reflexivity.
Qed.

Lemma C5_witness :
  DataProcessor.combineData utcZone isoMonthKey {[ "2024"%string := staleDataset ]}
    "2024" 1718000000000 (Err fetchExhausted) (Ok []) true
  = (Ok staleDataset, {[ "2024"%string := staleDataset ]}).
Proof.
  pose proof (C5_stale_fallback utcZone isoMonthKey
                {[ "2024"%string := staleDataset ]} "2024" 1718000000000
                (Err fetchExhausted) (Ok []) true fetchExhausted eq_refl) as H.
  rewrite lookup_singleton_eq in H. exact H.
Defined.

(** C6 (as the code has it).  A rejected attempt is retried whatever its
    error is, an authentication failure included: before the last allowed
    attempt the helper sleeps and tries again, and only a rejection at the
    last allowed attempt is passed on; the requests made and the sleeps do
    not depend on the errors at all.  A response that is not a 504 is
    returned at once. *)
Theorem C6_every_rejection_is_retried (T : Type) (maxRetries : nat) :
  (forall (axios_request : nat -> Outcome T) attempt error,
      axios_request attempt = Rejected error ->
      EleniaService.makeRequestWithRetry maxRetries axios_request attempt
      = if (attempt <? maxRetries - 1)%nat
        then (Request attempt :: Sleep (2 ^ Z.of_nat attempt)
                :: fst (EleniaService.makeRequestWithRetry maxRetries axios_request
                          (S attempt)),
              snd (EleniaService.makeRequestWithRetry maxRetries axios_request
                     (S attempt)))
        else ([Request attempt], Err error))
  /\ (forall (axios_request : nat -> Outcome T) attempt response,
        axios_request attempt = Resolved response ->
        status response <> 504 ->
        EleniaService.makeRequestWithRetry maxRetries axios_request attempt
        = ([Request attempt], Ok response))
  /\ (forall (f g : nat -> Outcome T) attempt,
        Backoff.sameUpToErrors f g ->
        fst (EleniaService.makeRequestWithRetry maxRetries f attempt)
        = fst (EleniaService.makeRequestWithRetry maxRetries g attempt)).
Proof.
  split; [| split].
  - intros axios_request attempt error H.
    rewrite RetryFacts.makeRequestWithRetry_unfold, H. reflexivity.
  - intros axios_request attempt response H Hs.
    rewrite RetryFacts.makeRequestWithRetry_unfold, H.
    destruct (Z.eqb_spec (status response) 504); [contradiction | reflexivity].
  - intros f g attempt Hsame.
    eapply RetryFacts.log_independent_of_errors; [exact Hsame | reflexivity].
Qed.

Lemma C6_witness :
  EleniaService.makeRequestWithRetry EleniaService.defaultMaxRetries (alwaysStatus 401) 0
  = (Request 0 :: Sleep 1
       :: fst (EleniaService.makeRequestWithRetry EleniaService.defaultMaxRetries
                 (alwaysStatus 401) 1),
     snd (EleniaService.makeRequestWithRetry EleniaService.defaultMaxRetries
            (alwaysStatus 401) 1)).
Proof.
  exact (proj1 (C6_every_rejection_is_retried unit EleniaService.defaultMaxRetries)
           (alwaysStatus 401) 0%nat (AxiosError "Request failed" (Some 401)) eq_refl).
Defined.

(** C6 as the specification states it fails: with invalid credentials (status 401 at
    every attempt) the helper does not stop after the first attempt; it
    makes all five and sleeps 1, 2, 4 and 8 seconds in between. *)
Lemma C6_counterexample :
  EleniaService.makeRequestWithRetry EleniaService.defaultMaxRetries (alwaysStatus 401) 0
    <> ([Request 0], Err (AxiosError "Request failed" (Some 401)))
  /\ EleniaService.requests
       (fst (EleniaService.makeRequestWithRetry EleniaService.defaultMaxRetries
               (alwaysStatus 401) 0))
     = [0; 1; 2; 3; 4]%nat.
Proof.
  rewrite (RetryFacts.all_rejected EleniaService.defaultMaxRetries (alwaysStatus 401)
             (fun _ => AxiosError "Request failed" (Some 401))
             (fun _ => eq_refl) 4 0 eq_refl).
  split; [discriminate | reflexivity].
Qed.

(** C7.  When every attempt is rejected, the helper makes exactly
    [maxRetries] attempts (numbered from 0, so none numbered [maxRetries]);
    after the failed attempt number [k] it sleeps [2^k] seconds, that is
    [2^(k-2)] seconds before the k-th attempt counted from one; the sleeps
    add up to [2^(maxRetries-1) - 1] seconds, 15 for the default of 5; and
    it fails with the error of the last attempt. *)
Theorem C7_retry_budget (T : Type) (maxRetries : nat)
    (axios_request : nat -> Outcome T) (err : nat -> JSError) :
  (1 <= maxRetries)%nat ->
  (forall k, axios_request k = Rejected (err k)) ->
  let out := EleniaService.makeRequestWithRetry maxRetries axios_request 0 in
  fst out = Backoff.retryLog 0 (maxRetries - 1) ++ [Request (maxRetries - 1)]
  /\ EleniaService.requests (fst out) = seq 0 maxRetries
  /\ EleniaService.sleeps (fst out)
     = map (fun k => 2 ^ Z.of_nat k) (seq 0 (maxRetries - 1))
  /\ Backoff.total (EleniaService.sleeps (fst out))
     = 2 ^ Z.of_nat (maxRetries - 1) - 1
  /\ snd out = Err (err (maxRetries - 1)%nat).
Proof.
  intros Hpos Hall. cbv zeta.
  rewrite (RetryFacts.all_rejected maxRetries axios_request err Hall (maxRetries - 1) 0)
    by lia.
  cbn [fst snd Nat.add].
  rewrite RetryFacts.requests_app, RetryFacts.sleeps_app,
    RetryFacts.requests_retryLog, RetryFacts.sleeps_retryLog.
  cbn [EleniaService.requests EleniaService.sleeps flat_map app].
  rewrite app_nil_r, RetryFacts.total_powers.
  split; [reflexivity |]. split.
  { replace (seq 0 maxRetries) with (seq 0 (S (maxRetries - 1))) by (f_equal; lia).
    rewrite seq_S. reflexivity. }
  split; [reflexivity |]. split; [| reflexivity].
  cbn [Nat.add]. change (2 ^ Z.of_nat 0) with 1. reflexivity.
Qed.

Lemma C7_witness :
  let out := EleniaService.makeRequestWithRetry EleniaService.defaultMaxRetries
               (alwaysStatus 504) 0 in
  EleniaService.requests (fst out) = [0; 1; 2; 3; 4]%nat
  /\ EleniaService.sleeps (fst out) = [1; 2; 4; 8]
  /\ Backoff.total (EleniaService.sleeps (fst out)) = 15
  /\ snd out = Err (AxiosError "Request failed" (Some 504)).
Proof.
  pose proof (C7_retry_budget unit EleniaService.defaultMaxRetries (alwaysStatus 504)
                (fun _ => AxiosError "Request failed" (Some 504))
                ltac:(unfold EleniaService.defaultMaxRetries; lia)
                (fun _ => eq_refl)) as (_ & Hr & Hs & Ht & He).
  cbv zeta. split; [exact Hr |]. split; [exact Hs |]. split; [exact Ht | exact He].
Defined.

(** C8 (as the code has it).  The hourly output is the joined readings
    sorted by instant, ascending; two readings of one instant both stay, so
    it is strictly ascending and free of duplicate timestamps exactly when
    the joined readings are.  The monthly output is strictly ascending by
    month key and has no month key twice. *)
Theorem C8_output_order (LocalTZA : Z -> bool -> Z)
    (toLocaleMonthUTC : option Z -> string) (now : Z)
    (responses : list MeterReadingResponse) (pricesArray : list PriceData) :
  let y := DataProcessor.reconcile LocalTZA toLocaleMonthUTC now responses pricesArray in
  let joined := DataProcessor.combinedData
                  (DataProcessor.accumulate LocalTZA toLocaleMonthUTC responses pricesArray) in
  Permutation joined (hourly y)
  /\ StronglySorted (Ledger.notAfter LocalTZA) (hourly y)
  /\ (List.NoDup (map timestamp joined) <-> List.NoDup (map timestamp (hourly y)))
  /\ (List.NoDup (map timestamp joined) ->
      StronglySorted (Ledger.strictlyBefore LocalTZA) (hourly y))
  /\ StronglySorted (fun a b => strLt (mmonth a) (mmonth b)) (monthly y)
  /\ List.NoDup (map mmonth (monthly y)).
Proof.
  cbv zeta. unfold DataProcessor.reconcile. cbn [hourly monthly].
  set (acc := DataProcessor.accumulate LocalTZA toLocaleMonthUTC responses pricesArray).
  pose proof (SortFacts.arraySort_perm (DataProcessor.compareTimestamps LocalTZA)
                (DataProcessor.combinedData acc)) as Hperm.
  pose proof (OutputFacts.hourly_sorted LocalTZA toLocaleMonthUTC responses pricesArray)
    as Hsorted. fold acc in Hsorted.
  assert (Hnodup : List.NoDup (map timestamp (DataProcessor.combinedData acc)) <->
                   List.NoDup (map timestamp
                     (arraySort (DataProcessor.compareTimestamps LocalTZA)
                        (DataProcessor.combinedData acc)))).
  { split; apply Permutation_NoDup, Permutation_map;
      [exact Hperm | symmetry; exact Hperm]. }
  split; [exact Hperm |]. split.
  { eapply OutputFacts.StronglySorted_weaken; [| exact Hsorted].
    intros a b (_ & _ & H). exact H. }
  split; [exact Hnodup |]. split.
  { intros Hnd. eapply (SortFacts.StronglySorted_strict timestamp); [| | exact Hsorted].
    - apply OutputFacts.canonical_strict.
    - apply Hnodup, Hnd. }
  pose proof (ProcessorFacts.accumulate_inv LocalTZA toLocaleMonthUTC responses pricesArray)
    as Hinv. fold acc in Hinv.
  fold (Ledger.summaries acc).
  assert (Hkeys : List.NoDup (map mmonth
                     (arraySort DataProcessor.compareMonths (Ledger.summaries acc)))).
  { eapply Permutation_NoDup;
      [apply Permutation_map, SortFacts.arraySort_perm |].
    rewrite (OutputFacts.summaries_keys LocalTZA toLocaleMonthUTC acc Hinv).
    apply Hinv. }
  split; [| exact Hkeys].
  eapply (SortFacts.StronglySorted_strict mmonth);
    [| exact Hkeys | apply OutputFacts.monthly_sorted].
  intros a b. apply SortFacts.strLe_neq_strLt.
Qed.

Lemma C8_witness :
  StronglySorted (Ledger.strictlyBefore utcZone)
    (hourly (DataProcessor.reconcile utcZone isoMonthKey 0 dstResponses [dstPrice])).
Proof.
  apply (C8_output_order utcZone isoMonthKey 0 dstResponses [dstPrice]).
  vm_compute. constructor; [intros [] | constructor].
Defined.

(** C8 as the specification states it fails: a reading reported twice is joined
    twice, and the hourly output holds its timestamp twice. *)
Lemma C8_counterexample :
  map timestamp
    (hourly (DataProcessor.reconcile utcZone isoMonthKey 0 repeatedResponses [dstPrice]))
  = ["2024-03-31T00:30:00.000Z"; "2024-03-31T00:30:00.000Z"]%string
  /\ ~ List.NoDup
         (map timestamp
            (hourly (DataProcessor.reconcile utcZone isoMonthKey 0
                       repeatedResponses [dstPrice]))).
Proof.
  assert (E : map timestamp
                (hourly (DataProcessor.reconcile utcZone isoMonthKey 0
                           repeatedResponses [dstPrice]))
              = ["2024-03-31T00:30:00.000Z"; "2024-03-31T00:30:00.000Z"]%string)
    by (vm_compute; reflexivity).
  split; [exact E |]. rewrite E. intros H.
  apply List.NoDup_cons_iff in H as [H _]. apply H. left. reflexivity.
Qed.

(** C9.  The yearly series is marked up by 25.5 % and the current price by
    24 %, each rounded to 2 decimals: the two services do not apply one
    markup.  A raw value of 10 leaves the first as 12.55 and the second as
    12.4. *)
Theorem C9_markups_differ (LocalTZA : Z -> bool -> Z) :
  (forall row instant,
      JSDate.parse LocalTZA (timeStamp row) = Some instant ->
      VattenfallService.processRow LocalTZA row
      = Ok {| timeStamp := stripMillis (JSDate.toISOString instant);
              value := JSNumber.Number
                         (JSNumber.toFixed (value row * (1 + 0.255))%float 2) |})
  /\ (forall row,
        price (SpotPriceService.withVAT row)
        = JSNumber.Number (JSNumber.toFixed (value row * (1 + 0.24))%float 2))
  /\ VattenfallService.processRow LocalTZA tenCents
     = Ok {| timeStamp := "2024-03-31T00:30:00Z"; value := 12.55 |}
  /\ price (SpotPriceService.withVAT tenCents) = 12.4%float.
Proof.
  split; [| split; [| split]].
  - intros row instant H. unfold VattenfallService.processRow. rewrite H. reflexivity.
  - intros row. reflexivity.
  - vm_compute. reflexivity.
  - vm_compute. reflexivity.
Qed.

Lemma C9_witness :
  VattenfallService.processRow utcZone tenCents
  = Ok {| timeStamp := stripMillis (JSDate.toISOString 1711845000000);
          value := JSNumber.Number (JSNumber.toFixed (10 * (1 + 0.255))%float 2) |}.
Proof.
  apply (proj1 (C9_markups_differ utcZone) tenCents 1711845000000).
  vm_compute. reflexivity.
Defined.





(* ===================================================================== *)
(** ** Further properties of the code *)
(* ===================================================================== *)

(** *** The request helper against an arbitrary server *)

Module RetryShape.
Import EleniaService Backoff.

Section Retry.
Context {T : Type}.
Variable maxRetries : nat.
Variable axios_request : nat -> Outcome T.

(** From any attempt on, the helper retries through a run of retryable
    outcomes and hands the first other outcome, or the outcome of the last
    allowed attempt, to its caller. *)
Lemma run_shape : forall fuel attempt,
  (maxRetries - 1 - attempt = fuel)%nat ->
  exists n : nat,
    (attempt + n <= Nat.max attempt (maxRetries - 1))%nat
    /\ (forall k, (attempt <= k < attempt + n)%nat -> retryable (axios_request k) = true)
    /\ ((attempt + n < maxRetries - 1)%nat ->
        retryable (axios_request (attempt + n)%nat) = false)
    /\ makeRequestWithRetry maxRetries axios_request attempt
       = (retryLog attempt n ++ [Request (attempt + n)],
          settle (axios_request (attempt + n)%nat)).
Proof.
  induction fuel as [| fuel IH]; intros attempt Hfuel.
  - exists 0%nat. rewrite Nat.add_0_r.
    split; [lia |]. split; [intros k Hk; lia |]. split; [lia |].
    rewrite RetryFacts.makeRequestWithRetry_unfold.
    destruct (Nat.ltb_spec attempt (maxRetries - 1)); [lia |].
    destruct (axios_request attempt); rewrite ?andb_false_r; reflexivity.
  - destruct (retryable (axios_request attempt)) eqn:Er.
    + destruct (IH (S attempt) ltac:(lia)) as (n & Hn & Hall & Hlast & Hrun).
      exists (S n).
      replace (attempt + S n)%nat with (S attempt + n)%nat by lia.
      split; [lia |]. split; [| split; [exact Hlast |]].
      * intros k Hk. destruct (Nat.eq_dec k attempt) as [-> | Hne];
          [exact Er | apply Hall; lia].
      * rewrite RetryFacts.makeRequestWithRetry_unfold.
        destruct (Nat.ltb_spec attempt (maxRetries - 1)); [| lia].
        rewrite Hrun. cbn [fst snd].
        destruct (axios_request attempt) as [response | error]; cbn in Er.
        -- rewrite Er. reflexivity.
        -- reflexivity.
    + exists 0%nat. rewrite Nat.add_0_r.
      split; [lia |]. split; [intros k Hk; lia |]. split; [intros _; exact Er |].
      rewrite RetryFacts.makeRequestWithRetry_unfold.
      destruct (axios_request attempt) as [response | error]; cbn in Er;
        [| discriminate Er].
      rewrite Er. reflexivity.
Qed.

End Retry.

End RetryShape.

Import Backoff.

(** X1.  Whatever the server answers, the request helper makes the attempts
    0, 1, ..., n in order for some n below [maxRetries] (n = 0 when
    [maxRetries] is 0), sleeping 2^k seconds after attempt k < n and
    2^n - 1 seconds in all: every attempt before the last was rejected or
    answered with status 504, the last one was not unless it is the last
    allowed, and the caller gets the outcome of the last attempt as it
    is. *)
Theorem X1_retry_shape (T : Type) (maxRetries : nat) (axios_request : nat -> Outcome T) :
  exists n : nat,
    (n <= maxRetries - 1)%nat
    /\ (forall k, (k < n)%nat -> retryable (axios_request k) = true)
    /\ ((n < maxRetries - 1)%nat -> retryable (axios_request n) = false)
    /\ EleniaService.makeRequestWithRetry maxRetries axios_request 0
       = (retryLog 0 n ++ [Request n], settle (axios_request n))
    /\ EleniaService.requests
         (fst (EleniaService.makeRequestWithRetry maxRetries axios_request 0))
       = seq 0 (S n)
    /\ EleniaService.sleeps
         (fst (EleniaService.makeRequestWithRetry maxRetries axios_request 0))
       = map (fun k => 2 ^ Z.of_nat k) (seq 0 n)
    /\ total (EleniaService.sleeps
                (fst (EleniaService.makeRequestWithRetry maxRetries axios_request 0)))
       = 2 ^ Z.of_nat n - 1.
Proof.
  destruct (RetryShape.run_shape maxRetries axios_request (maxRetries - 1 - 0) 0 eq_refl)
    as (n & Hn & Hall & Hlast & Hrun).
  cbn [Nat.add] in *. exists n.
  split; [lia |]. split; [intros k Hk; apply Hall; lia |]. split; [exact Hlast |].
  split; [exact Hrun |]. rewrite Hrun. cbn [fst].
  rewrite RetryFacts.requests_app, RetryFacts.sleeps_app,
    RetryFacts.requests_retryLog, RetryFacts.sleeps_retryLog.
  split; [| split].
  - replace (S n) with (n + 1)%nat by lia. rewrite seq_app. reflexivity.
  - cbn. rewrite app_nil_r. reflexivity.
  - cbn [EleniaService.sleeps flat_map]. rewrite app_nil_r.
    rewrite RetryFacts.total_powers. cbn. reflexivity.
Qed.

Lemma X1_witness :
  exists n : nat,
    (n <= 5 - 1)%nat
    /\ (forall k, (k < n)%nat -> retryable (alwaysStatus 401 k) = true)
    /\ ((n < 5 - 1)%nat -> retryable (alwaysStatus 401 n) = false)
    /\ EleniaService.makeRequestWithRetry 5 (alwaysStatus 401) 0
       = (retryLog 0 n ++ [Request n], settle (alwaysStatus 401 n))
    /\ EleniaService.requests
         (fst (EleniaService.makeRequestWithRetry 5 (alwaysStatus 401) 0))
       = seq 0 (S n)
    /\ EleniaService.sleeps
         (fst (EleniaService.makeRequestWithRetry 5 (alwaysStatus 401) 0))
       = map (fun k => 2 ^ Z.of_nat k) (seq 0 n)
    /\ total (EleniaService.sleeps
                (fst (EleniaService.makeRequestWithRetry 5 (alwaysStatus 401) 0)))
       = 2 ^ Z.of_nat n - 1.
Proof. exact (X1_retry_shape unit 5 (alwaysStatus 401)). Defined.

(** X2.  The helper stops at the first outcome that is not retryable: when
    the attempts before attempt [k] are rejected or answered with 504 and
    attempt [k] (one of the allowed ones) is answered with another status,
    the helper has made exactly the requests 0..k and slept after each but
    the last, and its result is that response; no request follows an
    answer. *)
Theorem X2_stops_at_first_answer (T : Type) (maxRetries : nat)
    (axios_request : nat -> Outcome T) (k : nat) :
  (k <= maxRetries - 1)%nat ->
  (forall j, (j < k)%nat -> retryable (axios_request j) = true) ->
  retryable (axios_request k) = false ->
  EleniaService.makeRequestWithRetry maxRetries axios_request 0
  = (retryLog 0 k ++ [Request k], settle (axios_request k))
  /\ exists response, settle (axios_request k) = Ok response /\ status response <> 504.
Proof.
  intros Hk Hbefore Hat.
  destruct (RetryShape.run_shape maxRetries axios_request (maxRetries - 1 - 0) 0 eq_refl)
    as (n & Hn & Hall & Hlast & Hrun).
  cbn [Nat.add] in *.
  assert (n = k) as ->.
  { destruct (Nat.lt_trichotomy n k) as [Hlt | [Heq | Hgt]]; [| exact Heq |].
    - rewrite Hbefore in Hlast by exact Hlt. specialize (Hlast ltac:(lia)). discriminate.
    - rewrite Hall in Hat by lia. discriminate. }
  split; [exact Hrun |].
  destruct (axios_request k) as [response | error]; cbn in Hat; [| discriminate].
  exists response. split; [reflexivity |]. apply Z.eqb_neq. exact Hat.
Qed.

Lemma X2_witness :
  EleniaService.makeRequestWithRetry 5
    (fun k => if (k <? 2)%nat then Rejected fetchExhausted
              else Resolved {| status := 200; data := tt |}) 0
  = ([Request 0; Sleep 1; Request 1; Sleep 2; Request 2],
     Ok {| status := 200; data := tt |}).
Proof.
  refine (proj1 (X2_stops_at_first_answer unit 5
                   (fun k => if (k <? 2)%nat then Rejected fetchExhausted
                             else Resolved {| status := 200; data := tt |})
                   2 _ _ _)).
  - cbn. lia.
  - intros j Hj. destruct j as [| [| j]]; [reflexivity | reflexivity | lia].
  - reflexivity.
Defined.

(** *** The price list *)

Module PriceFacts.
Import DataProcessor Ledger.

Section WithHost.
Variable LocalTZA : Z -> bool -> Z.

Lemma fetchPriceData_cons row data :
  VattenfallService.fetchPriceData LocalTZA (Ok (row :: data))
  = match VattenfallService.processRow LocalTZA row with
    | Ok p =>
        match VattenfallService.fetchPriceData LocalTZA (Ok data) with
        | Ok ps => Ok (p :: ps)
        | Err e => Err e
        end
    | Err e => Err e
    end.
Proof.
  unfold VattenfallService.fetchPriceData. cbn.
  destruct (VattenfallService.processRow LocalTZA row); [| reflexivity].
  destruct (mapThrowing (VattenfallService.processRow LocalTZA) data); reflexivity.
Qed.

Lemma fetchPriceData_valid data :
  Forall (validPriceRow LocalTZA) data ->
  exists processed,
    VattenfallService.fetchPriceData LocalTZA (Ok data) = Ok processed
    /\ Forall2 (processedFrom LocalTZA) data processed.
Proof.
  induction 1 as [| row data [tv Hrow] _ (processed & Hp & Hall)].
  - exists []. split; [reflexivity | constructor].
  - rewrite fetchPriceData_cons, Hp. unfold VattenfallService.processRow. rewrite Hrow.
    eexists. split; [reflexivity |]. constructor; [| exact Hall].
    exists tv. cbn. auto.
Qed.

Lemma fetchPriceData_invalid data :
  Exists (fun row => JSDate.parse LocalTZA (timeStamp row) = None) data ->
  VattenfallService.fetchPriceData LocalTZA (Ok data)
  = Err (RangeError "Invalid time value").
Proof.
  induction 1 as [row data Hrow | row data _ IH]; rewrite fetchPriceData_cons.
  - unfold VattenfallService.processRow. rewrite Hrow. reflexivity.
  - rewrite IH. unfold VattenfallService.processRow.
    destruct (JSDate.parse LocalTZA (timeStamp row)); reflexivity.
Qed.

(** What comes back from the price service is one processed row per raw
    row. *)
Lemma fetchPriceData_Ok data : forall processed,
  VattenfallService.fetchPriceData LocalTZA (Ok data) = Ok processed ->
  Forall2 (processedFrom LocalTZA) data processed.
Proof.
  induction data as [| row data IH]; intros processed H.
  - cbn in H. injection H as <-. constructor.
  - rewrite fetchPriceData_cons in H. unfold VattenfallService.processRow in H.
    destruct (JSDate.parse LocalTZA (timeStamp row)) as [tv |] eqn:Hrow; [| discriminate].
    destruct (VattenfallService.fetchPriceData LocalTZA (Ok data)) as [ps | e];
      [| discriminate].
    injection H as <-. constructor; [| apply IH; reflexivity].
    exists tv. cbn. auto.
Qed.

Lemma processed_key row p :
  processedFrom LocalTZA row p ->
  exists tv,
    JSDate.parse LocalTZA (timeStamp row) = Some tv
    /\ priceKey LocalTZA p = Some (JSDate.toISOString tv).
Proof.
  intros (tv & Hrow & Hts & _). exists tv. split; [exact Hrow |].
  unfold priceKey, priceTimestamp. rewrite Hts.
  rewrite JSDateFacts.endsWithZ_stripMillis, JSDateFacts.parse_stripMillis
    by (eapply JSDateFacts.parse_range, Hrow).
  reflexivity.
Qed.

Lemma buildPriceMap_snoc l p :
  buildPriceMap LocalTZA (l ++ [p])
  = match priceKey LocalTZA p with
    | Some k => <[k := value p]> (buildPriceMap LocalTZA l)
    | None => buildPriceMap LocalTZA l
    end.
Proof. unfold buildPriceMap. rewrite fold_left_app. reflexivity. Qed.

(** The map holds, for each key, the value of the last entry with it. *)
Lemma buildPriceMap_lookup k l :
  buildPriceMap LocalTZA l !! k = lastPriceAt LocalTZA k l.
Proof.
  induction l as [| p l IH] using rev_ind.
  - reflexivity.
  - rewrite buildPriceMap_snoc. unfold lastPriceAt. rewrite rev_app_distr.
    cbn [rev app List.find]. unfold hasKey at 1.
    destruct (priceKey LocalTZA p) as [k' |].
    + destruct (String.eqb_spec k' k) as [-> | Hne].
      * apply lookup_insert_eq.
      * rewrite lookup_insert_ne by exact Hne. exact IH.
    + exact IH.
Qed.

End WithHost.
End PriceFacts.

(** X4.  The price service converts all rows or none: when every raw row
    carries a timestamp [new Date] accepts, the result has one row per raw
    row, in the same order, with the timestamp rendered in ISO form (without
    a zero millisecond field) and the value marked up and rounded to two
    decimals; one row with an invalid timestamp makes the whole fetch fail
    with a RangeError, whatever the other rows are. *)
Theorem X4_price_fetch_all_or_nothing (LocalTZA : Z -> bool -> Z) (data : list PriceData) :
  (Forall (Ledger.validPriceRow LocalTZA) data ->
   exists processed,
     VattenfallService.fetchPriceData LocalTZA (Ok data) = Ok processed
     /\ Forall2 (Ledger.processedFrom LocalTZA) data processed)
  /\ (Exists (fun row => JSDate.parse LocalTZA (timeStamp row) = None) data ->
      VattenfallService.fetchPriceData LocalTZA (Ok data)
      = Err (RangeError "Invalid time value")).
Proof.
  split; [apply PriceFacts.fetchPriceData_valid | apply PriceFacts.fetchPriceData_invalid].
Qed.

Lemma X4_witness :
  VattenfallService.fetchPriceData utcZone
    (Ok [dstRawPrice; {| timeStamp := "yesterday"; value := 5 |}])
  = Err (RangeError "Invalid time value").
Proof.
  apply (proj2 (X4_price_fetch_all_or_nothing utcZone
                  [dstRawPrice; {| timeStamp := "yesterday"; value := 5 |}])).
  apply Exists_cons_tl, Exists_cons_hd. reflexivity.
Defined.

(** X5.  No row the price service returns is skipped by the processor:
    each has a key, the ISO rendering (with milliseconds) of the instant of
    the raw row it was made from, and the price map holds an entry under
    that key. *)
Theorem X5_fetched_prices_are_all_indexed (LocalTZA : Z -> bool -> Z)
    (data processed : list PriceData) :
  VattenfallService.fetchPriceData LocalTZA (Ok data) = Ok processed ->
  Forall2
    (fun row p =>
       exists tv,
         JSDate.parse LocalTZA (timeStamp row) = Some tv
         /\ DataProcessor.priceKey LocalTZA p = Some (JSDate.toISOString tv)
         /\ is_Some (DataProcessor.buildPriceMap LocalTZA processed !! JSDate.toISOString tv))
    data processed.
Proof.
  intros Hfetch. apply PriceFacts.fetchPriceData_Ok in Hfetch.
  enough (Hgen : forall whole, (forall p, In p processed -> In p whole) ->
            Forall2
              (fun row p =>
                 exists tv,
                   JSDate.parse LocalTZA (timeStamp row) = Some tv
                   /\ DataProcessor.priceKey LocalTZA p = Some (JSDate.toISOString tv)
                   /\ is_Some (DataProcessor.buildPriceMap LocalTZA whole
                                !! JSDate.toISOString tv))
              data processed) by (apply Hgen; auto).
  intros whole Hin.
  induction Hfetch as [| row p data processed Hp _ IH]; constructor.
  - destruct (PriceFacts.processed_key LocalTZA row p Hp) as (tv & Hrow & Hkey).
    exists tv. split; [exact Hrow |]. split; [exact Hkey |].
    rewrite PriceFacts.buildPriceMap_lookup. unfold Ledger.lastPriceAt.
    destruct (List.find (Ledger.hasKey LocalTZA (JSDate.toISOString tv)) (rev whole))
      as [q |] eqn:Hfind; [eexists; reflexivity |].
    exfalso.
    pose proof (List.find_none _ _ Hfind p) as Hnone.
    rewrite <- in_rev in Hnone. specialize (Hnone (Hin p (or_introl eq_refl))).
    unfold Ledger.hasKey in Hnone. rewrite Hkey, String.eqb_refl in Hnone. discriminate.
  - apply IH. intros q Hq. apply Hin. right. exact Hq.
Qed.

Lemma X5_witness :
  Forall2
    (fun row p =>
       exists tv,
         JSDate.parse utcZone (timeStamp row) = Some tv
         /\ DataProcessor.priceKey utcZone p = Some (JSDate.toISOString tv)
         /\ is_Some (DataProcessor.buildPriceMap utcZone [dstPrice] !! JSDate.toISOString tv))
    [dstRawPrice] [dstPrice].
Proof.
  apply (X5_fetched_prices_are_all_indexed utcZone [dstRawPrice] [dstPrice]).
  vm_compute. reflexivity.
Defined.

(** X6.  In the price map a later entry replaces an earlier one with the
    same normalised timestamp, and an entry whose timestamp is invalid leaves
    no trace: looking a key up gives the value of the last entry of the
    price list that has this key, and nothing when there is none. *)
Theorem X6_last_price_wins (LocalTZA : Z -> bool -> Z) (pricesArray : list PriceData)
    (k : string) :
  DataProcessor.buildPriceMap LocalTZA pricesArray !! k
  = Ledger.lastPriceAt LocalTZA k pricesArray.
Proof. apply PriceFacts.buildPriceMap_lookup. Qed.

(** *** The joined records determine the output *)

Module JoinFacts.
Import DataProcessor Ledger ProcessorFacts SortFacts OutputFacts.

Lemma sorted_permutations_equal {A} (R : A -> A -> Prop) (l1 : list A) : forall l2,
  (forall x y, In x l1 -> In y l2 -> R x y -> R y x -> x = y) ->
  StronglySorted R l1 -> StronglySorted R l2 -> Permutation l1 l2 -> l1 = l2.
Proof.
  induction l1 as [| x1 l1 IH]; intros l2 Hasym H1 H2 HP.
  - apply Permutation_nil in HP. symmetry. exact HP.
  - destruct l2 as [| x2 l2].
    { apply Permutation_sym, Permutation_nil in HP. discriminate HP. }
    inversion H1 as [| ? ? S1 F1]; inversion H2 as [| ? ? S2 F2]; subst.
    assert (E : x1 = x2).
    { assert (Hx2 : In x2 (x1 :: l1))
        by (eapply Permutation_in; [apply Permutation_sym, HP | left; reflexivity]).
      assert (Hx1 : In x1 (x2 :: l2))
        by (eapply Permutation_in; [exact HP | left; reflexivity]).
      destruct Hx2 as [-> | Hx2]; [reflexivity |].
      destruct Hx1 as [<- | Hx1]; [reflexivity |].
      apply Hasym; [left; reflexivity | left; reflexivity | |].
      - rewrite List.Forall_forall in F1. apply F1, Hx2.
      - rewrite List.Forall_forall in F2. apply F2, Hx1. }
    subst x2. f_equal. apply IH; auto.
    + intros x y Hx Hy. apply Hasym; right; assumption.
    + eapply Permutation_cons_inv, HP.
Qed.

Lemma NoDup_map_injective {A B} (f : A -> B) (l : list A) x y :
  List.NoDup (map f l) -> In x l -> In y l -> f x = f y -> x = y.
Proof.
  induction l as [| a l IH]; intros Hnd Hx Hy E; [contradiction |].
  cbn [map] in Hnd. apply List.NoDup_cons_iff in Hnd as [Hnotin Hnd].
  destruct Hx as [-> | Hx], Hy as [-> | Hy]; auto.
  - exfalso. apply Hnotin. rewrite E. apply in_map, Hy.
  - exfalso. apply Hnotin. rewrite <- E. apply in_map, Hx.
Qed.

Section WithHost.
Variable LocalTZA : Z -> bool -> Z.
Variable toLocaleMonthUTC : option Z -> string.

(** The loop over the readings records the joined records, one after the
    other. *)
Lemma readings_joined prices readings : forall acc,
  fold_left (processReading LocalTZA toLocaleMonthUTC prices) readings acc
  = fold_left (fun a e => recordEntry LocalTZA toLocaleMonthUTC e a)
      (omap (joinReading LocalTZA prices) readings) acc.
Proof.
  induction readings as [| r l IH]; intros acc; [reflexivity |].
  cbn [fold_left omap list_omap]. rewrite IH. unfold processReading.
  destruct (joinReading LocalTZA prices r); reflexivity.
Qed.

Lemma accumulate_joined responses pricesArray :
  accumulate LocalTZA toLocaleMonthUTC responses pricesArray
  = fold_left (fun a e => recordEntry LocalTZA toLocaleMonthUTC e a)
      (joinedRecords LocalTZA responses pricesArray) emptyAcc.
Proof.
  unfold accumulate, joinedRecords. rewrite accumulate_flat. apply readings_joined.
Qed.

Lemma joinReading_no_prices reading : joinReading LocalTZA ∅ reading = None.
Proof.
  unfold joinReading.
  destruct (v reading) as [| | | x |]; try reflexivity.
  destruct (JSNumber.isNaN x); [reflexivity |].
  destruct (t reading) as [| | | | ts]; try reflexivity.
  destruct (String.eqb ts ""); [reflexivity |].
  destruct (readingKey LocalTZA ts); [| reflexivity].
  rewrite lookup_empty. reflexivity.
Qed.

Lemma joinedRecords_no_prices responses : joinedRecords LocalTZA responses [] = [].
Proof.
  unfold joinedRecords. cbn [buildPriceMap fold_left].
  induction (selectedReadings responses) as [| r l IH]; [reflexivity |].
  cbn [omap list_omap]. rewrite joinReading_no_prices. exact IH.
Qed.

(** Every month of the map has a member among the records. *)
Lemma keys_have_members (l : list CombinedData) : forall acc,
  (forall k, In k (map fst (monthlyDataMap acc)) ->
     exists e, In e (combinedData acc) /\ monthKeyOf LocalTZA toLocaleMonthUTC e = k) ->
  let acc' := fold_left (fun a e => recordEntry LocalTZA toLocaleMonthUTC e a) l acc in
  forall k, In k (map fst (monthlyDataMap acc')) ->
    exists e, In e (combinedData acc') /\ monthKeyOf LocalTZA toLocaleMonthUTC e = k.
Proof.
  induction l as [| e l IH]; intros acc Hacc; [exact Hacc |].
  cbn [fold_left]. apply IH. clear IH.
  intros k. unfold recordEntry. cbn [combinedData monthlyDataMap].
  rewrite keys_mapUpdate.
  destruct (mapGet (monthKeyOf LocalTZA toLocaleMonthUTC e) (monthlyDataMap acc)) eqn:G.
  - intros Hk. destruct (Hacc k Hk) as (e' & He' & Ek).
    exists e'. split; [apply in_or_app; left; exact He' | exact Ek].
  - unfold mapSet. rewrite G, map_app. cbn [map fst]. intros Hk.
    apply in_app_or in Hk as [Hk | [<- | []]].
    + destruct (Hacc k Hk) as (e' & He' & Ek).
      exists e'. split; [apply in_or_app; left; exact He' | exact Ek].
    + exists e. split; [apply in_or_app; right; left; reflexivity | reflexivity].
Qed.

Lemma accumulate_keys responses pricesArray k :
  In k (map fst (monthlyDataMap (accumulate LocalTZA toLocaleMonthUTC responses pricesArray)))
  <-> exists e,
        In e (combinedData (accumulate LocalTZA toLocaleMonthUTC responses pricesArray))
        /\ monthKeyOf LocalTZA toLocaleMonthUTC e = k.
Proof.
  split.
  - rewrite accumulate_joined. apply keys_have_members. intros k' [].
  - intros (e & He & <-). apply (inv_keys _ _ _ (accumulate_inv _ _ responses pricesArray)), He.
Qed.

Lemma same_instant_same_timestamp a b :
  canonicalNotAfter LocalTZA a b -> canonicalNotAfter LocalTZA b a ->
  timestamp a = timestamp b.
Proof.
  intros ((ta & Ea & Ia) & (tb & Eb & Ib) & (ta' & tb' & Ia' & Ib' & Hle))
         (_ & _ & (tb'' & ta'' & Ib'' & Ia'' & Hge)).
  rewrite Ea, Eb. f_equal.
  assert (ta' = ta) by congruence. assert (tb' = tb) by congruence.
  assert (ta'' = ta) by congruence. assert (tb'' = tb) by congruence. lia.
Qed.

End WithHost.
End JoinFacts.

(** X7.  The output is made from the joined records and nothing else: two
    runs whose selected readings yield the same joined records, in the same
    order, produce the same hourly and monthly data.  A reading that is
    skipped (a value that is not a number, an unusable timestamp, an hour
    without a price) therefore leaves no trace in the output. *)
Theorem X7_skipped_readings_leave_no_trace (LocalTZA : Z -> bool -> Z)
    (toLocaleMonthUTC : option Z -> string) (now : Z)
    (responses responses' : list MeterReadingResponse)
    (pricesArray pricesArray' : list PriceData) :
  Ledger.joinedRecords LocalTZA responses pricesArray
  = Ledger.joinedRecords LocalTZA responses' pricesArray' ->
  DataProcessor.reconcile LocalTZA toLocaleMonthUTC now responses pricesArray
  = DataProcessor.reconcile LocalTZA toLocaleMonthUTC now responses' pricesArray'.
Proof.
  intros E. unfold DataProcessor.reconcile.
  rewrite !JoinFacts.accumulate_joined, E. reflexivity.
Qed.

Lemma X7_witness :
  DataProcessor.reconcile utcZone isoMonthKey 0 noisyResponses [dstPrice]
  = DataProcessor.reconcile utcZone isoMonthKey 0 dstResponses [dstPrice].
Proof.
  apply (X7_skipped_readings_leave_no_trace utcZone isoMonthKey 0
           noisyResponses dstResponses [dstPrice] [dstPrice]).
  vm_compute. reflexivity.
Defined.

(** X8.  Without prices, or without consumption responses, nothing is
    joined and the dataset is empty; this is not an error.  When the price
    service answers with an empty list while the cached dataset of the year
    is due for a refresh, the empty dataset is returned and replaces the
    cached one. *)
Theorem X8_empty_price_list_empties_the_year (LocalTZA : Z -> bool -> Z)
    (toLocaleMonthUTC : option Z -> string) (now : Z) :
  (forall responses,
      DataProcessor.reconcile LocalTZA toLocaleMonthUTC now responses []
      = emptyDataset now)
  /\ (forall pricesArray,
        DataProcessor.reconcile LocalTZA toLocaleMonthUTC now [] pricesArray
        = emptyDataset now)
  /\ (forall cache year cached responses,
        cache !! year = Some cached ->
        DataProcessor.shouldUpdateData LocalTZA (lastUpdated cached) now = true ->
        DataProcessor.combineData LocalTZA toLocaleMonthUTC cache year now
          (Ok responses) (Ok []) true
        = (Ok (emptyDataset now), <[year := emptyDataset now]> cache)).
Proof.
  assert (Hnone : forall responses,
             DataProcessor.reconcile LocalTZA toLocaleMonthUTC now responses []
             = emptyDataset now).
  { intros responses. unfold DataProcessor.reconcile.
    rewrite JoinFacts.accumulate_joined, JoinFacts.joinedRecords_no_prices. reflexivity. }
  split; [exact Hnone |]. split; [reflexivity |].
  intros cache year cached responses Hc Hstale. unfold DataProcessor.combineData.
  rewrite Hc, Hstale. cbn. rewrite Hnone. reflexivity.
Qed.

Lemma X8_witness :
  DataProcessor.combineData utcZone isoMonthKey {[ "2024"%string := staleDataset ]}
    "2024" nextMorning (Ok dstResponses) (Ok []) true
  = (Ok (emptyDataset nextMorning),
     <[ "2024"%string := emptyDataset nextMorning ]> {[ "2024"%string := staleDataset ]}).
Proof.
  apply (proj2 (proj2 (X8_empty_price_list_empties_the_year utcZone isoMonthKey nextMorning))
           {[ "2024"%string := staleDataset ]} "2024"%string staleDataset dstResponses).
  - apply lookup_singleton_eq.
  - vm_compute. reflexivity.
Defined.

(** X9.  The monthly summaries are exactly the months of the hourly
    records: a month key has a summary if and only if some hourly record of
    the output falls in that month, so there is no summary without a record
    and never more summaries than records. *)
Theorem X9_summaries_are_the_months_of_the_records (LocalTZA : Z -> bool -> Z)
    (toLocaleMonthUTC : option Z -> string) (now : Z)
    (responses : list MeterReadingResponse) (pricesArray : list PriceData) :
  let y := DataProcessor.reconcile LocalTZA toLocaleMonthUTC now responses pricesArray in
  (forall k,
      In k (map mmonth (monthly y))
      <-> exists e, In e (hourly y)
                    /\ DataProcessor.monthKeyOf LocalTZA toLocaleMonthUTC e = k)
  /\ (length (monthly y) <= length (hourly y))%nat.
Proof.
  cbv zeta. unfold DataProcessor.reconcile. cbn [hourly monthly].
  set (acc := DataProcessor.accumulate LocalTZA toLocaleMonthUTC responses pricesArray).
  pose proof (ProcessorFacts.accumulate_inv LocalTZA toLocaleMonthUTC responses pricesArray)
    as Hinv. fold acc in Hinv.
  pose proof (SortFacts.arraySort_perm (DataProcessor.compareTimestamps LocalTZA)
                (DataProcessor.combinedData acc)) as Hhourly.
  fold (Ledger.summaries acc).
  pose proof (SortFacts.arraySort_perm DataProcessor.compareMonths (Ledger.summaries acc))
    as Hmonthly.
  assert (Hkeys : forall k,
             In k (map mmonth (arraySort DataProcessor.compareMonths (Ledger.summaries acc)))
             <-> exists e,
                   In e (arraySort (DataProcessor.compareTimestamps LocalTZA)
                           (DataProcessor.combinedData acc))
                   /\ DataProcessor.monthKeyOf LocalTZA toLocaleMonthUTC e = k).
  { intros k. split.
    - intros H.
      assert (Hk : In k (map fst (DataProcessor.monthlyDataMap acc))).
      { rewrite <- (OutputFacts.summaries_keys LocalTZA toLocaleMonthUTC acc Hinv).
        eapply Permutation_in; [apply Permutation_sym, Permutation_map, Hmonthly | exact H]. }
      apply (JoinFacts.accumulate_keys LocalTZA toLocaleMonthUTC responses pricesArray k)
        in Hk as (e & He & Ek).
      exists e. split; [| exact Ek].
      eapply Permutation_in; [exact Hhourly | exact He].
    - intros (e & He & Ek).
      assert (Hk : In k (map fst (DataProcessor.monthlyDataMap acc))).
      { apply (JoinFacts.accumulate_keys LocalTZA toLocaleMonthUTC responses pricesArray k).
        exists e. split; [| exact Ek].
        eapply Permutation_in; [apply Permutation_sym, Hhourly | exact He]. }
      rewrite <- (OutputFacts.summaries_keys LocalTZA toLocaleMonthUTC acc Hinv) in Hk.
      eapply Permutation_in; [apply Permutation_map, Hmonthly | exact Hk]. }
  split; [exact Hkeys |].
  rewrite <- (length_map mmonth),
      <- (length_map (DataProcessor.monthKeyOf LocalTZA toLocaleMonthUTC)
            (arraySort _ _)).
  apply List.NoDup_incl_length.
  - eapply Permutation_NoDup; [apply Permutation_map, Hmonthly |].
    rewrite (OutputFacts.summaries_keys LocalTZA toLocaleMonthUTC acc Hinv).
    apply Hinv.
  - intros k Hk. apply Hkeys in Hk as (e & He & <-). apply in_map, He.
Qed.

(** X10.  The hourly output does not depend on the order in which the
    readings arrive: when the selected readings of two fetches are the same
    up to their order (across months and responses) and the hourly output
    has no repeated timestamp, both yield the same hourly sequence. *)
Theorem X10_hourly_order_independent (LocalTZA : Z -> bool -> Z)
    (toLocaleMonthUTC : option Z -> string) (now now' : Z)
    (responses responses' : list MeterReadingResponse) (pricesArray : list PriceData) :
  Permutation (Ledger.selectedReadings responses) (Ledger.selectedReadings responses') ->
  List.NoDup
    (map timestamp
       (hourly (DataProcessor.reconcile LocalTZA toLocaleMonthUTC now responses pricesArray))) ->
  hourly (DataProcessor.reconcile LocalTZA toLocaleMonthUTC now responses pricesArray)
  = hourly (DataProcessor.reconcile LocalTZA toLocaleMonthUTC now' responses' pricesArray).
Proof.
  unfold DataProcessor.reconcile. cbn [hourly]. intros Hperm Hnd.
  set (sort := arraySort (DataProcessor.compareTimestamps LocalTZA)) in *.
  set (j := DataProcessor.combinedData
              (DataProcessor.accumulate LocalTZA toLocaleMonthUTC responses pricesArray))
    in *.
  set (j' := DataProcessor.combinedData
               (DataProcessor.accumulate LocalTZA toLocaleMonthUTC responses' pricesArray)).
  assert (Hj : Permutation (sort j) (sort j')).
  { transitivity j; [symmetry; apply SortFacts.arraySort_perm |].
    transitivity j'; [| apply SortFacts.arraySort_perm].
    unfold j, j'. rewrite !ProcessorFacts.combinedData_accumulate.
    apply omap_Permutation, Hperm. }
  apply (JoinFacts.sorted_permutations_equal (Ledger.canonicalNotAfter LocalTZA)).
  - intros x y Hx Hy Hxy Hyx.
    apply (JoinFacts.NoDup_map_injective timestamp (sort j)); [exact Hnd | exact Hx | |].
    + eapply Permutation_in; [symmetry; exact Hj | exact Hy].
    + apply (JoinFacts.same_instant_same_timestamp LocalTZA); assumption.
  - apply OutputFacts.hourly_sorted.
  - apply OutputFacts.hourly_sorted.
  - exact Hj.
Qed.

Lemma X10_witness :
  hourly (DataProcessor.reconcile utcZone isoMonthKey 0 twoHours [dstPrice; laterPrice])
  = hourly (DataProcessor.reconcile utcZone isoMonthKey 1 twoHoursShuffled
              [dstPrice; laterPrice]).
Proof.
  apply (X10_hourly_order_independent utcZone isoMonthKey 0 1 twoHours twoHoursShuffled
           [dstPrice; laterPrice]).
  - apply perm_swap.
  - vm_compute. repeat constructor; cbn; intuition discriminate.
Defined.

Lemma X9_witness :
  let y := DataProcessor.reconcile utcZone isoMonthKey 0 twoHours [dstPrice; laterPrice] in
  (forall k,
      In k (map mmonth (monthly y))
      <-> exists e, In e (hourly y) /\ DataProcessor.monthKeyOf utcZone isoMonthKey e = k)
  /\ (length (monthly y) <= length (hourly y))%nat.
Proof.
  exact (X9_summaries_are_the_months_of_the_records utcZone isoMonthKey 0 twoHours
           [dstPrice; laterPrice]).
Defined.

(** *** The cache *)

Module CacheFacts.
Import JSDate DataProcessor Ledger.

#[local] Arguments String.append !_ _ / : simpl nomatch.

Lemma toISOString_nonempty tv : String.eqb (toISOString tv) "" = false.
Proof.
  unfold toISOString, isoHead, yearText.
  destruct ((0 <=? YearFromTime tv) && (YearFromTime tv <=? 9999));
    [| destruct (YearFromTime tv <? 0)];
    cbn [padDigits String.append String.eqb]; reflexivity.
Qed.

Section WithHost.
Variable LocalTZA : Z -> bool -> Z.

(** The rule, for a dataset written at [written]. *)
Lemma shouldUpdateData_written written now :
  Z.abs written <= maxTime ->
  shouldUpdateData LocalTZA (toISOString written) now
  = (getFullYear LocalTZA written =? getFullYear LocalTZA now)
    && negb ((getMonth LocalTZA written =? getMonth LocalTZA now)
             && (getDate LocalTZA written =? getDate LocalTZA now)).
Proof.
  intros Hrange. unfold shouldUpdateData.
  rewrite toISOString_nonempty, JSDateFacts.parse_toISOString by exact Hrange.
  destruct (getFullYear LocalTZA written =? getFullYear LocalTZA now);
    destruct (getMonth LocalTZA written =? getMonth LocalTZA now);
    destruct (getDate LocalTZA written =? getDate LocalTZA now); reflexivity.
Qed.

Lemma shouldUpdateDataLegacy_same s now :
  shouldUpdateDataLegacy LocalTZA s now = shouldUpdateData LocalTZA s now.
Proof.
  unfold shouldUpdateDataLegacy, shouldUpdateData.
  destruct (String.eqb s ""); [reflexivity |].
  destruct (parse LocalTZA s) as [lastUpdate |]; [| reflexivity].
  destruct (getFullYear LocalTZA lastUpdate =? getFullYear LocalTZA now); [| reflexivity].
  cbn [negb]. rewrite orb_false_r. reflexivity.
Qed.

(** The rule looks at the calendar day of [now] only. *)
Lemma shouldUpdateData_same_day s now later :
  sameLocalDay LocalTZA now later = true ->
  shouldUpdateData LocalTZA s later = shouldUpdateData LocalTZA s now.
Proof.
  unfold sameLocalDay. rewrite !andb_true_iff, !Z.eqb_eq. intros [[Ey Em] Ed].
  unfold shouldUpdateData. rewrite Ey, Em, Ed. reflexivity.
Qed.

End WithHost.
End CacheFacts.

(** X11.  A dataset built at the instant [written] is due for a refresh
    at [now] exactly when both instants fall in the same calendar year of the
    device and on different days of it.  So a dataset is rebuilt at most
    once per local day, and once the year has changed it is never rebuilt on
    its own, whichever year it is about.  The older copy of the processor
    decides the same way on every input. *)
Theorem X11_refresh_rule (LocalTZA : Z -> bool -> Z)
    (toLocaleMonthUTC : option Z -> string) (written now : Z)
    (responses : list MeterReadingResponse) (pricesArray : list PriceData) :
  Z.abs written <= JSDate.maxTime ->
  DataProcessor.shouldUpdateData LocalTZA
    (lastUpdated (DataProcessor.reconcile LocalTZA toLocaleMonthUTC written
                    responses pricesArray)) now
  = (JSDate.getFullYear LocalTZA written =? JSDate.getFullYear LocalTZA now)
    && negb ((JSDate.getMonth LocalTZA written =? JSDate.getMonth LocalTZA now)
             && (JSDate.getDate LocalTZA written =? JSDate.getDate LocalTZA now))
  /\ forall lastUpdated,
       DataProcessor.shouldUpdateDataLegacy LocalTZA lastUpdated now
       = DataProcessor.shouldUpdateData LocalTZA lastUpdated now.
Proof.
  intros Hrange. split.
  - apply CacheFacts.shouldUpdateData_written, Hrange.
  - intros s. apply CacheFacts.shouldUpdateDataLegacy_same.
Qed.

(** Built on New Year's Eve 2024, looked at in June 2025: no refresh. *)
Lemma X11_witness :
  DataProcessor.shouldUpdateData utcZone
    (lastUpdated (DataProcessor.reconcile utcZone isoMonthKey 1735650000000
                    dstResponses [dstPrice])) 1750000000000
  = false.
Proof.
  refine (eq_trans
            (proj1 (X11_refresh_rule utcZone isoMonthKey 1735650000000 1750000000000
                      dstResponses [dstPrice] _)) _).
  - vm_compute. discriminate.
  - vm_compute. reflexivity.
Defined.

(** X12.  [combineData] is careful with the cache: it never touches the
    dataset of another year; the dataset of the requested year changes only
    to a dataset it has just built from two successful fetches and returns;
    and when it fails, the cache is as it was and held nothing for the
    year. *)
Theorem X12_cache_discipline (LocalTZA : Z -> bool -> Z)
    (toLocaleMonthUTC : option Z -> string)
    (cache : gmap string YearData) (year : string) (now : Z)
    (consumption : result (list MeterReadingResponse))
    (prices : result (list PriceData)) (saved : bool) :
  let outcome := DataProcessor.combineData LocalTZA toLocaleMonthUTC cache year now
                   consumption prices saved in
  (forall other, other <> year -> snd outcome !! other = cache !! other)
  /\ (snd outcome = cache
      \/ exists yearData,
           DataProcessor.fetchAndReconcile LocalTZA toLocaleMonthUTC now consumption prices
           = Ok yearData
           /\ outcome = (Ok yearData, <[year := yearData]> cache))
  /\ (forall error,
        fst outcome = Err error ->
        cache !! year = None /\ snd outcome = cache
        /\ DataProcessor.fetchAndReconcile LocalTZA toLocaleMonthUTC now consumption prices
           = Err error).
Proof.
  cbv zeta. unfold DataProcessor.combineData.
  destruct (DataProcessor.fetchAndReconcile LocalTZA toLocaleMonthUTC now consumption prices)
    as [yearData | e] eqn:Hfetch.
  - destruct (cache !! year) as [cached |] eqn:Hc;
      [destruct (negb (DataProcessor.shouldUpdateData LocalTZA (lastUpdated cached) now)) |];
      destruct saved; cbn [fst snd];
      (split; [intros other Hne; rewrite ?lookup_insert_ne by congruence; reflexivity |]);
      (split; [first [left; reflexivity | right; exists yearData; split; reflexivity] |]);
      intros error H; discriminate H.
  - destruct (cache !! year) as [cached |] eqn:Hc;
      [destruct (negb (DataProcessor.shouldUpdateData LocalTZA (lastUpdated cached) now)) |];
      cbn [fst snd];
      (split; [intros other Hne; reflexivity |]);
      (split; [left; reflexivity |]);
      intros error H; try discriminate H.
    injection H as <-. auto.
Qed.

Module JsonFacts.
Import DataProcessor Ledger.

(** A number read back from the file is numerically equal to the number
    written. *)
Lemma jsonNumber_equal x y : jsonNumber x = Some y -> (y =? x)%float = true.
Proof.
  unfold jsonNumber. rewrite FloatAxioms.eqb_spec.
  destruct (Prim2SF x) as [s | s | | s m e] eqn:E; try discriminate; intros H.
  - assert (Hy : y = 0%float) by congruence. rewrite Hy.
    change (Prim2SF 0) with (S754_zero false). reflexivity.
  - assert (Hy : y = x) by congruence. rewrite Hy, E.
    unfold SFeqb, SFcompare.
    destruct s; rewrite Z.compare_refl, Pos.compare_cont_refl; reflexivity.
Qed.

Lemma jsonCombinedData_same e e' : jsonCombinedData e = Some e' -> sameNumbers e e'.
Proof.
  unfold jsonCombinedData.
  destruct (jsonNumber (consumption_kWh e)) as [c |] eqn:Ec; [| discriminate].
  destruct (jsonNumber (price_cents_per_kWh e)) as [p |] eqn:Ep; [| discriminate].
  destruct (jsonNumber (cost_euros e)) as [k |] eqn:Ek; [| discriminate].
  cbn. intros H. assert (He : e' = {| timestamp := timestamp e; consumption_kWh := c;
                                      price_cents_per_kWh := p; cost_euros := k |})
    by congruence.
  rewrite He. repeat split; cbn; apply jsonNumber_equal; assumption.
Qed.

Lemma jsonMonthlyData_same d d' : jsonMonthlyData d = Some d' -> sameSummary d d'.
Proof.
  unfold jsonMonthlyData.
  destruct (jsonNumber (totalConsumption d)) as [c |] eqn:Ec; [| discriminate].
  destruct (jsonNumber (averagePrice d)) as [p |] eqn:Ep; [| discriminate].
  destruct (jsonNumber (totalCost d)) as [k |] eqn:Ek; [| discriminate].
  cbn. intros H. assert (He : d' = {| mmonth := mmonth d; totalConsumption := c;
                                      averagePrice := p; totalCost := k |})
    by congruence.
  rewrite He. repeat split; cbn; apply jsonNumber_equal; assumption.
Qed.

Lemma jsonYearData_same built stored :
  jsonYearData built = Some stored ->
  lastUpdated stored = lastUpdated built
  /\ Forall2 sameNumbers (hourly built) (hourly stored)
  /\ Forall2 sameSummary (monthly built) (monthly stored).
Proof.
  unfold jsonYearData.
  destruct (mapM jsonCombinedData (hourly built)) as [h |] eqn:Eh; [| discriminate].
  destruct (mapM jsonMonthlyData (monthly built)) as [m |] eqn:Em; [| discriminate].
  cbn. intros H.
  assert (Hs : stored = {| lastUpdated := lastUpdated built; hourly := h; monthly := m |})
    by congruence.
  rewrite Hs. cbn [lastUpdated hourly monthly]. split; [reflexivity |].
  apply mapM_Some in Eh. apply mapM_Some in Em. split.
  - clear H Hs. induction Eh as [| e e' l l' He _ IH]; [constructor |].
    constructor; [apply jsonCombinedData_same, He | exact IH].
  - clear H Hs. induction Em as [| d d' l l' Hd _ IH]; [constructor |].
    constructor; [apply jsonMonthlyData_same, Hd | exact IH].
Qed.

End JsonFacts.

(** X13.  After a call that fetched, built a dataset and wrote it to the
    cache file, every later call for the same year on the same calendar day
    of the device returns the dataset as it is read back from that file,
    whatever the two services would answer: one successful fetch serves the
    whole day.  What is read back carries the time of the fetch, the same
    timestamps and month keys, and numerically equal numbers; it is the
    dataset that was built except that a number [-0] has become [0].  (A
    dataset that holds a [NaN] or an infinite number is written with [null]
    in its place; it is outside this statement.) *)
Theorem X13_one_fetch_serves_the_day (LocalTZA : Z -> bool -> Z)
    (toLocaleMonthUTC : option Z -> string)
    (cache : gmap string YearData) (year : string) (now later : Z)
    (responses : list MeterReadingResponse) (pricesArray : list PriceData)
    (consumption' : result (list MeterReadingResponse))
    (prices' : result (list PriceData)) (saved' : bool) (stored : YearData) :
  Z.abs now <= JSDate.maxTime ->
  Ledger.sameLocalDay LocalTZA now later = true ->
  match cache !! year with
  | Some cached => DataProcessor.shouldUpdateData LocalTZA (lastUpdated cached) now = true
  | None => True
  end ->
  let built := DataProcessor.reconcile LocalTZA toLocaleMonthUTC now responses pricesArray in
  DataProcessor.jsonYearData built = Some stored ->
  DataProcessor.combineData LocalTZA toLocaleMonthUTC cache year now
    (Ok responses) (Ok pricesArray) true
  = (Ok built, <[year := built]> cache)
  /\ DataProcessor.combineData LocalTZA toLocaleMonthUTC (<[year := stored]> cache) year later
       consumption' prices' saved'
     = (Ok stored, <[year := stored]> cache)
  /\ lastUpdated stored = lastUpdated built
  /\ Forall2 Ledger.sameNumbers (hourly built) (hourly stored)
  /\ Forall2 Ledger.sameSummary (monthly built) (monthly stored).
Proof.
  intros Hrange Hday Hdue. cbv zeta. intros Hread.
  destruct (JsonFacts.jsonYearData_same _ _ Hread) as (Hlast & Hhourly & Hmonthly).
  split; [| split; [| split; [exact Hlast | split; assumption]]].
  - unfold DataProcessor.combineData.
    cbn [DataProcessor.fetchAndReconcile mbind result_bind].
    destruct (cache !! year) as [cached |]; [rewrite Hdue |]; reflexivity.
  - unfold DataProcessor.combineData. rewrite lookup_insert_eq.
    rewrite (CacheFacts.shouldUpdateData_same_day LocalTZA _ now later Hday), Hlast.
    cbn [DataProcessor.reconcile lastUpdated].
    rewrite CacheFacts.shouldUpdateData_written by exact Hrange.
    rewrite !Z.eqb_refl. reflexivity.
Qed.

(** A fetch at 07:00 that builds a cost of [-0], and a call at 09:13 with
    both services down: the cost comes back as [0]. *)
Lemma X13_witness :
  DataProcessor.combineData utcZone isoMonthKey
    (<[ "2024"%string :=
          {| lastUpdated := "2024-06-02T07:00:00.000Z";
             hourly := [ {| timestamp := "2024-03-31T00:30:00.000Z";
                            consumption_kWh := 0;
                            price_cents_per_kWh := (-0.01)%float;
                            cost_euros := 0 |} ];
             monthly := [ {| mmonth := "2024-03"; totalConsumption := 0;
                             averagePrice := 0; totalCost := 0 |} ] |} ]> ∅)
    "2024" (nextMorning + 8000000) (Err fetchExhausted) (Err fetchExhausted) true
  = (Ok {| lastUpdated := "2024-06-02T07:00:00.000Z";
           hourly := [ {| timestamp := "2024-03-31T00:30:00.000Z";
                          consumption_kWh := 0;
                          price_cents_per_kWh := (-0.01)%float;
                          cost_euros := 0 |} ];
           monthly := [ {| mmonth := "2024-03"; totalConsumption := 0;
                           averagePrice := 0; totalCost := 0 |} ] |},
     <[ "2024"%string :=
          {| lastUpdated := "2024-06-02T07:00:00.000Z";
             hourly := [ {| timestamp := "2024-03-31T00:30:00.000Z";
                            consumption_kWh := 0;
                            price_cents_per_kWh := (-0.01)%float;
                            cost_euros := 0 |} ];
             monthly := [ {| mmonth := "2024-03"; totalConsumption := 0;
                             averagePrice := 0; totalCost := 0 |} ] |} ]> ∅).
Proof.
  refine (proj1 (proj2
            (X13_one_fetch_serves_the_day utcZone isoMonthKey ∅ "2024" nextMorning
               (nextMorning + 8000000) smallResponses [negativePrice]
               (Err fetchExhausted) (Err fetchExhausted) true _ _ _ _ _))).
  - vm_compute. discriminate.
  - vm_compute. reflexivity.
  - rewrite lookup_empty. exact I.
  - vm_compute. reflexivity.
Defined.

Module SelectionFacts.
Import Ledger.

Section WithHost.
Variable formatHelsinki : option Z -> option string.
Variable LocalTZA : Z -> bool -> Z.

Lemma readingsOf_normalizeMonth m :
  readingsOf (EleniaService.normalizeMonth formatHelsinki LocalTZA m)
  = map (EleniaService.convertReading formatHelsinki LocalTZA) (readingsOf m).
Proof.
  unfold readingsOf, DataProcessor.selectReadings, EleniaService.normalizeMonth.
  destruct (hourly_values_netted m) as [[| r l] |] eqn:En; cbn [EleniaService.nonEmpty].
  - destruct (hourly_values m) as [[| r l] |] eqn:Eg; cbn [EleniaService.nonEmpty].
    + rewrite En, Eg. reflexivity.
    + reflexivity.
    + rewrite En, Eg. reflexivity.
  - reflexivity.
  - destruct (hourly_values m) as [[| r l] |] eqn:Eg; cbn [EleniaService.nonEmpty].
    + rewrite En, Eg. reflexivity.
    + reflexivity.
    + rewrite En, Eg. reflexivity.
Qed.

Lemma selectedReadings_normalised (response : MeterReadingResponse) :
  selectedReadings
    [ {| months := map (EleniaService.normalizeMonth formatHelsinki LocalTZA)
                     (months response) |} ]
  = map (EleniaService.convertReading formatHelsinki LocalTZA)
      (selectedReadings [response]).
Proof.
  unfold selectedReadings. cbn [flat_map months]. rewrite !app_nil_r.
  induction (months response) as [| m ms IH]; [reflexivity |].
  cbn [map flat_map]. rewrite map_app, readingsOf_normalizeMonth, IH. reflexivity.
Qed.

End WithHost.
End SelectionFacts.

(** X14.  The normalisation of the consumption service converts the
    timestamps of exactly those readings the processor will select, and
    loses or adds none: the readings selected from a normalised month are the
    readings selected from the month as it arrived, each with its timestamp
    converted and its value untouched, in the same order. *)
Theorem X14_normalisation_keeps_the_selected_readings
    (formatHelsinki : option Z -> option string) (LocalTZA : Z -> bool -> Z)
    (response : AxiosResponse MeterReadingResponse) :
  (forall m,
      Ledger.readingsOf (EleniaService.normalizeMonth formatHelsinki LocalTZA m)
      = map (EleniaService.convertReading formatHelsinki LocalTZA) (Ledger.readingsOf m))
  /\ exists normalised,
       EleniaService.getMeterReadings formatHelsinki LocalTZA (Ok response) = Ok normalised
       /\ Ledger.selectedReadings [normalised]
          = map (EleniaService.convertReading formatHelsinki LocalTZA)
              (Ledger.selectedReadings [data response])
       /\ map v (Ledger.selectedReadings [normalised])
          = map v (Ledger.selectedReadings [data response]).
Proof.
  split; [apply SelectionFacts.readingsOf_normalizeMonth |].
  eexists. split; [reflexivity |].
  pose proof (SelectionFacts.selectedReadings_normalised formatHelsinki LocalTZA
                (data response)) as Hall.
  split; [exact Hall |].
  rewrite Hall, map_map. reflexivity.
Qed.

Module ClientFacts.
Import EleniaClient Backoff Session.

Lemma scan_last (meteringpoints : list MeteringPoint) :
  fold_left scanMeteringPoint meteringpoints (None, None)
  = (lastGsrn isConsumption meteringpoints, lastGsrn isProduction meteringpoints).
Proof.
  induction meteringpoints as [| mp l IH] using rev_ind; [reflexivity |].
  rewrite fold_left_app, IH. unfold lastGsrn. rewrite rev_app_distr.
  cbn [fold_left rev app List.find]. unfold scanMeteringPoint, isConsumption, isProduction.
  cbn [fst snd].
  destruct (type_ mp) as [ty |]; [destruct (String.eqb ty "kulutus") |];
    (destruct (device mp) as [name |];
     [destruct (String.eqb name "Tuotannon virtuaalilaite") |]); reflexivity.
Qed.

Lemma await_bind {A B} (r : result A) (k : A -> Logged B) :
  (x ← await r; k x) = match r with Ok a => k a | Err e => ([], Err e) end.
Proof.
  unfold await. cbn [mbind logged_bind].
  destruct r as [a | e]; [destruct (k a) |]; reflexivity.
Qed.

Lemma bind_fst {A B} (m : Logged A) (k : A -> Logged B) :
  fst (x ← m; k x)
  = fst m ++ match snd m with Ok a => fst (k a) | Err _ => [] end.
Proof.
  destruct m as [log [a | e]]; cbn [mbind logged_bind fst snd].
  - destruct (k a). reflexivity.
  - rewrite app_nil_r. reflexivity.
Qed.

Lemma bind_snd {A B} (m : Logged A) (k : A -> Logged B) :
  snd (x ← m; k x) = match snd m with Ok a => snd (k a) | Err e => Err e end.
Proof.
  destruct m as [log [a | e]]; cbn [mbind logged_bind fst snd]; [| reflexivity].
  destruct (k a). reflexivity.
Qed.

Lemma requestCount_app a b : requestCount (a ++ b) = (requestCount a + requestCount b)%nat.
Proof.
  unfold requestCount. rewrite map_app, RetryFacts.requests_app, length_app. reflexivity.
Qed.

Lemma total_app a b : total (a ++ b) = total a + total b.
Proof.
  unfold total. induction a as [| x a IH]; cbn [app fold_right]; [| rewrite IH]; lia.
Qed.

Lemma sleepTotal_app a b : sleepTotal (a ++ b) = sleepTotal a + sleepTotal b.
Proof.
  unfold sleepTotal. rewrite map_app, RetryFacts.sleeps_app, total_app. reflexivity.
Qed.

Section Client.
Variable maxRetries : nat.
Variable formatHelsinki : option Z -> option string.
Variable LocalTZA : Z -> bool -> Z.
Variable backend : Backend.
Variable eleniaUsernameOf : string -> result (option string).

Lemma request_run {T} endpoint (server : nat -> Outcome T) :
  exists n : nat,
    (n <= maxRetries - 1)%nat
    /\ ((n < maxRetries - 1)%nat -> retryable (server n) = false)
    /\ request maxRetries endpoint server
       = (map (pair endpoint) (retryLog 0 n ++ [Request n]), settle (server n)).
Proof.
  destruct (RetryShape.run_shape maxRetries server (maxRetries - 1 - 0) 0 eq_refl)
    as (n & Hn & _ & Hlast & Hrun).
  cbn [Nat.add] in *. exists n. split; [lia |]. split; [exact Hlast |].
  unfold request. rewrite Hrun. reflexivity.
Qed.

Lemma retryRun_cost endpoint trace :
  retryRun maxRetries endpoint trace ->
  (requestCount trace <= Nat.max 1 maxRetries)%nat
  /\ 0 <= sleepTotal trace <= 2 ^ Z.of_nat (maxRetries - 1) - 1
  /\ exists rest, trace = (endpoint, Request 0) :: rest.
Proof.
  intros (n & Hn & ->). unfold requestCount, sleepTotal.
  rewrite map_map. cbn [snd]. rewrite map_id.
  rewrite RetryFacts.requests_app, RetryFacts.sleeps_app, RetryFacts.requests_retryLog,
    RetryFacts.sleeps_retryLog, length_app, length_seq.
  cbn [EleniaService.requests EleniaService.sleeps flat_map app length].
  rewrite app_nil_r, RetryFacts.total_powers. cbn [Nat.add].
  split; [lia |]. split.
  - assert (2 ^ Z.of_nat n <= 2 ^ Z.of_nat (maxRetries - 1))
      by (apply Z.pow_le_mono_r; lia).
    assert (0 < 2 ^ Z.of_nat n) by (apply Z.pow_pos_nonneg; lia).
    cbn. lia.
  - destruct n as [| n]; cbn; eexists; reflexivity.
Qed.

Lemma phase_cost endpoint trace :
  phase maxRetries endpoint trace ->
  (requestCount trace <= Nat.max 1 maxRetries)%nat
  /\ 0 <= sleepTotal trace <= 2 ^ Z.of_nat (maxRetries - 1) - 1.
Proof.
  intros [-> | Hrun].
  - cbn. split; [lia |].
    assert (0 < 2 ^ Z.of_nat (maxRetries - 1)) by (apply Z.pow_pos_nonneg; lia). lia.
  - destruct (retryRun_cost endpoint trace Hrun) as (H1 & H2 & _). auto.
Qed.

Lemma request_retryRun {T} endpoint (server : nat -> Outcome T) :
  retryRun maxRetries endpoint (fst (request maxRetries endpoint server)).
Proof.
  destruct (request_run endpoint server) as (n & Hn & _ & ->). exists n. auto.
Qed.

Lemma getCognitoToken_run username password :
  retryRun maxRetries CognitoIdp (fst (getCognitoToken maxRetries backend username password)).
Proof.
  unfold getCognitoToken. rewrite bind_fst.
  replace (match snd _ with Ok a => fst (ret _) | Err _ => [] end) with (@nil (Endpoint * Event))
    by (destruct (snd _); reflexivity).
  rewrite app_nil_r. apply request_retryRun.
Qed.

Lemma getCustomerData_run bearerToken :
  retryRun maxRetries CustomerDataAndToken
    (fst (getCustomerData maxRetries backend bearerToken)).
Proof.
  unfold getCustomerData. rewrite bind_fst.
  replace (match snd _ with Ok a => fst (await _) | Err _ => [] end)
    with (@nil (Endpoint * Event)) by (destruct (snd _); reflexivity).
  rewrite app_nil_r. apply request_retryRun.
Qed.

Lemma getMeterReadings_run apiToken gsrn customerId year :
  retryRun maxRetries MeterReadingYh
    (fst (getMeterReadings maxRetries formatHelsinki LocalTZA backend
            apiToken gsrn customerId year)).
Proof.
  unfold getMeterReadings.
  pose proof (request_retryRun MeterReadingYh
                (meter_reading_yh backend apiToken gsrn customerId year)) as H.
  destruct (request maxRetries MeterReadingYh _). exact H.
Qed.

(** With complete credentials, a fetch is the three requests in turn. *)
Lemma fetch_with_credentials text username secret year :
  text <> EmptyString -> eleniaUsernameOf text = Ok (Some username) ->
  username <> EmptyString -> secret <> EmptyString ->
  fetchConsumptionData maxRetries formatHelsinki LocalTZA backend eleniaUsernameOf
    (Ok (Some text)) (Ok (Some secret)) year
  = (bearerToken ← getCognitoToken maxRetries backend username secret;
     info ← getCustomerData maxRetries backend bearerToken;
     if truthy (consumptionGsrn info) then
       match consumptionGsrn info with
       | Some consumptionGsrn =>
           consumptionData ← getMeterReadings maxRetries formatHelsinki LocalTZA backend
                               (apiToken info) consumptionGsrn (customerId info) year;
           ret [consumptionData]
       | None => ret []
       end
     else ret []).
Proof.
  intros Ht Hu Hn Hs. unfold fetchConsumptionData.
  rewrite await_bind. destruct text as [| c text]; [contradiction |].
  rewrite await_bind, Hu. destruct username as [| c' username]; [contradiction |].
  rewrite await_bind. destruct secret as [| c'' secret]; [contradiction |].
  reflexivity.
Qed.

(** Without them, nothing is sent. *)
Lemma fetch_without_credentials settings password year :
  ~ haveCredentials eleniaUsernameOf settings password ->
  fst (fetchConsumptionData maxRetries formatHelsinki LocalTZA backend eleniaUsernameOf
         settings password year) = []
  /\ exists e,
       snd (fetchConsumptionData maxRetries formatHelsinki LocalTZA backend eleniaUsernameOf
              settings password year) = Err e.
Proof.
  intros Hno. unfold fetchConsumptionData. rewrite await_bind.
  destruct settings as [[[| c text] |] | e]; try (cbn; eauto; fail).
  rewrite await_bind.
  destruct (eleniaUsernameOf (String c text)) as [[[| c' username] |] | e] eqn:Hu;
    try (cbn; eauto; fail).
  rewrite await_bind.
  destruct password as [[[| c'' secret] |] | e]; try (cbn; eauto; fail).
  exfalso. apply Hno. exists (String c text), (String c' username), (String c'' secret).
  repeat split; try discriminate; auto.
Qed.

(** Either nothing is sent, or the credentials are complete. *)
Lemma fetch_cases settings password year :
  fst (fetchConsumptionData maxRetries formatHelsinki LocalTZA backend eleniaUsernameOf
         settings password year) = []
  \/ exists text username secret,
       text <> EmptyString /\ eleniaUsernameOf text = Ok (Some username)
       /\ username <> EmptyString /\ secret <> EmptyString
       /\ settings = Ok (Some text) /\ password = Ok (Some secret).
Proof.
  unfold fetchConsumptionData. rewrite await_bind.
  destruct settings as [[[| c text] |] | e]; try (left; reflexivity).
  rewrite await_bind.
  destruct (eleniaUsernameOf (String c text)) as [[[| c' username] |] | e] eqn:Hu;
    try (left; reflexivity).
  rewrite await_bind.
  destruct password as [[[| c'' secret] |] | e]; try (left; reflexivity).
  right. exists (String c text), (String c' username), (String c'' secret).
  repeat split; try discriminate; auto.
Qed.

Lemma retryRun_nonempty endpoint trace :
  retryRun maxRetries endpoint trace -> trace <> [].
Proof.
  intros H. destruct (retryRun_cost endpoint trace H) as (_ & _ & rest & ->). discriminate.
Qed.

(** The requests that follow the login. *)
Lemma session_trace username secret year :
  exists customer readings,
    fst (bearerToken ← getCognitoToken maxRetries backend username secret;
         info ← getCustomerData maxRetries backend bearerToken;
         if truthy (consumptionGsrn info) then
           match consumptionGsrn info with
           | Some consumptionGsrn =>
               consumptionData ← getMeterReadings maxRetries formatHelsinki LocalTZA backend
                                   (apiToken info) consumptionGsrn (customerId info) year;
               ret [consumptionData]
           | None => ret []
           end
         else ret [])
    = fst (getCognitoToken maxRetries backend username secret) ++ customer ++ readings
    /\ phase maxRetries CustomerDataAndToken customer
    /\ phase maxRetries MeterReadingYh readings
    /\ (customer = [] -> readings = []).
Proof.
  rewrite bind_fst.
  destruct (snd (getCognitoToken maxRetries backend username secret)) as [bearerToken | e].
  - rewrite bind_fst.
    pose proof (getCustomerData_run bearerToken) as Hc.
    exists (fst (getCustomerData maxRetries backend bearerToken)).
    destruct (snd (getCustomerData maxRetries backend bearerToken)) as [info | e].
    + destruct (truthy (consumptionGsrn info));
        [destruct (consumptionGsrn info) as [consumptionGsrn |] |].
      * exists (fst (getMeterReadings maxRetries formatHelsinki LocalTZA backend
                       (apiToken info) consumptionGsrn (customerId info) year)).
        rewrite bind_fst.
        replace (match snd _ with Ok a => fst (ret _) | Err _ => [] end)
          with (@nil (Endpoint * Event)) by (destruct (snd _); reflexivity).
        rewrite app_nil_r.
        split; [reflexivity |]. split; [right; exact Hc |].
        split; [right; apply getMeterReadings_run |].
        intros E. exfalso. exact (retryRun_nonempty _ _ Hc E).
      * exists []. split; [reflexivity |]. split; [right; exact Hc |].
        split; [left; reflexivity | reflexivity].
      * exists []. split; [reflexivity |]. split; [right; exact Hc |].
        split; [left; reflexivity | reflexivity].
    + exists []. split; [reflexivity |]. split; [right; exact Hc |].
      split; [left; reflexivity | reflexivity].
  - exists [], []. split; [reflexivity |]. split; [left; reflexivity |].
    split; [left; reflexivity | reflexivity].
Qed.

Lemma testEleniaCredentials_snd username password :
  snd (testEleniaCredentials maxRetries backend username password)
  = match snd (cognitoToken ← getCognitoToken maxRetries backend username password;
               getCustomerData maxRetries backend cognitoToken) with
    | Ok customerData =>
        negb (String.eqb (apiToken customerData) "")
        && negb (String.eqb (customerId customerData) "")
    | Err _ => false
    end.
Proof.
  unfold testEleniaCredentials.
  destruct (cognitoToken ← getCognitoToken maxRetries backend username password;
            getCustomerData maxRetries backend cognitoToken). reflexivity.
Qed.

(** A login that is rejected at every attempt takes all the attempts. *)
Lemma refused_login username password :
  (forall k, exists e, initiateAuth backend username password k = Rejected e) ->
  exists e,
    initiateAuth backend username password (maxRetries - 1) = Rejected e
    /\ getCognitoToken maxRetries backend username password
       = (map (pair CognitoIdp)
            (retryLog 0 (maxRetries - 1) ++ [Request (maxRetries - 1)]),
          Err e).
Proof.
  intros Hall. unfold getCognitoToken.
  destruct (request_run CognitoIdp (initiateAuth backend username password))
    as (n & Hn & Hlast & ->).
  assert (n = (maxRetries - 1)%nat) as ->.
  { destruct (Nat.eq_dec n (maxRetries - 1)%nat) as [E | Hne]; [exact E |].
    specialize (Hlast ltac:(lia)). destruct (Hall n) as [e He].
    rewrite He in Hlast. discriminate. }
  destruct (Hall (maxRetries - 1)%nat) as [e He]. exists e. split; [exact He |].
  rewrite He. reflexivity.
Qed.

Lemma normalizeMonth_one_variant m :
  let m' := EleniaService.normalizeMonth formatHelsinki LocalTZA m in
  EleniaService.nonEmpty (hourly_values_netted m')
  && EleniaService.nonEmpty (hourly_values m') = false.
Proof.
  cbv zeta. unfold EleniaService.normalizeMonth.
  destruct (EleniaService.nonEmpty (hourly_values_netted m)) eqn:En.
  - cbn. apply andb_false_r.
  - destruct (EleniaService.nonEmpty (hourly_values m)) eqn:Eg.
    + reflexivity.
    + rewrite En. reflexivity.
Qed.

(** What a successful fetch returns. *)
Lemma fetch_results settings password year results :
  snd (fetchConsumptionData maxRetries formatHelsinki LocalTZA backend eleniaUsernameOf
         settings password year) = Ok results ->
  results = []
  \/ exists raw : MeterReadingResponse,
       results = [ {| months := map (EleniaService.normalizeMonth formatHelsinki LocalTZA)
                                  (months raw) |} ].
Proof.
  unfold fetchConsumptionData. rewrite await_bind.
  destruct settings as [[[| c text] |] | e]; try discriminate.
  rewrite await_bind.
  destruct (eleniaUsernameOf (String c text)) as [[[| c' username] |] | e] eqn:Hu;
    try discriminate.
  rewrite await_bind.
  destruct password as [[[| c'' secret] |] | e]; try discriminate.
  rewrite bind_snd.
  destruct (snd (getCognitoToken maxRetries backend (String c' username) (String c'' secret)))
    as [bearerToken | e]; [| discriminate].
  rewrite bind_snd.
  destruct (snd (getCustomerData maxRetries backend bearerToken)) as [info | e];
    [| discriminate].
  destruct (truthy (consumptionGsrn info));
    [destruct (consumptionGsrn info) as [consumptionGsrn |] |].
  - rewrite bind_snd. unfold getMeterReadings.
    destruct (request maxRetries MeterReadingYh _) as [log [response | e]];
      cbn [snd EleniaService.getMeterReadings mbind result_bind ret]; [| discriminate].
    intros H. injection H as <-. right. exists (data response). reflexivity.
  - cbn. intros H. injection H as <-. left. reflexivity.
  - cbn. intros H. injection H as <-. left. reflexivity.
Qed.

End Client.
End ClientFacts.

(** X15.  Of the customers in the payload only the first is looked at,
    and of its metering points the last one of type "kulutus" gives the
    consumption GSRN and the last one with the virtual production device
    gives the production GSRN (none when there is no such point); a payload
    without customers makes the call fail. *)
Theorem X15_last_matching_metering_point_wins (metadata : CustomerData) :
  match customer_datas metadata with
  | [] => exists e, EleniaClient.readCustomerData metadata = Err e
  | (customerId, meteringpoints) :: _ =>
      EleniaClient.readCustomerData metadata
      = Ok {| apiToken := token metadata;
              customerId := customerId;
              consumptionGsrn := Session.lastGsrn Session.isConsumption meteringpoints;
              productionGsrn := Session.lastGsrn Session.isProduction meteringpoints |}
  end.
Proof.
  unfold EleniaClient.readCustomerData.
  destruct (customer_datas metadata) as [| [customerId meteringpoints] rest].
  - eexists. reflexivity.
  - rewrite ClientFacts.scan_last. reflexivity.
Qed.

(** X16.  A fetch talks to the network only with a complete set of stored
    credentials: when the settings, the user name in them or the password is
    missing, empty or unreadable, the fetch fails without a single request;
    otherwise the first thing it does is the login request. *)
Theorem X16_no_request_without_credentials (maxRetries : nat)
    (formatHelsinki : option Z -> option string) (LocalTZA : Z -> bool -> Z)
    (backend : Backend) (eleniaUsernameOf : string -> result (option string))
    (settings password : result (option string)) (year : string) :
  let outcome := EleniaClient.fetchConsumptionData maxRetries formatHelsinki LocalTZA
                   backend eleniaUsernameOf settings password year in
  (~ Session.haveCredentials eleniaUsernameOf settings password ->
   fst outcome = [] /\ exists e, snd outcome = Err e)
  /\ (Session.haveCredentials eleniaUsernameOf settings password ->
      exists rest, fst outcome = (CognitoIdp, Request 0) :: rest).
Proof.
  cbv zeta. split; [apply ClientFacts.fetch_without_credentials |].
  intros (text & username & secret & -> & Ht & Hu & Hn & -> & Hs).
  rewrite (ClientFacts.fetch_with_credentials maxRetries formatHelsinki LocalTZA backend
             eleniaUsernameOf text username secret year Ht Hu Hn Hs).
  rewrite ClientFacts.bind_fst.
  destruct (ClientFacts.retryRun_cost maxRetries CognitoIdp _
              (ClientFacts.getCognitoToken_run maxRetries backend username secret))
    as (_ & _ & rest & ->).
  eexists. reflexivity.
Qed.

Lemma X16_witness :
  fst (EleniaClient.fetchConsumptionData 5 (fun _ => None) utcZone (answering household)
         plainUsername (Ok (Some "asiakas@example.org"%string)) (Ok None) "2024") = []
  /\ exists e,
       snd (EleniaClient.fetchConsumptionData 5 (fun _ => None) utcZone (answering household)
              plainUsername (Ok (Some "asiakas@example.org"%string)) (Ok None) "2024")
       = Err e.
Proof.
  apply (proj1 (X16_no_request_without_credentials 5 (fun _ => None) utcZone
                  (answering household) plainUsername
                  (Ok (Some "asiakas@example.org"%string)) (Ok None) "2024")).
  intros (text & username & secret & _ & _ & _ & _ & Hp & _). discriminate Hp.
Defined.

(** X17.  Whatever the server does, a fetch is a login phase, then a
    customer data phase, then a readings phase: each phase is one run of the
    request helper against its endpoint or is absent, and no phase takes
    place without the one before it.  A fetch therefore makes at most three
    times [maxRetries] requests and sleeps at most three times
    2^(maxRetries-1) - 1 seconds (15 requests and 45 seconds for the five
    attempts of the service). *)
Theorem X17_fetch_phases_and_cost (maxRetries : nat)
    (formatHelsinki : option Z -> option string) (LocalTZA : Z -> bool -> Z)
    (backend : Backend) (eleniaUsernameOf : string -> result (option string))
    (settings password : result (option string)) (year : string) :
  let trace := fst (EleniaClient.fetchConsumptionData maxRetries formatHelsinki LocalTZA
                      backend eleniaUsernameOf settings password year) in
  exists login customer readings,
    trace = login ++ customer ++ readings
    /\ phase maxRetries CognitoIdp login
    /\ phase maxRetries CustomerDataAndToken customer
    /\ phase maxRetries MeterReadingYh readings
    /\ (login = [] -> customer = [])
    /\ (customer = [] -> readings = [])
    /\ (requestCount trace <= 3 * Nat.max 1 maxRetries)%nat
    /\ sleepTotal trace <= 3 * (2 ^ Z.of_nat (maxRetries - 1) - 1).
Proof.
  cbv zeta.
  assert (Hshape : exists login customer readings,
             fst (EleniaClient.fetchConsumptionData maxRetries formatHelsinki LocalTZA
                    backend eleniaUsernameOf settings password year)
             = login ++ customer ++ readings
             /\ phase maxRetries CognitoIdp login
             /\ phase maxRetries CustomerDataAndToken customer
             /\ phase maxRetries MeterReadingYh readings
             /\ (login = [] -> customer = [])
             /\ (customer = [] -> readings = [])).
  { destruct (ClientFacts.fetch_cases maxRetries formatHelsinki LocalTZA backend
                eleniaUsernameOf settings password year)
      as [-> | (text & username & secret & Ht & Hu & Hn & Hs & -> & ->)].
    - exists [], [], []. repeat split; try (left; reflexivity); reflexivity.
    - rewrite (ClientFacts.fetch_with_credentials maxRetries formatHelsinki LocalTZA
                 backend eleniaUsernameOf text username secret year Ht Hu Hn Hs).
      destruct (ClientFacts.session_trace maxRetries formatHelsinki LocalTZA backend
                  username secret year) as (customer & readings & -> & Hc & Hr & Hcr).
      pose proof (ClientFacts.getCognitoToken_run maxRetries backend username secret) as Hl.
      exists (fst (EleniaClient.getCognitoToken maxRetries backend username secret)),
        customer, readings.
      split; [reflexivity |]. split; [right; exact Hl |]. split; [exact Hc |].
      split; [exact Hr |]. split; [| exact Hcr].
      intros E. exfalso. exact (ClientFacts.retryRun_nonempty _ _ _ Hl E). }
  destruct Hshape as (login & customer & readings & -> & Hl & Hc & Hr & Hlc & Hcr).
  exists login, customer, readings.
  split; [reflexivity |]. split; [exact Hl |]. split; [exact Hc |]. split; [exact Hr |].
  split; [exact Hlc |]. split; [exact Hcr |].
  rewrite !ClientFacts.requestCount_app, !ClientFacts.sleepTotal_app.
  destruct (ClientFacts.phase_cost maxRetries _ _ Hl) as [Hl1 Hl2].
  destruct (ClientFacts.phase_cost maxRetries _ _ Hc) as [Hc1 Hc2].
  destruct (ClientFacts.phase_cost maxRetries _ _ Hr) as [Hr1 Hr2].
  split; lia.
Qed.

(** X18.  A positive credential test means that the server answered: some
    login attempt with these credentials was not rejected, some request for
    the customer data with the token of that answer was not rejected, and
    the answer carried a non-empty API token and a first customer with a
    non-empty id.  The metering points play no part in the test. *)
Theorem X18_positive_test_means_answers (maxRetries : nat) (backend : Backend)
    (username password : string) :
  snd (EleniaClient.testEleniaCredentials maxRetries backend username password) = true ->
  exists n1 login n2 customer customerId meteringpoints others,
    (n1 <= maxRetries - 1)%nat /\ (n2 <= maxRetries - 1)%nat
    /\ initiateAuth backend username password n1 = Resolved login
    /\ customer_data_and_token backend (AccessToken (data login)) n2 = Resolved customer
    /\ token (data customer) <> EmptyString
    /\ customer_datas (data customer) = (customerId, meteringpoints) :: others
    /\ customerId <> EmptyString.
Proof.
  rewrite ClientFacts.testEleniaCredentials_snd, ClientFacts.bind_snd.
  unfold EleniaClient.getCognitoToken at 1. rewrite ClientFacts.bind_snd.
  destruct (ClientFacts.request_run maxRetries CognitoIdp
              (initiateAuth backend username password)) as (n1 & Hn1 & _ & ->).
  cbn [snd]. destruct (initiateAuth backend username password n1) as [login | e] eqn:E1;
    cbn [settle EleniaClient.ret snd]; [| discriminate].
  unfold EleniaClient.getCustomerData. rewrite ClientFacts.bind_snd.
  destruct (ClientFacts.request_run maxRetries CustomerDataAndToken
              (customer_data_and_token backend (AccessToken (data login))))
    as (n2 & Hn2 & _ & ->).
  cbn [snd].
  destruct (customer_data_and_token backend (AccessToken (data login)) n2)
    as [customer | e] eqn:E2; cbn [settle EleniaClient.await snd]; [| discriminate].
  unfold EleniaClient.readCustomerData.
  destruct (customer_datas (data customer)) as [| [cid meteringpoints] others] eqn:Ec;
    [discriminate |].
  cbn [apiToken customerId].
  rewrite andb_true_iff, !negb_true_iff. intros [Ht Hid].
  exists n1, login, n2, customer, cid, meteringpoints, others.
  repeat split; try assumption.
  - intros E. rewrite E in Ht. discriminate.
  - intros E. rewrite E in Hid. discriminate.
Qed.

Lemma X18_witness :
  exists n1 login n2 customer customerId meteringpoints others,
    (n1 <= 5 - 1)%nat /\ (n2 <= 5 - 1)%nat
    /\ initiateAuth (answering producerOnly) "asiakas@example.org" "salasana" n1
       = Resolved login
    /\ customer_data_and_token (answering producerOnly) (AccessToken (data login)) n2
       = Resolved customer
    /\ token (data customer) <> EmptyString
    /\ customer_datas (data customer) = (customerId, meteringpoints) :: others
    /\ customerId <> EmptyString.
Proof.
  apply (X18_positive_test_means_answers 5 (answering producerOnly)
           "asiakas@example.org" "salasana").
  vm_compute. reflexivity.
Defined.

(** X19.  A password the identity provider rejects costs every attempt:
    when each login attempt is rejected, the credential test and a fetch with
    the same credentials both make exactly the login requests
    0..maxRetries-1 with the sleeps in between (five requests and fifteen
    seconds for the service) and send nothing else; the test answers
    [false], the fetch fails with the error of the last attempt. *)
Theorem X19_refused_login_costs_every_attempt (maxRetries : nat)
    (formatHelsinki : option Z -> option string) (LocalTZA : Z -> bool -> Z)
    (backend : Backend) (eleniaUsernameOf : string -> result (option string))
    (text username password year : string) :
  text <> EmptyString -> eleniaUsernameOf text = Ok (Some username) ->
  username <> EmptyString -> password <> EmptyString ->
  (forall k, exists e, initiateAuth backend username password k = Rejected e) ->
  let attempts :=
    map (pair CognitoIdp) (retryLog 0 (maxRetries - 1) ++ [Request (maxRetries - 1)]) in
  EleniaClient.testEleniaCredentials maxRetries backend username password
  = (attempts, false)
  /\ exists e,
       initiateAuth backend username password (maxRetries - 1) = Rejected e
       /\ EleniaClient.fetchConsumptionData maxRetries formatHelsinki LocalTZA backend
            eleniaUsernameOf (Ok (Some text)) (Ok (Some password)) year
          = (attempts, Err e).
Proof.
  intros Ht Hu Hn Hp Hall. cbv zeta.
  destruct (ClientFacts.refused_login maxRetries backend username password Hall)
    as (e & He & Hlogin).
  split.
  - unfold EleniaClient.testEleniaCredentials. rewrite Hlogin. reflexivity.
  - exists e. split; [exact He |].
    rewrite (ClientFacts.fetch_with_credentials maxRetries formatHelsinki LocalTZA backend
               eleniaUsernameOf text username password year Ht Hu Hn Hp).
    rewrite Hlogin. reflexivity.
Qed.

Lemma X19_witness :
  EleniaClient.testEleniaCredentials 5 refusing "asiakas@example.org" "salasana"
  = (map (pair CognitoIdp)
       [Request 0; Sleep 1; Request 1; Sleep 2; Request 2; Sleep 4; Request 3; Sleep 8;
        Request 4],
     false).
Proof.
  refine (proj1 (X19_refused_login_costs_every_attempt 5 (fun _ => None) utcZone refusing
                   plainUsername "asiakas@example.org" "asiakas@example.org" "salasana"
                   "2024" _ eq_refl _ _ _)); try discriminate.
  intros k. eexists. reflexivity.
Defined.

(** *** The price data hook *)

Module HookFacts.
Import DataProcessor Ledger ProcessorFacts.

Lemma mapUpdate_const k (f : MonthlyData -> MonthlyData) d m :
  mapGet k m = Some d -> mapUpdate k (fun _ => f d) m = mapUpdate k f m.
Proof.
  induction m as [| [k' d'] m IH]; cbn [mapGet mapUpdate]; [discriminate |].
  destruct (String.eqb k k').
  - intros H. injection H as ->. reflexivity.
  - intros H. rewrite IH by exact H. reflexivity.
Qed.

Lemma mapUpdate_snoc k (f : MonthlyData -> MonthlyData) d m :
  mapGet k m = None -> mapUpdate k f (m ++ [(k, d)]) = m ++ [(k, f d)].
Proof.
  induction m as [| [k' d'] m IH]; cbn [mapGet mapUpdate app].
  - rewrite String.eqb_refl. reflexivity.
  - destruct (String.eqb k k'); [discriminate |].
    intros H. rewrite IH by exact H. reflexivity.
Qed.

Section WithHost.
Variable LocalTZA : Z -> bool -> Z.
Variable toLocaleMonthLong : option Z -> string.

(** The loop of the hook keeps the same map as the loop of the processor,
    with the month key of the hook. *)
Lemma addHour_recordEntry acc hour :
  UsePriceData.addHour LocalTZA toLocaleMonthLong (monthlyDataMap acc) hour
  = monthlyDataMap (recordEntry LocalTZA toLocaleMonthLong hour acc).
Proof.
  unfold UsePriceData.addHour, recordEntry, UsePriceData.monthKeyOf, monthKeyOf.
  cbn [monthlyDataMap].
  set (k := toLocaleMonthLong (JSDate.parse LocalTZA (timestamp hour))).
  unfold mapSet.
  destruct (mapGet k (monthlyDataMap acc)) as [d |] eqn:G.
  - apply mapUpdate_const, G.
  - symmetry. apply mapUpdate_snoc, G.
Qed.

Lemma months_fold hours : forall acc,
  fold_left (UsePriceData.addHour LocalTZA toLocaleMonthLong) hours (monthlyDataMap acc)
  = monthlyDataMap
      (fold_left (fun a e => recordEntry LocalTZA toLocaleMonthLong e a) hours acc).
Proof.
  induction hours as [| hour hours IH]; intros acc; [reflexivity |].
  cbn [fold_left]. rewrite addHour_recordEntry. apply IH.
Qed.

Lemma fold_inv hours : forall acc,
  AccInv LocalTZA toLocaleMonthLong acc ->
  AccInv LocalTZA toLocaleMonthLong
    (fold_left (fun a e => recordEntry LocalTZA toLocaleMonthLong e a) hours acc).
Proof.
  induction hours as [| hour hours IH]; intros acc Hacc; [exact Hacc |].
  cbn [fold_left]. apply IH, recordEntry_inv, Hacc.
Qed.

Lemma fold_combined hours : forall acc,
  combinedData (fold_left (fun a e => recordEntry LocalTZA toLocaleMonthLong e a) hours acc)
  = combinedData acc ++ hours.
Proof.
  induction hours as [| hour hours IH]; intros acc; cbn [fold_left].
  - rewrite app_nil_r. reflexivity.
  - rewrite IH. cbn [recordEntry combinedData]. rewrite <- app_assoc. reflexivity.
Qed.

End WithHost.
End HookFacts.

(** X20.  The monthly figures the hook shows are recomputed from the
    hourly records it shows, which are the records it was given with the
    margin applied, grouped by the month of the device's time zone; the
    summaries that came with the data are not used.  Every record's month has
    a summary, no month has two, and every summary has a record; its
    consumption and cost are the sums over the marked-up records of its
    month, rounded to two decimals, and its average price is their quotient,
    computed without a guard: for a month whose sums are both zero it is
    NaN. *)
Theorem X20_shown_months_are_recomputed (LocalTZA : Z -> bool -> Z)
    (toLocaleMonthLong : option Z -> string)
    (rawData : UsePriceData.PriceData) (spotMargin : float) :
  let shown := UsePriceData.applySpotMargin LocalTZA toLocaleMonthLong rawData spotMargin in
  UsePriceData.hourlyData shown
  = map (UsePriceData.withMargin spotMargin) (UsePriceData.hourlyData rawData)
  /\ (forall hour,
        In hour (UsePriceData.hourlyData shown) ->
        In (UsePriceData.monthKeyOf LocalTZA toLocaleMonthLong hour)
           (map mmonth (UsePriceData.monthlyData shown)))
  /\ List.NoDup (map mmonth (UsePriceData.monthlyData shown))
  /\ forall summary,
       In summary (UsePriceData.monthlyData shown) ->
       let members := Ledger.membersOf LocalTZA toLocaleMonthLong (mmonth summary)
                        (UsePriceData.hourlyData shown) in
       let consumption := Ledger.sumOf consumption_kWh members in
       let cost := Ledger.sumOf cost_euros members in
       members <> []
       /\ totalConsumption summary = JSNumber.Number (JSNumber.toFixed consumption 2)
       /\ totalCost summary = JSNumber.Number (JSNumber.toFixed cost 2)
       /\ averagePrice summary
          = JSNumber.Number (JSNumber.toFixed (cost / consumption * 100)%float 2)
       /\ (consumption = 0%float -> cost = 0%float ->
           JSNumber.isNaN (averagePrice summary) = true).
Proof.
  cbv zeta. unfold UsePriceData.applySpotMargin.
  cbn [UsePriceData.monthlyData UsePriceData.hourlyData].
  set (hours := map (UsePriceData.withMargin spotMargin) (UsePriceData.hourlyData rawData)).
  change (@nil (string * MonthlyData))
    with (DataProcessor.monthlyDataMap DataProcessor.emptyAcc).
  rewrite HookFacts.months_fold.
  set (acc := fold_left
                (fun a e => DataProcessor.recordEntry LocalTZA toLocaleMonthLong e a)
                hours DataProcessor.emptyAcc).
  pose proof (HookFacts.fold_inv LocalTZA toLocaleMonthLong hours _
                (ProcessorFacts.AccInv_empty LocalTZA toLocaleMonthLong)) as Hinv.
  fold acc in Hinv.
  assert (Hhours : DataProcessor.combinedData acc = hours)
    by (unfold acc; rewrite HookFacts.fold_combined; reflexivity).
  destruct Hinv as [Hnd Hkeys Hsums].
  assert (Hmonths : map mmonth
                      (map (fun kd => DataProcessor.finalizeMonthUnguarded (snd kd))
                         (DataProcessor.monthlyDataMap acc))
                    = map fst (DataProcessor.monthlyDataMap acc)).
  { rewrite map_map. apply map_ext_in. intros [k d] Hin.
    cbn [snd fst DataProcessor.finalizeMonthUnguarded mmonth].
    apply (Hsums k d). apply ProcessorFacts.In_mapGet; assumption. }
  split; [reflexivity |]. split.
  { intros hour Hhour. rewrite Hmonths. apply Hkeys. rewrite Hhours. exact Hhour. }
  split; [rewrite Hmonths; exact Hnd |].
  intros summary Hin. apply in_map_iff in Hin as ([k d] & <- & Hin). cbn [snd].
  destruct (Hsums k d (ProcessorFacts.In_mapGet k d _ Hnd Hin)) as (Ek & Ec & Et).
  rewrite Hhours in Ec, Et.
  cbn [DataProcessor.finalizeMonthUnguarded mmonth totalConsumption totalCost averagePrice].
  rewrite Ek, <- Ec, <- Et.
  split; [| repeat split].
  - assert (Hk : In k (map fst (DataProcessor.monthlyDataMap acc)))
      by (change k with (fst (k, d)); apply in_map, Hin).
    pose proof (JoinFacts.keys_have_members LocalTZA toLocaleMonthLong hours
                  DataProcessor.emptyAcc (fun k' (H : In k' []) => match H with end) k Hk)
      as (e & He & Eke).
    fold acc in He. rewrite Hhours in He.
    intros Hnone. unfold Ledger.membersOf in Hnone.
    assert (Hmem : In e (List.filter
                           (fun e0 => String.eqb
                              (DataProcessor.monthKeyOf LocalTZA toLocaleMonthLong e0) k)
                           hours)).
    { apply List.filter_In. split; [exact He |]. rewrite Eke. apply String.eqb_refl. }
    rewrite Hnone in Hmem. contradiction.
  - intros Hc0 Ht0. apply (OutputFacts.unguarded_average_of_zero_month d); congruence.
Qed.

(** X21.  Applying the margin is not idempotent.  The effect that runs
    when the margin setting changes applies the new margin to the state the
    hook holds after a fetch, whose hourly prices already include the margin
    of that fetch: the hourly prices then carry both margins, each rounded
    in turn, while the current price with margin, computed from the raw
    current price, carries the new margin only.  Timestamps and consumption
    are those of the fetched year. *)
Theorem X21_margin_is_added_again (LocalTZA : Z -> bool -> Z)
    (toLocaleMonthLong : option Z -> string)
    (prev : UsePriceData.PriceData) (currentSpotPrice : SpotPrice) (yearData : YearData)
    (margin margin' : float) :
  let held := UsePriceData.fetchData LocalTZA toLocaleMonthLong prev
                (Ok currentSpotPrice) (Ok yearData) margin in
  let shown := UsePriceData.reapplySpotMargin LocalTZA toLocaleMonthLong held margin' in
  map price_cents_per_kWh (UsePriceData.hourlyData shown)
  = map (fun hour =>
           JSNumber.Number
             (JSNumber.toFixed
                (JSNumber.Number (JSNumber.toFixed (price_cents_per_kWh hour + margin)%float 2)
                 + margin')%float 2))
      (hourly yearData)
  /\ UsePriceData.currentPriceWithMargin shown
     = UsePriceData.currentPriceWithMargin
         (UsePriceData.fetchData LocalTZA toLocaleMonthLong prev
            (Ok currentSpotPrice) (Ok yearData) margin')
  /\ map timestamp (UsePriceData.hourlyData shown) = map timestamp (hourly yearData)
  /\ map consumption_kWh (UsePriceData.hourlyData shown)
     = map consumption_kWh (hourly yearData).
Proof.
  cbv zeta. unfold UsePriceData.reapplySpotMargin, UsePriceData.fetchData.
  cbn [mbind result_bind].
  cbn [UsePriceData.applySpotMargin UsePriceData.isLoading UsePriceData.error negb andb].
  cbn [UsePriceData.applySpotMargin UsePriceData.hourlyData
       UsePriceData.currentPriceWithMargin UsePriceData.currentPrice].
  rewrite !map_map. cbn [UsePriceData.withMargin price_cents_per_kWh timestamp consumption_kWh].
  repeat split; try reflexivity; rewrite map_map; reflexivity.
Qed.

(** An hour at 5 c/kWh fetched with a margin of 1, the margin then set to
    2: the hour is shown at 8 c/kWh, the current price at 7. *)
Lemma X21_witness :
  let held := UsePriceData.fetchData utcZone isoMonthKey initialState
                (Ok fiveCents) (Ok oneHourYear) 1 in
  let shown := UsePriceData.reapplySpotMargin utcZone isoMonthKey held 2 in
  map price_cents_per_kWh (UsePriceData.hourlyData shown) = [8%float]
  /\ UsePriceData.currentPriceWithMargin shown = Some 7%float.
Proof.
  cbv zeta.
  destruct (X21_margin_is_added_again utcZone isoMonthKey initialState fiveCents
              oneHourYear 1 2) as (Hp & Hc & _).
  split.
  - rewrite Hp. vm_compute. reflexivity.
  - rewrite Hc. vm_compute. reflexivity.
Defined.

(** *** Texts: the margin field, the cache files *)

Module TextFacts.

#[local] Arguments String.append !_ _ / : simpl nomatch.

Lemma append_inj_l (a x y : string) : (a ++ x = a ++ y)%string -> x = y.
Proof.
  induction a as [| c a IH]; cbn [String.append]; [auto |].
  intros H. injection H as H. auto.
Qed.

Lemma append_inj_r (s : string) : forall x y : string, (x ++ s = y ++ s)%string -> x = y.
Proof.
  induction x as [| c x IH]; intros [| c' y] H; cbn [String.append] in H.
  - reflexivity.
  - apply (f_equal String.length) in H. cbn [String.length] in H.
    rewrite JSDateFacts.length_append in H. lia.
  - apply (f_equal String.length) in H. cbn [String.length] in H.
    rewrite JSDateFacts.length_append in H. lia.
  - injection H as -> H. f_equal. apply IH, H.
Qed.

Lemma without_app c (a b : string) :
  without c (a ++ b) = without c a && without c b.
Proof.
  induction a as [| c' a IH]; cbn [String.append without]; [reflexivity |].
  rewrite IH, andb_assoc. reflexivity.
Qed.

Lemma splitOn_nonempty c s : splitOn c s <> [].
Proof.
  destruct s as [| c' r]; cbn [splitOn]; [discriminate |].
  destruct (Ascii.eqb c' c); [discriminate |].
  destruct (splitOn c r); discriminate.
Qed.

Lemma splitOn_without c s : without c s = true -> splitOn c s = [s].
Proof.
  induction s as [| c' r IH]; cbn [without splitOn]; [reflexivity |].
  rewrite andb_true_iff, negb_true_iff. intros [-> Hr]. rewrite IH by exact Hr. reflexivity.
Qed.

Lemma splitOn_app c (a b : string) :
  without c a = true -> splitOn c (a ++ String c b) = a :: splitOn c b.
Proof.
  induction a as [| c' a IH]; cbn [without String.append splitOn].
  - intros _. rewrite Ascii.eqb_refl. reflexivity.
  - rewrite andb_true_iff, negb_true_iff. intros [-> Ha]. rewrite IH by exact Ha.
    reflexivity.
Qed.

(** Splitting undoes joining when no part holds the separator. *)
Lemma splitOn_joinWith c (parts : list string) :
  parts <> [] -> Forall (fun part => without c part = true) parts ->
  splitOn c (joinWith (String c EmptyString) parts) = parts.
Proof.
  induction parts as [| part rest IH]; intros Hne Hall; [contradiction |].
  apply Forall_cons_iff in Hall as [Hpart Hrest].
  destruct rest as [| next rest].
  - cbn [joinWith]. apply splitOn_without, Hpart.
  - change (joinWith (String c EmptyString) (part :: next :: rest))
      with (part ++ String c EmptyString ++ joinWith (String c EmptyString) (next :: rest))%string.
    cbn [String.append].
    rewrite splitOn_app by exact Hpart. f_equal. apply IH; [discriminate | exact Hrest].
Qed.

Lemma length_splitOn_dots s : length (splitOn "." s) = S (MarginField.dots s).
Proof.
  induction s as [| c r IH]; cbn [splitOn MarginField.dots]; [reflexivity |].
  destruct (Ascii.eqb c "."); cbn [length]; [rewrite IH; reflexivity |].
  destruct (splitOn "." r) eqn:E; [discriminate IH | exact IH].
Qed.

Lemma keep_allowed value :
  MarginField.digitsAndDots (SettingsScreen.keepDigitsAndDots value) = true.
Proof.
  induction value as [| c r IH]; cbn [SettingsScreen.keepDigitsAndDots]; [reflexivity |].
  destruct (SettingsScreen.isDigit c || Ascii.eqb c ".") eqn:E; [| exact IH].
  cbn [MarginField.digitsAndDots]. rewrite E, IH. reflexivity.
Qed.

Lemma keep_fixed s :
  MarginField.digitsAndDots s = true -> SettingsScreen.keepDigitsAndDots s = s.
Proof.
  induction s as [| c r IH]; cbn [MarginField.digitsAndDots SettingsScreen.keepDigitsAndDots];
    [reflexivity |].
  rewrite andb_true_iff. intros [-> Hr]. rewrite IH by exact Hr. reflexivity.
Qed.

(** The characters of an ISO date text. *)
Lemma digitChar_other d c :
  0 <= d <= 9 -> (N_of_ascii c < 48 \/ 57 < N_of_ascii c)%N ->
  Ascii.eqb (JSDate.digitChar d) c = false.
Proof.
  intros Hd Hc. apply Ascii.eqb_neq. intros <-. unfold JSDate.digitChar in Hc.
  rewrite N_ascii_embedding in Hc by lia. lia.
Qed.

Lemma without_padDigits c k n :
  (N_of_ascii c < 48 \/ 57 < N_of_ascii c)%N -> without c (JSDate.padDigits k n) = true.
Proof.
  intros Hc. induction k as [| k IH]; cbn [JSDate.padDigits without]; [reflexivity |].
  rewrite IH, digitChar_other; [reflexivity | | exact Hc].
  pose proof (Z.mod_pos_bound (n / 10 ^ Z.of_nat k) 10 ltac:(lia)). lia.
Qed.

Lemma without_iso c tv :
  (N_of_ascii c < 45 \/ 58 < N_of_ascii c)%N ->
  Ascii.eqb "T" c = false -> Ascii.eqb "Z" c = false -> Ascii.eqb "+" c = false ->
  without c (stripMillis (JSDate.toISOString tv)) = true.
Proof.
  intros Hc HT HZ HP.
  assert (Hd : (N_of_ascii c < 48 \/ 57 < N_of_ascii c)%N) by lia.
  assert (Hsym : forall c', (45 <= N_of_ascii c' <= 58)%N -> Ascii.eqb c' c = false).
  { intros c' Hc'. apply Ascii.eqb_neq. intros <-. lia. }
  rewrite JSDateFacts.stripMillis_toISOString. unfold JSDate.isoHead, JSDate.yearText.
  rewrite !without_app. cbn [without].
  rewrite !without_padDigits by exact Hd.
  rewrite !(Hsym "-"%char), !(Hsym ":"%char) by (cbn; lia). rewrite HT.
  cbn [negb andb].
  assert (Hyear : without c
                    (if (0 <=? JSDate.YearFromTime tv) && (JSDate.YearFromTime tv <=? 9999)
                     then JSDate.padDigits 4 (JSDate.YearFromTime tv)
                     else if JSDate.YearFromTime tv <? 0
                          then String "-" (JSDate.padDigits 6 (- JSDate.YearFromTime tv))
                          else String "+" (JSDate.padDigits 6 (JSDate.YearFromTime tv)))
                  = true \/ Ascii.eqb "+" c = true).
  { destruct ((0 <=? JSDate.YearFromTime tv) && (JSDate.YearFromTime tv <=? 9999));
      [left; apply without_padDigits, Hd |].
    destruct (JSDate.YearFromTime tv <? 0); cbn [without].
    - left. rewrite (Hsym "-"%char) by (cbn; lia). apply without_padDigits, Hd.
    - destruct (Ascii.eqb "+" c) eqn:Ep; [right; reflexivity | left].
      apply without_padDigits, Hd. }
  destruct Hyear as [-> | Hp].
  - destruct (JSDate.msFromTime tv =? 0); cbn [without String.append].
    + rewrite HZ. reflexivity.
    + rewrite without_app, without_padDigits by exact Hd. cbn [without].
      rewrite (Hsym "."%char) by (cbn; lia). rewrite HZ. reflexivity.
  - rewrite HP in Hp. discriminate Hp.
Qed.

End TextFacts.

(** X22.  Typing never puts anything but digits with at most one decimal
    point into the margin field: [handleSpotMarginChange] takes the digits and
    points of the input when they contain at most one point and keeps the
    text of the field otherwise, and a well-formed input is taken as it is.
    The screen itself writes the stored margin into the field unfiltered, so
    after any sequence of writes the field holds a well-formed text, or the
    text it started with, or a text loaded from the settings; a stored
    margin such as 1e-7 is shown as it is and survives a rejected typing.
    A sign can never be typed. *)
Theorem X22_typing_keeps_the_field_well_formed (spotMargin : string)
    (writes : list SettingsScreen.FieldWrite) :
  let shown := fold_left SettingsScreen.writeField writes spotMargin in
  (forall value,
      SettingsScreen.handleSpotMarginChange spotMargin value
      = if (MarginField.dots (SettingsScreen.keepDigitsAndDots value) <=? 1)%nat
        then SettingsScreen.keepDigitsAndDots value else spotMargin)
  /\ (forall value,
        MarginField.wellFormed value ->
        SettingsScreen.handleSpotMarginChange spotMargin value = value)
  /\ (MarginField.wellFormed shown
      \/ shown = spotMargin
      \/ exists stored, In (SettingsScreen.Loaded stored) writes /\ shown = stored)
  /\ (MarginField.wellFormed spotMargin ->
      (forall stored, In (SettingsScreen.Loaded stored) writes ->
                      MarginField.wellFormed stored) ->
      MarginField.wellFormed shown)
  /\ fold_left SettingsScreen.writeField
       [SettingsScreen.Loaded "1e-7"; SettingsScreen.Typed "1.2.3"] spotMargin
     = "1e-7"%string.
Proof.
  cbv zeta.
  assert (Hhandle : forall field value,
             SettingsScreen.handleSpotMarginChange field value
             = if (MarginField.dots (SettingsScreen.keepDigitsAndDots value) <=? 1)%nat
               then SettingsScreen.keepDigitsAndDots value else field).
  { intros field value. unfold SettingsScreen.handleSpotMarginChange.
    rewrite TextFacts.length_splitOn_dots.
    destruct (Nat.ltb_spec 2 (S (MarginField.dots (SettingsScreen.keepDigitsAndDots value))));
      destruct (Nat.leb_spec (MarginField.dots (SettingsScreen.keepDigitsAndDots value)) 1);
      try reflexivity; lia. }
  assert (Hstep : forall field value,
             MarginField.wellFormed (SettingsScreen.handleSpotMarginChange field value)
             \/ SettingsScreen.handleSpotMarginChange field value = field).
  { intros field value. rewrite Hhandle.
    destruct (Nat.leb_spec (MarginField.dots (SettingsScreen.keepDigitsAndDots value)) 1)
      as [Hle | _]; [left | right; reflexivity].
    split; [apply TextFacts.keep_allowed | exact Hle]. }
  assert (Hall : forall ws field,
             MarginField.wellFormed (fold_left SettingsScreen.writeField ws field)
             \/ fold_left SettingsScreen.writeField ws field = field
             \/ exists stored,
                  In (SettingsScreen.Loaded stored) ws
                  /\ fold_left SettingsScreen.writeField ws field = stored).
  { induction ws as [| w ws IH] using rev_ind; intros field.
    - right. left. reflexivity.
    - rewrite fold_left_app. cbn [fold_left]. destruct w as [value | stored].
      + cbn [SettingsScreen.writeField].
        destruct (Hstep (fold_left SettingsScreen.writeField ws field) value) as [Hwf | ->].
        * left. exact Hwf.
        * destruct (IH field) as [Hwf | [E | (stored & Hin & E)]].
          -- left. exact Hwf.
          -- right. left. exact E.
          -- right. right. exists stored. split; [apply in_or_app; left; exact Hin | exact E].
      + right. right. exists stored.
        split; [apply in_or_app; right; left; reflexivity | reflexivity]. }
  split; [apply Hhandle |]. split.
  { intros value [Hchars Hdots]. rewrite Hhandle, TextFacts.keep_fixed by exact Hchars.
    destruct (Nat.leb_spec (MarginField.dots value) 1); [reflexivity | lia]. }
  split; [apply Hall |]. split; [| reflexivity].
  intros Hstart Hloaded.
  destruct (Hall writes spotMargin) as [Hwf | [-> | (stored & Hin & ->)]];
    [exact Hwf | exact Hstart | apply Hloaded, Hin].
Qed.

Lemma X22_witness :
  MarginField.wellFormed
    (fold_left SettingsScreen.writeField
       [SettingsScreen.Typed "-1.5.2 c/kWh"; SettingsScreen.Loaded "2";
        SettingsScreen.Typed "0,75"] "1.5").
Proof.
  apply (proj1 (proj2 (proj2 (proj2
           (X22_typing_keeps_the_field_well_formed "1.5"
              [SettingsScreen.Typed "-1.5.2 c/kWh"; SettingsScreen.Loaded "2";
               SettingsScreen.Typed "0,75"]))))).
  - split; [reflexivity | cbn; lia].
  - intros stored [E | [E | [E | []]]]; try discriminate E.
    injection E as <-. split; [reflexivity | cbn; lia].
Defined.

(** X23.  Each year has a cache file of its own: in either service the
    paths of two different years differ, so the dataset of one year can never
    be read or overwritten as that of another. *)
Theorem X23_one_cache_file_per_year (directory year year' : string) :
  year <> year' ->
  DataProcessor.getCacheFilePath directory year
  <> DataProcessor.getCacheFilePath directory year'
  /\ VattenfallService.getCacheFilePath directory year
     <> VattenfallService.getCacheFilePath directory year'.
Proof.
  intros Hne. unfold DataProcessor.getCacheFilePath, VattenfallService.getCacheFilePath.
  split; intros E; apply Hne;
    apply TextFacts.append_inj_l, TextFacts.append_inj_l, TextFacts.append_inj_r in E;
    exact E.
Qed.

Lemma X23_witness :
  DataProcessor.getCacheFilePath "file:///cache/data/" "2023"
  <> DataProcessor.getCacheFilePath "file:///cache/data/" "2024"
  /\ VattenfallService.getCacheFilePath "file:///cache/data/" "2023"
     <> VattenfallService.getCacheFilePath "file:///cache/data/" "2024".
Proof.
  apply (X23_one_cache_file_per_year "file:///cache/data/" "2023" "2024"). discriminate.
Defined.

Module CsvFacts.
Import VattenfallService.

#[local] Arguments String.append !_ _ / : simpl nomatch.

Section Csv.
Variable numberToString : float -> string.
Variable stringToNumber : string -> float.

Lemma parseRow_csvRow row :
  Csv.safeRow numberToString stringToNumber row ->
  parseRow stringToNumber (csvRow numberToString row) = row.
Proof.
  intros (Hts & _ & Hnum & _ & Hround). unfold parseRow, csvRow.
  cbn [String.append]. rewrite TextFacts.splitOn_app by exact Hts.
  rewrite TextFacts.splitOn_without by exact Hnum. rewrite Hround.
  destruct row. reflexivity.
Qed.

Lemma csvRow_one_line row :
  Csv.safeRow numberToString stringToNumber row ->
  without LF (csvRow numberToString row) = true.
Proof.
  intros (_ & Hts & _ & Hnum & _). unfold csvRow.
  rewrite TextFacts.without_app, Hts. cbn [String.append without]. rewrite Hnum. reflexivity.
Qed.

Lemma parseRows_csvRows data :
  Forall (Csv.safeRow numberToString stringToNumber) data ->
  map (parseRow stringToNumber) (map (csvRow numberToString) data) = data.
Proof.
  induction 1 as [| r l Hr _ IH]; [reflexivity |].
  cbn [map]. rewrite parseRow_csvRow by exact Hr. rewrite IH. reflexivity.
Qed.

Lemma parseCSV_convertToCSV data :
  Forall (Csv.safeRow numberToString stringToNumber) data ->
  parseCSV stringToNumber (convertToCSV numberToString data) = data.
Proof.
  intros Hall. destruct data as [| row data]; [reflexivity |].
  unfold parseCSV, convertToCSV.
  rewrite TextFacts.splitOn_joinWith.
  - cbn [tl]. apply parseRows_csvRows, Hall.
  - discriminate.
  - constructor; [reflexivity |].
    apply List.Forall_forall. intros line Hline.
    apply in_map_iff in Hline as (r & <- & Hr).
    apply csvRow_one_line. rewrite List.Forall_forall in Hall. apply Hall, Hr.
Qed.

End Csv.
End CsvFacts.

(** X24.  The CSV text of the price cache gives its rows back:
    [parseCSV] inverts [convertToCSV] on every list of rows whose fields
    contain neither the field separator nor a line feed and whose numbers
    are given back by their text (the empty list included).  The timestamps
    of the rows [fetchPriceData] returns are always of that kind, so for the
    rows it writes only the numbers matter. *)
Theorem X24_csv_round_trip (LocalTZA : Z -> bool -> Z)
    (numberToString : float -> string) (stringToNumber : string -> float) :
  (forall data,
      Forall (Csv.safeRow numberToString stringToNumber) data ->
      VattenfallService.parseCSV stringToNumber
        (VattenfallService.convertToCSV numberToString data) = data)
  /\ (forall raw processed,
        VattenfallService.fetchPriceData LocalTZA (Ok raw) = Ok processed ->
        Forall (Csv.safeNumber numberToString stringToNumber) processed ->
        VattenfallService.parseCSV stringToNumber
          (VattenfallService.convertToCSV numberToString processed) = processed).
Proof.
  split; [apply CsvFacts.parseCSV_convertToCSV |].
  intros raw processed Hfetch Hnum. apply CsvFacts.parseCSV_convertToCSV.
  apply PriceFacts.fetchPriceData_Ok in Hfetch.
  induction Hfetch as [| row p raw processed (tv & _ & Hts & _) _ IH]; [constructor |].
  apply Forall_cons_iff in Hnum as [(H1 & H2 & H3) Hrest].
  constructor; [| apply IH, Hrest].
  unfold Csv.safeRow. rewrite Hts.
  rewrite !TextFacts.without_iso
    by (try reflexivity; cbn; lia).
  auto.
Qed.

Lemma X24_witness :
  VattenfallService.parseCSV (fun _ => 6.27%float)
    (VattenfallService.convertToCSV (fun _ => "6.27"%string) [dstPrice; dstPrice])
  = [dstPrice; dstPrice].
Proof.
  apply (proj1 (X24_csv_round_trip utcZone (fun _ => "6.27"%string) (fun _ => 6.27%float))).
  repeat constructor.
Defined.

(** *** The normalisation of the consumption service and the join *)

Module NormalisationFacts.
Import DataProcessor Ledger.

Section WithHost.
Variable formatHelsinki : option Z -> option string.
Variable LocalTZA : Z -> bool -> Z.

Lemma parse_empty : JSDate.parse LocalTZA "" = None.
Proof. reflexivity. Qed.

(** A reading is joined to the same record before and after the
    conversion of its timestamp. *)
Lemma joinReading_convertReading prices reading :
  instantPreserved LocalTZA formatHelsinki reading ->
  joinReading LocalTZA prices (EleniaService.convertReading formatHelsinki LocalTZA reading)
  = joinReading LocalTZA prices reading.
Proof.
  intros (ts & Ht & Hsame). unfold joinReading, EleniaService.convertReading.
  cbn [v t]. unfold EleniaService.convertTimestamp. rewrite Ht. cbn [JSDate.newDate].
  destruct (v reading) as [| | | x |]; try reflexivity.
  destruct (JSNumber.isNaN x); [reflexivity |].
  destruct (formatHelsinki (JSDate.parse LocalTZA ts)) as [s |] eqn:Hf; [| reflexivity].
  specialize (Hsame s eq_refl). unfold readingKey. rewrite Hsame.
  destruct (String.eqb_spec s "") as [-> | Hs];
    destruct (String.eqb_spec ts "") as [-> | Hts]; try reflexivity.
  rewrite <- Hsame, parse_empty. reflexivity.
Qed.

Lemma joined_after_conversion prices readings :
  Forall (instantPreserved LocalTZA formatHelsinki) readings ->
  omap (joinReading LocalTZA prices)
    (map (EleniaService.convertReading formatHelsinki LocalTZA) readings)
  = omap (joinReading LocalTZA prices) readings.
Proof.
  induction 1 as [| r l Hr _ IH]; [reflexivity |].
  cbn [map omap list_omap]. rewrite joinReading_convertReading by exact Hr.
  rewrite IH. reflexivity.
Qed.

End WithHost.
End NormalisationFacts.

(** X25.  The timestamp normalisation of the consumption service does
    not change the result of the reconciliation: when the timestamps of the
    selected readings are texts and the formatter renders each of them, if
    at all, as a text of the same instant, the dataset built from the
    normalised response is the dataset built from the response as it
    arrived. *)
Theorem X25_normalisation_is_invisible_in_the_result
    (formatHelsinki : option Z -> option string) (LocalTZA : Z -> bool -> Z)
    (toLocaleMonthUTC : option Z -> string) (now : Z)
    (response : AxiosResponse MeterReadingResponse) (pricesArray : list PriceData) :
  Forall (Ledger.instantPreserved LocalTZA formatHelsinki)
    (Ledger.selectedReadings [data response]) ->
  exists normalised,
    EleniaService.getMeterReadings formatHelsinki LocalTZA (Ok response) = Ok normalised
    /\ DataProcessor.reconcile LocalTZA toLocaleMonthUTC now [normalised] pricesArray
       = DataProcessor.reconcile LocalTZA toLocaleMonthUTC now [data response] pricesArray.
Proof.
  intros Hall. eexists. split; [reflexivity |].
  unfold DataProcessor.reconcile.
  rewrite !JoinFacts.accumulate_joined. unfold Ledger.joinedRecords.
  rewrite SelectionFacts.selectedReadings_normalised.
  rewrite NormalisationFacts.joined_after_conversion by exact Hall. reflexivity.
Qed.

Lemma X25_witness :
  exists normalised,
    EleniaService.getMeterReadings helsinkiWinter utcZone (Ok utcResponse) = Ok normalised
    /\ DataProcessor.reconcile utcZone isoMonthKey 0 [normalised] [dstPrice]
       = DataProcessor.reconcile utcZone isoMonthKey 0 [data utcResponse] [dstPrice].
Proof.
  apply (X25_normalisation_is_invisible_in_the_result helsinkiWinter utcZone isoMonthKey 0
           utcResponse [dstPrice]).
  constructor; [| constructor].
  exists "2024-03-31T00:30:00.000Z"%string. split; [reflexivity |].
  intros s Hs. vm_compute in Hs. injection Hs as <-. vm_compute. reflexivity.
Defined.

(** X26.  On the months the consumption service returns, the two copies
    of the processor kept in the repository select the same readings,
    although one looks at the netted variant first and the other at the
    gross one: after the normalisation at most one variant is non-empty. *)
Theorem X26_both_copies_select_the_same_readings
    (formatHelsinki : option Z -> option string) (LocalTZA : Z -> bool -> Z)
    (response : AxiosResponse MeterReadingResponse)
    (normalised : MeterReadingResponse) (m : Month) :
  EleniaService.getMeterReadings formatHelsinki LocalTZA (Ok response) = Ok normalised ->
  In m (months normalised) ->
  Ledger.readingsOfGrossFirst m = Ledger.readingsOf m.
Proof.
  intros Hget Hin. cbn in Hget. injection Hget as <-. cbn [months] in Hin.
  apply in_map_iff in Hin as (m0 & <- & _).
  apply (ProcessorFacts.legacy_selection_after_normalisation LocalTZA).
Qed.

Lemma X26_witness :
  Ledger.readingsOfGrossFirst
    (EleniaService.normalizeMonth (fun _ => None) utcZone bothMonth)
  = Ledger.readingsOf (EleniaService.normalizeMonth (fun _ => None) utcZone bothMonth).
Proof.
  apply (X26_both_copies_select_the_same_readings (fun _ => None) utcZone
           {| status := 200; data := {| months := [bothMonth] |} |}
           {| months := [EleniaService.normalizeMonth (fun _ => None) utcZone bothMonth] |}
           (EleniaService.normalizeMonth (fun _ => None) utcZone bothMonth)).
  - reflexivity.
  - left. reflexivity.
Defined.

(** X27.  Whatever the server sends, a successful fetch hands the
    processor at most one response, and in every month of it at most one of
    the two reading variants is non-empty. *)
Theorem X27_fetched_months_have_one_variant (maxRetries : nat)
    (formatHelsinki : option Z -> option string) (LocalTZA : Z -> bool -> Z)
    (backend : Backend) (eleniaUsernameOf : string -> result (option string))
    (settings password : result (option string)) (year : string)
    (results : list MeterReadingResponse) :
  snd (EleniaClient.fetchConsumptionData maxRetries formatHelsinki LocalTZA backend
         eleniaUsernameOf settings password year) = Ok results ->
  (length results <= 1)%nat
  /\ forall response m,
       In response results -> In m (months response) ->
       EleniaService.nonEmpty (hourly_values_netted m)
       && EleniaService.nonEmpty (hourly_values m) = false.
Proof.
  intros Hfetch.
  destruct (ClientFacts.fetch_results maxRetries formatHelsinki LocalTZA backend
              eleniaUsernameOf settings password year results Hfetch) as [-> | [raw ->]].
  - split; [cbn; lia | intros response m []].
  - split; [cbn; lia |].
    intros response m [<- | []] Hm. cbn [months] in Hm.
    apply in_map_iff in Hm as (m0 & <- & _).
    apply ClientFacts.normalizeMonth_one_variant.
Qed.

Lemma X27_witness :
  (length [ {| months := [EleniaService.normalizeMonth (fun _ => None) utcZone
                            (monthOf (Some [dstReading]) None)] |} ] <= 1)%nat
  /\ forall response m,
       In response
         [ {| months := [EleniaService.normalizeMonth (fun _ => None) utcZone
                           (monthOf (Some [dstReading]) None)] |} ] ->
       In m (months response) ->
       EleniaService.nonEmpty (hourly_values_netted m)
       && EleniaService.nonEmpty (hourly_values m) = false.
Proof.
  apply (X27_fetched_months_have_one_variant 5 (fun _ => None) utcZone (answering household)
           plainUsername (Ok (Some "asiakas@example.org"%string))
           (Ok (Some "salasana"%string)) "2024").
  vm_compute. reflexivity.
Defined.

(** X28.  The history depends on the current price: when the price list
    of the day is empty, or holds no entry in the current hour of the device,
    the hook reports "No price data available", respectively "Current hour
    price not found", and keeps the data it showed before; what
    [combineData] would give for the year plays no part. *)
Theorem X28_no_current_price_no_history (LocalTZA : Z -> bool -> Z)
    (toLocaleMonthLong : option Z -> string) (prev : UsePriceData.PriceData)
    (today : list PriceData) (now : Z) (yearData : result YearData) (spotMargin : float) :
  Forall (fun entry => SpotPriceService.isCurrentHour LocalTZA now entry = false) today ->
  let shown :=
    UsePriceData.fetchData LocalTZA toLocaleMonthLong prev
      (SpotPriceService.getCurrentSpotPrice LocalTZA (Ok (Some today)) now)
      yearData spotMargin in
  UsePriceData.error shown
  = Some (match today with
          | [] => "No price data available"
          | _ => "Current hour price not found"
          end)%string
  /\ UsePriceData.isLoading shown = false
  /\ UsePriceData.hourlyData shown = UsePriceData.hourlyData prev
  /\ UsePriceData.monthlyData shown = UsePriceData.monthlyData prev
  /\ UsePriceData.currentPrice shown = UsePriceData.currentPrice prev
  /\ UsePriceData.currentPriceWithMargin shown = UsePriceData.currentPriceWithMargin prev.
Proof.
  intros Hnone. cbv zeta.
  assert (Hfind : List.find (SpotPriceService.isCurrentHour LocalTZA now) today = None).
  { induction Hnone as [| entry rest He _ IH]; [reflexivity |].
    cbn [List.find]. rewrite He. exact IH. }
  unfold SpotPriceService.getCurrentSpotPrice. cbn [mbind result_bind].
  destruct today as [| entry rest].
  - cbn. repeat split.
  - rewrite Hfind. cbn. repeat split.
Qed.

Lemma X28_witness :
  UsePriceData.error
    (UsePriceData.fetchData utcZone isoMonthKey initialState
       (SpotPriceService.getCurrentSpotPrice utcZone (Ok (Some [dstRawPrice])) nextMorning)
       (Ok oneHourYear) 1)
  = Some "Current hour price not found"%string.
Proof.
  apply (X28_no_current_price_no_history utcZone isoMonthKey initialState [dstRawPrice]
           nextMorning (Ok oneHourYear) 1).
  constructor; [vm_compute; reflexivity | constructor].
Defined.
